(** * GitHub dashboard client: a shallow embedding of [github_client.py]

    The development follows the Python module function by function.
    Python values are given as an inductive type, the HTTP session as an
    explicit environment plus a log of the requests issued, and exceptions
    as an outcome of every computation, so that each [try]/[except] of the
    source appears as such.  The caller of the client in
    [data_manager.py] follows: the loader of the repository list and the
    loop that fetches one record per repository. *)

From Stdlib Require Import ZArith List String Ascii Bool Lia.
From Stdlib Require Import DecimalString SpecFloat.
Import ListNotations.

Set Warnings "-register-all".

Local Open Scope string_scope.
Local Open Scope Z_scope.

(* ================================================================== *)
(** * Part I: the model *)
(* ================================================================== *)

(* ================================================================== *)
(** ** Python string primitives *)
(* ================================================================== *)

Module Py.

(** [len(s)] for a string of 8-bit characters (HTTP headers are latin-1). *)
Definition str_len (s : string) : Z := Z.of_nat (String.length s).

(** [s.startswith(p)]. *)
Fixpoint startswith (p s : string) : bool :=
  match p with
  | EmptyString => true
  | String a p' =>
      match s with
      | EmptyString => false
      | String b s' => Ascii.eqb a b && startswith p' s'
      end
  end.

(** [sub in s]: [sub] occurs somewhere in [s]. *)
Fixpoint contains (sub s : string) : bool :=
  startswith sub s ||
  match s with
  | EmptyString => false
  | String _ s' => contains sub s'
  end.

(** [s.split(sep)] for a non-empty separator: the pieces between the
    non-overlapping occurrences of [sep], scanned from the left.  [skip]
    counts the characters of a matched separator still to be dropped and
    [cur] holds the current piece reversed. *)
Fixpoint split_go (sep s : string) (skip : nat) (cur : list ascii)
  : list string :=
  match s with
  | EmptyString => [string_of_list_ascii (rev cur)]
  | String c s' =>
      match skip with
      | S k => split_go sep s' k cur
      | O =>
          if startswith sep s
          then string_of_list_ascii (rev cur)
                 :: split_go sep s' (String.length sep - 1) []
          else split_go sep s' 0 (c :: cur)
      end
  end.

Definition split (sep s : string) : list string := split_go sep s 0 [].

(** [l[0]], [l[1]] and [l[-1]]; [None] stands for [IndexError]. *)
Definition index0 (l : list string) : option string := nth_error l 0.
Definition index1 (l : list string) : option string := nth_error l 1.
Definition index_last (l : list string) : option string :=
  nth_error (rev l) 0.

(** [str.isspace] on one latin-1 character: TAB..CR, FS..US, space,
    NEL and NBSP. *)
Definition is_space (c : ascii) : bool :=
  let n := N.to_nat (N_of_ascii c) in
  ((9 <=? n) && (n <=? 13) || (28 <=? n) && (n <=? 32)
   || (n =? 133) || (n =? 160))%nat.

Fixpoint lstrip_by (p : ascii -> bool) (s : string) : string :=
  match s with
  | EmptyString => EmptyString
  | String c s' => if p c then lstrip_by p s' else s
  end.

Definition rev_string (s : string) : string :=
  string_of_list_ascii (rev (list_ascii_of_string s)).

Definition strip_by (p : ascii -> bool) (s : string) : string :=
  rev_string (lstrip_by p (rev_string (lstrip_by p s))).

(** [s.strip()]. *)
Definition strip (s : string) : string := strip_by is_space s.

Fixpoint mem_char (c : ascii) (chars : string) : bool :=
  match chars with
  | EmptyString => false
  | String d chars' => Ascii.eqb c d || mem_char c chars'
  end.

(** [s.strip(chars)]: drops leading and trailing characters that occur in
    [chars]. *)
Definition strip_chars (chars s : string) : string :=
  strip_by (fun c => mem_char c chars) s.

(** Decimal digit value of a character. *)
Definition digit_of (c : ascii) : option Z :=
  let n := Z.of_N (N_of_ascii c) in
  if (48 <=? n) && (n <=? 57) then Some (n - 48) else None.

(** The digits of an [int()] literal: one or more digits, single
    underscores allowed between digits only.  [prev] tells whether the
    previous character was a digit. *)
Fixpoint int_digits (s : string) (prev : bool) (acc : Z) : option Z :=
  match s with
  | EmptyString => if prev then Some acc else None
  | String c s' =>
      match digit_of c with
      | Some d => int_digits s' true (10 * acc + d)
      | None =>
          if Ascii.eqb c "_" && prev then int_digits s' false acc else None
      end
  end.

(** The whitespace that [int()] ignores around a literal: TAB..CR,
    space, NEL and NBSP (the separators FS..US are not among it). *)
Definition is_int_space (c : ascii) : bool :=
  let n := N.to_nat (N_of_ascii c) in
  ((9 <=? n) && (n <=? 13) || (n =? 32) || (n =? 133) || (n =? 160))%nat.

(** [int(s)] in base 10: surrounding whitespace is ignored, an optional
    sign precedes the digits.  [None] stands for [ValueError].  (Latin-1
    has no decimal digits besides 0-9; the interpreter's cap on the
    number of digits is left out.) *)
Definition int_of_str (s : string) : option Z :=
  match strip_by is_int_space s with
  | String "-" r => option_map Z.opp (int_digits r false 0)
  | String "+" r => int_digits r false 0
  | r => int_digits r false 0
  end.

(** [str(n)] for an integer. *)
Definition str_of_int (n : Z) : string :=
  NilZero.string_of_int (Z.to_int n).

End Py.

(* ================================================================== *)
(** ** Python values, exceptions and the HTTP environment *)
(* ================================================================== *)

(** A decoded JSON document, as [response.json()] returns it.  A dict is
    kept as its list of items; keys are looked up from the left. *)
Inductive pyval : Type :=
| PNone
| PBool (b : bool)
| PInt (n : Z)
| PFloat (f : spec_float)
| PStr (s : string)
| PList (items : list pyval)
| PDict (items : list (string * pyval)).

(** The exception classes that can occur in the client.  The first four
    are what [requests] raises from [session.get]. *)
Inductive exn_class : Type :=
| ConnectionError | Timeout | TooManyRedirects | InvalidURL
| HTTPError | JSONDecodeError
| ValueError | IndexError | TypeError | AttributeError | OverflowError.

Record exn : Type := mkExn { exn_cls : exn_class; exn_str : string }.

(** [isinstance(e, requests.exceptions.RequestException)].  The decoding
    error of [response.json()] is one since requests 2.27. *)
Definition is_RequestException (e : exn) : bool :=
  match exn_cls e with
  | ConnectionError | Timeout | TooManyRedirects | InvalidURL
  | HTTPError | JSONDecodeError => true
  | _ => false
  end.

(** [isinstance(e, ValueError)]: [InvalidURL] and [JSONDecodeError] also
    derive from [ValueError]. *)
Definition is_ValueError (e : exn) : bool :=
  match exn_cls e with
  | ValueError | InvalidURL | JSONDecodeError => true
  | _ => false
  end.

Definition is_IndexError (e : exn) : bool :=
  match exn_cls e with IndexError => true | _ => false end.

(** [isinstance(e, Exception)]: every class above. *)
Definition is_Exception (_ : exn) : bool := true.

(** The errors [session.get] itself raises, with their description. *)
Inductive transport_error : Type :=
| TConnectionError | TTimeout | TTooManyRedirects | TInvalidURL.

Definition class_of_transport (t : transport_error) : exn_class :=
  match t with
  | TConnectionError => ConnectionError
  | TTimeout => Timeout
  | TTooManyRedirects => TooManyRedirects
  | TInvalidURL => InvalidURL
  end.

(** The body of a response: text that is not JSON (with the decoder's
    complaint) or a decoded document. *)
Inductive Body : Type :=
| Undecodable (complaint : string)
| Json (v : pyval).

(** What the client reads of a [requests.Response].  [link] is the value
    of [response.headers["Link"]], when that header is there. *)
Record Response : Type := mkResponse {
  status_code : Z;
  reason : string;
  url : string;
  link : option string;
  body : Body
}.

Record Request : Type := mkRequest {
  rq_url : string;
  rq_params : list (string * string)
}.

Inductive Outcome : Type :=
| Fails (t : transport_error) (description : string)
| Responds (r : Response).

(** The environment of one run: the server's answer to the [n]-th request
    of the session, and the two readings of the clock the client takes
    ([datetime.now()] less 30 days, and [datetime.now()], both in ISO
    format). *)
Record World : Type := mkWorld {
  server : nat -> Request -> Outcome;
  since_date : string;
  now_iso : string
}.

(** What a run leaves behind: the requests issued, oldest first, and the
    lines printed. *)
Record State : Type := mkState {
  requests : list Request;
  stdout : list string
}.

Definition initial : State := mkState [] [].

(** The result of a computation: a value, a raised exception, or the
    exhaustion of the fuel given to a loop. *)
Inductive result (A : Type) : Type :=
| Return (a : A)
| Raise (e : exn)
| OutOfFuel.
Arguments Return {A} a.
Arguments Raise {A} e.
Arguments OutOfFuel {A}.

Definition M (A : Type) : Type := State -> result A * State.

Definition ret {A} (a : A) : M A := fun s => (Return a, s).

Definition raise {A} (e : exn) : M A := fun s => (Raise e, s).

Definition bind {A B} (m : M A) (k : A -> M B) : M B :=
  fun s =>
    match m s with
    | (Return a, s') => k a s'
    | (Raise e, s') => (Raise e, s')
    | (OutOfFuel, s') => (OutOfFuel, s')
    end.

(** [try: m  except <classes>: handler]. *)
Definition try_except {A} (m : M A) (catches : exn -> bool)
  (handler : exn -> M A) : M A :=
  fun s =>
    match m s with
    | (Raise e, s') => if catches e then handler e s' else (Raise e, s')
    | other => other
    end.

Declare Scope py_scope.
Delimit Scope py_scope with py.
Notation "x <- m ;; k" := (bind m (fun x => k))
  (at level 61, m at next level, right associativity) : py_scope.
Notation "m ;;; k" := (bind m (fun _ => k))
  (at level 61, right associativity) : py_scope.
Local Open Scope py_scope.

(** Lifting of a partial primitive: [None] raises the given exception. *)
Definition or_raise {A} (o : option A) (e : exn) : M A :=
  match o with
  | Some a => ret a
  | None => raise e
  end.

Definition index_error : exn := mkExn IndexError "list index out of range".
Definition value_error : exn :=
  mkExn ValueError "invalid literal for int() with base 10".
Definition type_error : exn := mkExn TypeError "object has no len()".
Definition attribute_error : exn :=
  mkExn AttributeError "object has no attribute 'get'".
Definition overflow_error : exn :=
  mkExn OverflowError "int too large to convert to float".

(** [int(s)]. *)
Definition py_int (s : string) : M Z := or_raise (Py.int_of_str s) value_error.

(** Number of distinct keys among the items of a dict. *)
Definition dict_len (items : list (string * pyval)) : Z :=
  Z.of_nat (List.length (nodup string_dec (map fst items))).

(** [len(v)] where it is defined: lists, dicts and strings. *)
Definition len_of (v : pyval) : option Z :=
  match v with
  | PList items => Some (Z.of_nat (List.length items))
  | PDict items => Some (dict_len items)
  | PStr s => Some (Py.str_len s)
  | _ => None
  end.

(** [len(v)]. *)
Definition py_len (v : pyval) : M Z := or_raise (len_of v) type_error.

Fixpoint assoc (k : string) (items : list (string * pyval)) : option pyval :=
  match items with
  | [] => None
  | (k', v) :: rest => if String.eqb k k' then Some v else assoc k rest
  end.

(** The value under [key], or [default] when the key is missing. *)
Definition field (items : list (string * pyval)) (key : string)
  (default : pyval) : pyval :=
  match assoc key items with
  | Some v => v
  | None => default
  end.

(** [d.get(key, default)]; only a dict has the method. *)
Definition dict_get (d : pyval) (key : string) (default : pyval) : M pyval :=
  match d with
  | PDict items => ret (field items key default)
  | _ => raise attribute_error
  end.

(** [response.json()]. *)
Definition json (r : Response) : M pyval :=
  match body r with
  | Json v => ret v
  | Undecodable complaint => raise (mkExn JSONDecodeError complaint)
  end.

(** The text of the [HTTPError] that [raise_for_status] builds. *)
Definition http_error_msg (r : Response) : string :=
  Py.str_of_int (status_code r)
  ++ (if status_code r <? 500 then " Client Error: " else " Server Error: ")
  ++ reason r ++ " for url: " ++ url r.

(** [response.raise_for_status()]: [requests] raises for the statuses
    400 to 599 and for no other. *)
Definition raise_for_status (r : Response) : M unit :=
  if (400 <=? status_code r) && (status_code r <? 600)
  then raise (mkExn HTTPError (http_error_msg r))
  else ret tt.

(** [print(line)]. *)
Definition print (line : string) : M unit :=
  fun s => (Return tt, mkState (requests s) (stdout s ++ [line])).

(* ================================================================== *)
(** ** Floating point: [int(closed_count * 0.8)] *)
(* ================================================================== *)

Module Float.

(** Python floats are IEEE 754 binary64. *)
Definition prec : Z := 53.
Definition emax : Z := 1024.

(** The literal [0.8]: the double nearest to 4/5, 0x3FE999999999999A. *)
Definition lit_0_8 : spec_float := S754_finite false 7205759403792794 (-53).

(** Conversion of an [int] operand, rounding to nearest even; [None]
    stands for [OverflowError]. *)
Definition of_int (n : Z) : option spec_float :=
  match binary_normalize prec emax n 0 false with
  | S754_infinity _ => None
  | f => Some f
  end.

Definition mul (x y : spec_float) : spec_float := SFmul prec emax x y.

(** The mantissa with its sign. *)
Definition signed (s : bool) (m : positive) : Z :=
  if s then Zneg m else Zpos m.

(** [int(x)]: truncation toward zero; [None] for an infinity or a NaN,
    on which Python raises. *)
Definition to_int (x : spec_float) : option Z :=
  match x with
  | S754_zero _ => Some 0
  | S754_finite s m e =>
      Some (if 0 <=? e then signed s m * 2 ^ e
            else Z.quot (signed s m) (2 ^ (- e)))
  | _ => None
  end.

(** [floor(x)], as the specification writes the estimate: the largest
    integer not above [x].  The client does not call it; it is here to
    be compared with [to_int]. *)
Definition floor (x : spec_float) : option Z :=
  match x with
  | S754_zero _ => Some 0
  | S754_finite s m e =>
      Some (if 0 <=? e then signed s m * 2 ^ e
            else Z.div (signed s m) (2 ^ (- e)))
  | _ => None
  end.

(** [int(n * 0.8)] for an [int] [n], as the client computes it. *)
Definition int_times_0_8 (n : Z) : option Z :=
  match of_int n with
  | Some x => to_int (mul x lit_0_8)
  | None => None
  end.

(** [floor(n * 0.8)], the specification's expression, on the same
    double product. *)
Definition floor_times_0_8 (n : Z) : option Z :=
  match of_int n with
  | Some x => floor (mul x lit_0_8)
  | None => None
  end.

End Float.

(** [int(n * 0.8)] for an [int] [n], with the exceptions of the
    conversions. *)
Definition int_of_times_0_8 (n : Z) : M Z :=
  or_raise (Float.int_times_0_8 n) overflow_error.

(* ================================================================== *)
(** ** The record of metrics *)
(* ================================================================== *)

(** The dict that [get_repo_data] returns.  The fields copied from the
    core response hold whatever value the response has there; [error] is
    the key that only [_get_error_data] sets. *)
Record RepositoryMetrics : Type := mkMetrics {
  repo : string;
  stars : pyval;
  forks : pyval;
  watchers : pyval;
  contributors : Z;
  open_issues : pyval;
  total_issues : Z;
  closed_issues : Z;
  open_prs : Z;
  total_prs : Z;
  closed_prs : Z;
  merged_prs : Z;
  recent_commits_30d : Z;
  size_kb : pyval;
  language : pyval;
  created_at : pyval;
  updated_at : pyval;
  last_fetched : string;
  error : option string
}.

(** The dict of [_get_pull_requests_data]. *)
Record PRData : Type := mkPR {
  pr_open : Z; pr_closed : Z; pr_merged : Z; pr_total : Z
}.

(** The dict of [_get_issues_data]. *)
Record IssuesData : Type := mkIssues {
  is_open : Z; is_closed : Z; is_total : Z
}.

(* ================================================================== *)
(** ** class GitHubClient *)
(* ================================================================== *)

Definition base_url : string := "https://api.github.com".

(** The text [rel="last"]. *)
Definition rel_last : string :=
  "rel=" ++ String (ascii_of_nat 34) "last" ++ String (ascii_of_nat 34) EmptyString.

(** Fuel for the [while] loop of [_get_recent_commits_count]; the loop
    leaves through its own exits long before (see
    [commits_loop_fuel]). *)
Definition loop_fuel : nat := 1000.

(** [link_header.split("rel=\"last\"")[0].split(",")[-1].strip().strip("<>")] *)
Definition last_url_of (link_header : string) : M string :=
  before <- or_raise (Py.index0 (Py.split rel_last link_header)) index_error;;
  segment <- or_raise (Py.index_last (Py.split "," before)) index_error;;
  ret (Py.strip_chars "<>" (Py.strip segment)).

(** [int(last_page_url.split("page=")[1].split("&")[0])] *)
Definition page_of (last_page_url : string) : M Z :=
  tail <- or_raise (Py.index1 (Py.split "page=" last_page_url)) index_error;;
  value <- or_raise (Py.index0 (Py.split "&" tail)) index_error;;
  py_int value.

(** [int(last_page_url.split("per_page=")[1].split("&")[0])
     if "per_page=" in last_page_url else 30] *)
Definition per_page_of (last_page_url : string) : M Z :=
  if Py.contains "per_page=" last_page_url then
    tail <- or_raise (Py.index1 (Py.split "per_page=" last_page_url))
              index_error;;
    value <- or_raise (Py.index0 (Py.split "&" tail)) index_error;;
    py_int value
  else ret 30.

(** The state after one more request. *)
Definition logged (s : State) (rq : Request) : State :=
  mkState (requests s ++ [rq]) (stdout s).

Section Client.

Variable w : World.

(** [self.session.get(url, params=params)]: the request is logged and the
    server's answer to it comes back, or the transport's exception. *)
Definition session_get (u : string) (params : list (string * string))
  : M Response :=
  fun s =>
    let rq := mkRequest u params in
    let s' := logged s rq in
    match server w (List.length (requests s)) rq with
    | Fails t description =>
        (Raise (mkExn (class_of_transport t) description), s')
    | Responds r => (Return r, s')
    end.

(** The first half of [_count_from_pagination]: [Some n] when the
    function returns [n] from the last-page branch, [None] when control
    reaches the fallback. *)
Definition count_from_last_page (response : Response) : M (option Z) :=
  match link response with
  | Some link_header =>
      if Py.contains rel_last link_header then
        last_page_url <- last_url_of link_header;;
        try_except
          (last_page <- page_of last_page_url;;
           per_page <- per_page_of last_page_url;;
           last_response <- session_get last_page_url [];;
           if status_code last_response =? 200 then
             items <- json last_response;;
             last_page_items <- py_len items;;
             ret (Some ((last_page - 1) * per_page + last_page_items))
           else ret None)
          (fun e => is_ValueError e || is_IndexError e)
          (fun _ => ret None)
      else ret None
  | None => ret None
  end.

(** The second half: the request against the base URL, any exception
    swallowed. *)
Definition count_from_fallback (base : string) : M (option Z) :=
  try_except
    (full_response <- session_get base [];;
     if status_code full_response =? 200 then
       items <- json full_response;;
       n <- py_len items;;
       ret (Some n)
     else ret None)
    is_Exception
    (fun _ => ret None).

Definition _count_from_pagination (response : Response) (base : string)
  : M Z :=
  paged <- count_from_last_page response;;
  match paged with
  | Some n => ret n
  | None =>
      full <- count_from_fallback base;;
      match full with
      | Some n => ret n
      | None => ret 0
      end
  end.

Definition _get_contributors_count (rp : string) : M Z :=
  try_except
    (let contributors_url := base_url ++ "/repos/" ++ rp ++ "/contributors" in
     response <- session_get contributors_url [("per_page", "1")];;
     raise_for_status response;;;
     paged <-
       match link response with
       | Some link_header =>
           if Py.contains rel_last link_header then
             last_page_url <- last_url_of link_header;;
             last_page <- page_of last_page_url;;
             ret (Some last_page)
           else ret None
       | None => ret None
       end;;
     match paged with
     | Some last_page => ret last_page
     | None =>
         response <- session_get contributors_url [];;
         raise_for_status response;;;
         items <- json response;;
         py_len items
     end)
    is_Exception
    (fun _ => ret 0).

(** The [while len(commits) == 100] loop, from its test onwards. *)
Fixpoint commits_loop (fuel : nat) (commits_url : string) (page : Z)
  (commits : pyval) (total_commits : Z) : M Z :=
  n <- py_len commits;;
  if n =? 100 then
    match fuel with
    | O => fun s => (OutOfFuel, s)
    | S fuel' =>
        response <- session_get commits_url
                      [("since", since_date w); ("per_page", "100");
                       ("page", Py.str_of_int page)];;
        if negb (status_code response =? 200) then ret total_commits
        else
          commits <- json response;;
          n <- py_len commits;;
          let total_commits := total_commits + n in
          let page := page + 1 in
          if page >? 10 then ret total_commits
          else commits_loop fuel' commits_url page commits total_commits
    end
  else ret total_commits.

Definition _get_recent_commits_count (rp : string) : M Z :=
  try_except
    (let commits_url := base_url ++ "/repos/" ++ rp ++ "/commits" in
     response <- session_get commits_url
                   [("since", since_date w); ("per_page", "100")];;
     raise_for_status response;;;
     commits <- json response;;
     total_commits <- py_len commits;;
     commits_loop loop_fuel commits_url 2 commits total_commits)
    is_Exception
    (fun _ => ret 0).

Definition _get_pull_requests_data (rp : string) : M PRData :=
  try_except
    (let open_prs_url := base_url ++ "/repos/" ++ rp ++ "/pulls" in
     open_response <- session_get open_prs_url
                        [("state", "open"); ("per_page", "1")];;
     raise_for_status open_response;;;
     open_count <- _count_from_pagination open_response
                     (base_url ++ "/repos/" ++ rp ++ "/pulls?state=open");;
     closed_response <- session_get open_prs_url
                          [("state", "closed"); ("per_page", "1")];;
     raise_for_status closed_response;;;
     closed_count <- _count_from_pagination closed_response
                       (base_url ++ "/repos/" ++ rp ++ "/pulls?state=closed");;
     merged_count <- int_of_times_0_8 closed_count;;
     ret (mkPR open_count closed_count merged_count
            (open_count + closed_count)))
    is_Exception
    (fun _ => ret (mkPR 0 0 0 0)).

Definition _get_issues_data (rp : string) : M IssuesData :=
  try_except
    (let issues_url := base_url ++ "/repos/" ++ rp ++ "/issues" in
     open_response <- session_get issues_url
                        [("state", "open"); ("per_page", "1")];;
     raise_for_status open_response;;;
     open_count <- _count_from_pagination open_response
                     (base_url ++ "/repos/" ++ rp ++ "/issues?state=open");;
     closed_response <- session_get issues_url
                          [("state", "closed"); ("per_page", "1")];;
     raise_for_status closed_response;;;
     closed_count <- _count_from_pagination closed_response
                       (base_url ++ "/repos/" ++ rp ++ "/issues?state=closed");;
     ret (mkIssues open_count closed_count (open_count + closed_count)))
    is_Exception
    (fun _ => ret (mkIssues 0 0 0)).

Definition _get_error_data (rp : string) (err : string) : RepositoryMetrics :=
  {| repo := rp;
     stars := PInt 0; forks := PInt 0; watchers := PInt 0;
     contributors := 0;
     open_issues := PInt 0; total_issues := 0; closed_issues := 0;
     open_prs := 0; total_prs := 0; closed_prs := 0; merged_prs := 0;
     recent_commits_30d := 0;
     size_kb := PInt 0;
     language := PStr "Unknown";
     created_at := PStr EmptyString; updated_at := PStr EmptyString;
     last_fetched := now_iso w;
     error := Some err |}.

Definition get_repo_data (rp : string) : M RepositoryMetrics :=
  try_except
    (repo_response <- session_get (base_url ++ "/repos/" ++ rp) [];;
     raise_for_status repo_response;;;
     repo_data <- json repo_response;;
     contributors_count <- _get_contributors_count rp;;
     recent_commits <- _get_recent_commits_count rp;;
     pr_data <- _get_pull_requests_data rp;;
     issues_data <- _get_issues_data rp;;
     v_stars <- dict_get repo_data "stargazers_count" (PInt 0);;
     v_forks <- dict_get repo_data "forks_count" (PInt 0);;
     v_watchers <- dict_get repo_data "watchers_count" (PInt 0);;
     v_open_issues <- dict_get repo_data "open_issues_count" (PInt 0);;
     v_size <- dict_get repo_data "size" (PInt 0);;
     v_language <- dict_get repo_data "language" (PStr "Unknown");;
     v_created <- dict_get repo_data "created_at" (PStr EmptyString);;
     v_updated <- dict_get repo_data "updated_at" (PStr EmptyString);;
     ret {| repo := rp;
            stars := v_stars; forks := v_forks; watchers := v_watchers;
            contributors := contributors_count;
            open_issues := v_open_issues;
            total_issues := is_total issues_data;
            closed_issues := is_closed issues_data;
            open_prs := pr_open pr_data;
            total_prs := pr_total pr_data;
            closed_prs := pr_closed pr_data;
            merged_prs := pr_merged pr_data;
            recent_commits_30d := recent_commits;
            size_kb := v_size;
            language := v_language;
            created_at := v_created; updated_at := v_updated;
            last_fetched := now_iso w;
            error := None |})
    is_RequestException
    (fun e =>
       print ("Error fetching data for " ++ rp ++ ": " ++ exn_str e);;;
       ret (_get_error_data rp (exn_str e))).

End Client.

(* ================================================================== *)
(** ** Vocabulary of the statements *)
(* ================================================================== *)

(** [s'] is [s] after the requests [l] and nothing else. *)
Definition issued (s s' : State) (l : list Request) : Prop :=
  requests s' = (requests s ++ l)%list /\ stdout s' = stdout s.

(** A computation that never stops for want of fuel. *)
Definition fuel_free {A} (m : M A) : Prop :=
  forall s, fst (m s) <> OutOfFuel.

(** A computation that returns [a] and leaves the state alone. *)
Definition yields {A} (m : M A) (a : A) : Prop :=
  forall s, m s = (Return a, s).

(** The request for one page of the commit list. *)
Definition commits_url (rp : string) : string :=
  base_url ++ "/repos/" ++ rp ++ "/commits".

Definition first_commits_request (w : World) (rp : string) : Request :=
  mkRequest (commits_url rp) [("since", since_date w); ("per_page", "100")].

Definition commits_page_request (w : World) (rp : string) (page : Z)
  : Request :=
  mkRequest (commits_url rp)
    [("since", since_date w); ("per_page", "100");
     ("page", Py.str_of_int page)].

(** The requests for the pages [page], [page + 1], ... ([k] of them). *)
Fixpoint page_requests (w : World) (rp : string) (page : Z) (k : nat)
  : list Request :=
  match k with
  | O => []
  | S k' => commits_page_request w rp page :: page_requests w rp (page + 1) k'
  end.

Definition contributors_request (rp : string) : Request :=
  mkRequest (base_url ++ "/repos/" ++ rp ++ "/contributors")
    [("per_page", "1")].

Definition core_request (rp : string) : Request :=
  mkRequest (base_url ++ "/repos/" ++ rp) [].

(** The runs of the loop from its test, as a relation: from the state
    [s], with [page], [commits] and [total_commits] as they stand, the
    loop ends in [s'] with the result [r]. *)
Inductive loop_run (w : World) (rp : string) :
  Z -> pyval -> Z -> State -> result Z -> State -> Prop :=
| run_len_error page commits total s :
    len_of commits = None ->
    loop_run w rp page commits total s (Raise type_error) s
| run_short page commits total s n :
    len_of commits = Some n -> n <> 100 ->
    loop_run w rp page commits total s (Return total) s
| run_transport page commits total s t d :
    len_of commits = Some 100 ->
    server w (List.length (requests s)) (commits_page_request w rp page)
      = Fails t d ->
    loop_run w rp page commits total s
      (Raise (mkExn (class_of_transport t) d))
      (logged s (commits_page_request w rp page))
| run_status page commits total s resp :
    len_of commits = Some 100 ->
    server w (List.length (requests s)) (commits_page_request w rp page)
      = Responds resp ->
    status_code resp <> 200 ->
    loop_run w rp page commits total s (Return total)
      (logged s (commits_page_request w rp page))
| run_undecodable page commits total s resp c :
    len_of commits = Some 100 ->
    server w (List.length (requests s)) (commits_page_request w rp page)
      = Responds resp ->
    status_code resp = 200 ->
    body resp = Undecodable c ->
    loop_run w rp page commits total s (Raise (mkExn JSONDecodeError c))
      (logged s (commits_page_request w rp page))
| run_uncountable page commits total s resp v :
    len_of commits = Some 100 ->
    server w (List.length (requests s)) (commits_page_request w rp page)
      = Responds resp ->
    status_code resp = 200 ->
    body resp = Json v -> len_of v = None ->
    loop_run w rp page commits total s (Raise type_error)
      (logged s (commits_page_request w rp page))
| run_limit page commits total s resp v n :
    len_of commits = Some 100 ->
    server w (List.length (requests s)) (commits_page_request w rp page)
      = Responds resp ->
    status_code resp = 200 ->
    body resp = Json v -> len_of v = Some n ->
    10 < page + 1 ->
    loop_run w rp page commits total s (Return (total + n))
      (logged s (commits_page_request w rp page))
| run_next page commits total s resp v n r s' :
    len_of commits = Some 100 ->
    server w (List.length (requests s)) (commits_page_request w rp page)
      = Responds resp ->
    status_code resp = 200 ->
    body resp = Json v -> len_of v = Some n ->
    page + 1 <= 10 ->
    loop_run w rp (page + 1) v (total + n)
      (logged s (commits_page_request w rp page)) r s' ->
    loop_run w rp page commits total s r s'.

(** Every request is answered with status 200 and a body of exactly 100
    items. *)
Definition full_pages (w : World) : Prop :=
  forall n rq, exists resp v,
    server w n rq = Responds resp /\ status_code resp = 200
    /\ body resp = Json v /\ len_of v = Some 100.

(** What the base-URL request contributes: the number of items of a 200
    answer, 0 for anything else. *)
Definition fallback_count (o : Outcome) : Z :=
  match o with
  | Fails _ _ => 0
  | Responds resp =>
      if status_code resp =? 200 then
        match body resp with
        | Undecodable _ => 0
        | Json v => match len_of v with Some n => n | None => 0 end
        end
      else 0
  end.

(** The ways the base-URL request can fail. *)
Inductive failed : Outcome -> Prop :=
| failed_transport t d : failed (Fails t d)
| failed_status resp : status_code resp <> 200 -> failed (Responds resp)
| failed_decode resp c :
    body resp = Undecodable c -> failed (Responds resp)
| failed_len resp v :
    body resp = Json v -> len_of v = None -> failed (Responds resp).

(** The record of a successful fetch, from the core document [core] and
    the results of the four sub-fetches. *)
Definition assembled (w : World) (rp : string)
  (core : list (string * pyval)) (contributors_count recent_commits : Z)
  (pr_data : PRData) (issues_data : IssuesData) : RepositoryMetrics :=
  {| repo := rp;
     stars := field core "stargazers_count" (PInt 0);
     forks := field core "forks_count" (PInt 0);
     watchers := field core "watchers_count" (PInt 0);
     contributors := contributors_count;
     open_issues := field core "open_issues_count" (PInt 0);
     total_issues := is_total issues_data;
     closed_issues := is_closed issues_data;
     open_prs := pr_open pr_data;
     total_prs := pr_total pr_data;
     closed_prs := pr_closed pr_data;
     merged_prs := pr_merged pr_data;
     recent_commits_30d := recent_commits;
     size_kb := field core "size" (PInt 0);
     language := field core "language" (PStr "Unknown");
     created_at := field core "created_at" (PStr EmptyString);
     updated_at := field core "updated_at" (PStr EmptyString);
     last_fetched := now_iso w;
     error := None |}.

(** The failures of the core query that the client recognises: the
    transport raises (with the description it gives), or the answer has
    one of the statuses for which [raise_for_status] raises. *)
Inductive core_failure : Outcome -> Prop :=
| core_network_error t d :
    d <> EmptyString -> core_failure (Fails t d)
| core_error_status resp :
    400 <= status_code resp < 600 -> core_failure (Responds resp).

(** The numeric fields of a record are all 0. *)
Definition numeric_fields_zero (r : RepositoryMetrics) : Prop :=
  stars r = PInt 0 /\ forks r = PInt 0 /\ watchers r = PInt 0
  /\ contributors r = 0 /\ open_issues r = PInt 0 /\ total_issues r = 0
  /\ closed_issues r = 0 /\ open_prs r = 0 /\ total_prs r = 0
  /\ closed_prs r = 0 /\ merged_prs r = 0 /\ recent_commits_30d r = 0
  /\ size_kb r = PInt 0.

(** A float that is not negative. *)
Definition nonneg (x : spec_float) : Prop :=
  match x with
  | S754_finite true _ _ => False
  | _ => True
  end.

(* ================================================================== *)
(** ** Concrete servers *)
(* ================================================================== *)

(** A JSON list of [n] objects. *)
Definition items (n : nat) : pyval := PList (repeat (PDict []) n).

Definition answer (status : Z) (rsn : string) (lnk : option string)
  (b : Body) (rq : Request) : Outcome :=
  Responds (mkResponse status rsn (rq_url rq) lnk b).

Definition ok_items (n : nat) (rq : Request) : Outcome :=
  answer 200 "OK" None (Json (items n)) rq.

Definition server_error (rq : Request) : Outcome :=
  answer 500 "Internal Server Error" None
    (Json (PDict [("message", PStr "Server Error")])) rq.

Definition since_example : string := "2026-10-05T12:00:00.000000".
Definition now_example : string := "2026-11-04T12:00:00.000000".

(** Every request is answered with a full page of 100 items. *)
Definition world_full_pages : World :=
  mkWorld (fun _ rq => ok_items 100 rq) since_example now_example.

(** The first request gets a full page, every later one a 500. *)
Definition world_page2_down : World :=
  mkWorld (fun n rq => if (n =? 0)%nat then ok_items 100 rq
                       else server_error rq)
    since_example now_example.

Definition page2_down_log : list Request :=
  [first_commits_request world_page2_down "o/r";
   commits_page_request world_page2_down "o/r" 2].

Definition pulls_base : string :=
  "https://api.github.com/repos/o/r/pulls?state=open".

(** A link in the wire format [<url>; rel="last"] whose URL ends in
    [page=5&per_page=30]. *)
Definition link_page5 : string :=
  "<https://api.github.com/repos/o/r/pulls?state=open&page=5&per_page=30>; "
  ++ rel_last.

(** The same link with a further parameter after [per_page]. *)
Definition link_page5_inner : string :=
  "<https://api.github.com/repos/o/r/pulls?page=5&per_page=30&state=open>; "
  ++ rel_last.

Definition url_page5_inner : string :=
  "https://api.github.com/repos/o/r/pulls?page=5&per_page=30&state=open>;".

(** The answer to the one-item-per-page query that carries [lnk]. *)
Definition first_page (lnk : string) : Response :=
  mkResponse 200 "OK" "https://api.github.com/repos/o/r/pulls"
    (Some lnk) (Json (items 1)).

(** The base URL serves the first 30 items, any other URL the 7 items of
    the last page. *)
Definition world_127 : World :=
  mkWorld (fun _ rq => if String.eqb (rq_url rq) pulls_base
                       then ok_items 30 rq else ok_items 7 rq)
    since_example now_example.

(** A link as GitHub sends it for a one-item-per-page query: [per_page]
    first, [page] last, and a [next] relation before the [last] one. *)
Definition link_github : string :=
  "<https://api.github.com/repos/o/r/issues?state=open&per_page=1&page=2>; rel="
  ++ String (ascii_of_nat 34) "next" ++ String (ascii_of_nat 34) ", "
  ++ "<https://api.github.com/repos/o/r/issues?state=open&per_page=1&page=3>; "
  ++ rel_last.

Definition url_github : string :=
  "https://api.github.com/repos/o/r/issues?state=open&per_page=1&page=3>;".

Definition issues_base : string :=
  "https://api.github.com/repos/o/r/issues?state=open".

Definition unavailable (rq : Request) : Outcome :=
  answer 503 "Service Unavailable" None (Undecodable "Expecting value") rq.

(** The base URL serves 3 items, every other URL answers 503. *)
Definition world_last_page_down : World :=
  mkWorld (fun _ rq => if String.eqb (rq_url rq) issues_base
                       then ok_items 3 rq else unavailable rq)
    since_example now_example.

(** Every request meets a connection error. *)
Definition world_offline : World :=
  mkWorld (fun _ rq => Fails TConnectionError "Connection aborted.")
    since_example now_example.

Definition url_per_page_first : string :=
  "https://api.github.com/repos/o/r/contributors?per_page=1&page=57".

Definition url_page_first : string :=
  "https://api.github.com/repos/o/r/contributors?page=57&per_page=1".



(** A server that answers by URL: the first route that matches, or
    [otherwise]. *)
Fixpoint route (routes : list (string * (Request -> Outcome)))
  (otherwise : Request -> Outcome) (rq : Request) : Outcome :=
  match routes with
  | [] => otherwise rq
  | (u, handler) :: rest =>
      if String.eqb (rq_url rq) u then handler rq
      else route rest otherwise rq
  end.

Definition not_found (rq : Request) : Outcome :=
  answer 404 "Not Found" None
    (Json (PDict [("message", PStr "Not Found")])) rq.

(** The repository [octo/demo]: the core document [core], no pagination
    links anywhere, 2 contributors, no commits, no pull requests, one
    open issue and no closed one. *)
Definition world_octo_demo (core : list (string * pyval)) : World :=
  mkWorld
    (fun _ =>
       route
         [("https://api.github.com/repos/octo/demo",
            answer 200 "OK" None (Json (PDict core)));
          ("https://api.github.com/repos/octo/demo/contributors",
            ok_items 2);
          ("https://api.github.com/repos/octo/demo/commits", ok_items 0);
          ("https://api.github.com/repos/octo/demo/pulls", ok_items 0);
          ("https://api.github.com/repos/octo/demo/pulls?state=open",
            ok_items 0);
          ("https://api.github.com/repos/octo/demo/pulls?state=closed",
            ok_items 0);
          ("https://api.github.com/repos/octo/demo/issues", ok_items 1);
          ("https://api.github.com/repos/octo/demo/issues?state=open",
            ok_items 1);
          ("https://api.github.com/repos/octo/demo/issues?state=closed",
            ok_items 0)]
         not_found)
    since_example now_example.

Definition core_octo : list (string * pyval) :=
  [("stargazers_count", PInt 42); ("forks_count", PInt 3)].

Definition core_octo_null_language : list (string * pyval) :=
  [("stargazers_count", PInt 42); ("forks_count", PInt 3);
   ("language", PNone)].

Definition core_octo_python : list (string * pyval) :=
  [("stargazers_count", PInt 42); ("forks_count", PInt 3);
   ("language", PStr "Python")].

(** As [world_octo_demo], but the core query is answered with status 300
    and the core document as its body. *)
Definition world_octo_300 : World :=
  mkWorld
    (fun n rq =>
       if String.eqb (rq_url rq) "https://api.github.com/repos/octo/demo"
       then answer 300 "Multiple Choices" None (Json (PDict core_octo)) rq
       else server (world_octo_demo core_octo) n rq)
    since_example now_example.

(** As [world_octo_demo], but the pull-request listing carries the link
    [lnk], and [last_url] serves a last page of 7 items. *)
Definition world_octo_pulls (lnk last_url : string) : World :=
  mkWorld
    (fun n =>
       route
         [("https://api.github.com/repos/octo/demo/pulls",
            answer 200 "OK" (Some lnk) (Json (items 1)));
          (last_url, ok_items 7)]
         (server (world_octo_demo core_octo) n))
    since_example now_example.

Definition link_pulls_page5 : string :=
  "<https://api.github.com/repos/octo/demo/pulls?page=5&per_page=30&state=closed>; "
  ++ rel_last.

Definition url_pulls_page5 : string :=
  "https://api.github.com/repos/octo/demo/pulls?page=5&per_page=30&state=closed>;".

(** A link that names page 0 as the last one. *)
Definition link_pulls_page0 : string :=
  "<https://api.github.com/repos/octo/demo/pulls?page=0&per_page=30&state=closed>; "
  ++ rel_last.

Definition url_pulls_page0 : string :=
  "https://api.github.com/repos/octo/demo/pulls?page=0&per_page=30&state=closed>;".

(* ================================================================== *)
(** ** Further vocabulary: what a run returns and how much it asks *)
(* ================================================================== *)

(** A computation that returns a value from every state: it neither
    raises nor runs out of fuel. *)
Definition returns {A} (m : M A) : Prop :=
  forall s, exists a s', m s = (Return a, s').

(** A computation that issues at most [k] requests. *)
Definition requests_within {A} (m : M A) (k : nat) : Prop :=
  forall s, exists l,
    requests (snd (m s)) = (requests s ++ l)%list
    /\ (List.length l <= k)%nat.

(** The statuses for which [raise_for_status] raises. *)
Definition error_status (r : Response) : bool :=
  (400 <=? status_code r) && (status_code r <? 600).

(** The line that [get_repo_data] prints when the core query fails. *)
Definition failure_notice (rp msg : string) : string :=
  "Error fetching data for " ++ rp ++ ": " ++ msg.

(** A query that is refused: the transport raises, or the answer has a
    status for which [raise_for_status] raises. *)
Inductive refused : Outcome -> Prop :=
| refused_transport t d : refused (Fails t d)
| refused_status resp : error_status resp = true -> refused (Responds resp).

(** The one-item-per-page queries of the two categories, and the second
    query of the contributors count. *)
Definition pulls_request (rp state : string) : Request :=
  mkRequest (base_url ++ "/repos/" ++ rp ++ "/pulls")
    [("state", state); ("per_page", "1")].

Definition issues_request (rp state : string) : Request :=
  mkRequest (base_url ++ "/repos/" ++ rp ++ "/issues")
    [("state", state); ("per_page", "1")].

Definition all_contributors_request (rp : string) : Request :=
  mkRequest (base_url ++ "/repos/" ++ rp ++ "/contributors") [].

(** The number of items of an answer, where it has one. *)
Definition answer_size (o : Outcome) : Z :=
  match o with
  | Fails _ _ => 0
  | Responds resp =>
      match body resp with
      | Undecodable _ => 0
      | Json v => match len_of v with Some n => n | None => 0 end
      end
  end.

(** The items of the answers to the requests [l], the first of which is
    the request number [start] of the session. *)
Fixpoint sizes (w : World) (start : nat) (l : list Request) : Z :=
  match l with
  | [] => 0
  | rq :: l' => answer_size (server w start rq) + sizes w (S start) l'
  end.

(** An answer with status 200 and a body that can be counted. *)
Definition countable_page (o : Outcome) : Prop :=
  exists resp v n,
    o = Responds resp /\ status_code resp = 200
    /\ body resp = Json v /\ len_of v = Some n.

(** Each of the requests [l], issued from the request number [start] on,
    gets such an answer. *)
Fixpoint all_countable (w : World) (start : nat) (l : list Request) : Prop :=
  match l with
  | [] => True
  | rq :: l' => countable_page (server w start rq)
                /\ all_countable w (S start) l'
  end.

(* ================================================================== *)
(** ** class DataManager: the list of repositories *)
(* ================================================================== *)

(** What reading the configuration file gives: no such file, or the lines
    that [for line in f] yields, and the text of the exception that ends
    the reading, if one does (an [open] that fails yields no line). *)
Inductive FileRead : Type :=
| NoFile
| Lines (lines : list string) (failure : option string).

Definition is_empty (s : string) : bool :=
  match s with
  | EmptyString => true
  | String _ _ => false
  end.

(** The body of the loop of [load_repositories]. *)
Definition keep_line (repos : list string) (line : string) : list string :=
  let line := Py.strip line in
  if negb (is_empty line) && negb (Py.startswith "#" line)
  then (repos ++ [line])%list
  else repos.

Definition load_repositories (disk : string -> FileRead)
  (repos_file : string) : M (list string) :=
  match disk repos_file with
  | NoFile =>
      print ("Repository configuration file not found: " ++ repos_file);;;
      ret []
  | Lines lines failure =>
      let repos := fold_left keep_line lines [] in
      match failure with
      | Some e =>
          print ("Error reading repositories file: " ++ e);;;
          ret repos
      | None => ret repos
      end
  end.

(** The loop of [collect_and_save_data] (its lines 81 to 85): one call
    of [get_repo_data] for each repository, in order, on the one client;
    [i] is the counter of [enumerate(repos, 1)], [n] is [len(repos)] and
    [all_data] the list built so far. *)
Fixpoint collect_loop (w : World) (n i : Z) (repos : list string)
  (all_data : list RepositoryMetrics) : M (list RepositoryMetrics) :=
  match repos with
  | [] => ret all_data
  | repo :: rest =>
      print ("Fetching data for " ++ repo ++ " (" ++ Py.str_of_int i ++ "/"
             ++ Py.str_of_int n ++ ")...");;;
      repo_data <- get_repo_data w repo;;
      collect_loop w n (i + 1) rest (all_data ++ [repo_data])%list
  end.

(* ================================================================== *)
(** ** More concrete servers *)
(* ================================================================== *)

(** As [world_octo_demo], but the contributors listing answers 500. *)
Definition world_octo_no_contributors : World :=
  mkWorld
    (fun n =>
       route
         [("https://api.github.com/repos/octo/demo/contributors",
            server_error)]
         (server (world_octo_demo core_octo) n))
    since_example now_example.

(** The first request gets a full page of 100 items, every later one a
    page of 37. *)
Definition world_two_pages : World :=
  mkWorld (fun n rq => if (n =? 0)%nat then ok_items 100 rq
                       else ok_items 37 rq)
    since_example now_example.

(** As [world_octo_demo], but the listing of closed issues is answered
    500 (the listing of open ones is served as before). *)
Definition world_octo_closed_issues_down : World :=
  mkWorld
    (fun n rq =>
       if String.eqb (rq_url rq) "https://api.github.com/repos/octo/demo/issues"
          && (n =? 2)%nat
       then server_error rq
       else server (world_octo_demo core_octo) n rq)
    since_example now_example.

(** Every request is answered with one item and the link [lnk]. *)
Definition world_linked (lnk : string) : World :=
  mkWorld (fun _ rq => answer 200 "OK" (Some lnk) (Json (items 1)) rq)
    since_example now_example.

(** A [last] link whose URL names no page. *)
Definition link_no_page : string :=
  "<https://api.github.com/repos/o/r/contributors?cursor=abc>; "
  ++ rel_last.

Definition url_no_page : string :=
  "https://api.github.com/repos/o/r/contributors?cursor=abc>;".

(** The first request is answered with one item and the link
    [link_pulls_page5]; after that the network is down. *)
Definition world_then_offline : World :=
  mkWorld (fun n rq => if (n =? 0)%nat
                       then answer 200 "OK" (Some link_pulls_page5)
                              (Json (items 1)) rq
                       else Fails TConnectionError "Connection aborted.")
    since_example now_example.

(** The test of the loop of [load_repositories] on a stripped line. *)
Definition wanted (line : string) : bool :=
  negb (is_empty line) && negb (Py.startswith "#" line).

Definition newline : string := String (ascii_of_nat 10) EmptyString.

(** A configuration file with a comment, an empty line, an indented name
    and a name that occurs twice. *)
Definition repos_txt : list string :=
  ["# tracked repositories" ++ newline;
   newline;
   "  octo/demo  " ++ newline;
   "rust-lang/rust" ++ newline;
   "  # octo/hidden" ++ newline;
   "octo/demo"].

Definition disk_example (path : string) : FileRead :=
  if String.eqb path "env/repos.txt" then Lines repos_txt None else NoFile.

(** Every request is answered with status 200 and a page of HTML. *)
Definition world_html : World :=
  mkWorld (fun _ rq => answer 200 "OK" None
                         (Undecodable "Expecting value: line 1 column 1 (char 0)")
                         rq)
    since_example now_example.

(** The text of [rel_last] without its closing quote. *)
Definition rel_last_open : string :=
  "rel=" ++ String (ascii_of_nat 34) "last".

(** The header [<U>; rel="last"] for the URL [U]: one segment in the
    wire format. *)
Definition wire_link (U : string) : string :=
  "<" ++ U ++ ">; " ++ rel_last.

(** [U] begins with a character that is not an angle bracket. *)
Definition plain_start (U : string) : bool :=
  match U with
  | EmptyString => false
  | String c _ => negb (Py.mem_char c "<>")
  end.

(* ================================================================== *)
(** * Part II: properties *)
(* ================================================================== *)

(* ================================================================== *)
(** ** The primitives at work *)
(* ================================================================== *)

Example split_plain :
  Py.split "," "a,b,,c" = ["a"; "b"; EmptyString; "c"].
Proof. reflexivity. Qed.

Example split_overlap : Py.split "aa" "aaa" = [EmptyString; "a"].
Proof. reflexivity. Qed.

Example split_absent : Py.split "page=" "abc" = ["abc"].
Proof. reflexivity. Qed.

Example split_page :
  Py.split "page=" "u?state=open&per_page=1&page=57"
  = ["u?state=open&per_"; "1&"; "57"].
Proof. reflexivity. Qed.

Example strip_angle : Py.strip_chars "<>" (Py.strip " <u?page=2>; ") = "u?page=2>;".
Proof. reflexivity. Qed.

Example int_examples :
  Py.int_of_str " 57 " = Some 57 /\ Py.int_of_str "-5" = Some (-5)
  /\ Py.int_of_str "1_000" = Some 1000 /\ Py.int_of_str "30>;" = None
  /\ Py.int_of_str EmptyString = None /\ Py.int_of_str "007" = Some 7
  /\ Py.int_of_str "5_" = None /\ Py.int_of_str "+" = None
  /\ Py.int_of_str (String (ascii_of_nat 31) "12") = None
  /\ Py.int_of_str (String (ascii_of_nat 160) "5") = Some 5
  /\ Py.int_of_str "1__0" = None /\ Py.int_of_str "+-1" = None.
Proof. repeat split; reflexivity. Qed.

Example str_of_int_examples :
  Py.str_of_int 404 = "404" /\ Py.str_of_int 0 = "0"
  /\ Py.str_of_int (-3) = "-3".
Proof. repeat split; reflexivity. Qed.

Example lit_0_8_is_four_fifths :
  SFdiv Float.prec Float.emax
    (S754_finite false 4 0) (S754_finite false 5 0) = Float.lit_0_8.
Proof. reflexivity. Qed.

Example int_times_0_8_examples :
  Float.int_times_0_8 5 = Some 4 /\ Float.int_times_0_8 127 = Some 101
  /\ Float.int_times_0_8 0 = Some 0 /\ Float.int_times_0_8 (-23) = Some (-18)
  /\ Float.floor_times_0_8 (-23) = Some (-19)
  /\ Float.int_times_0_8 (2 ^ 1024) = None.
Proof. repeat split; reflexivity. Qed.

(* ================================================================== *)
(** ** Reasoning principles for the monad *)
(* ================================================================== *)

Lemma issued_nil s : issued s s [].
Proof. split; [now rewrite app_nil_r | reflexivity]. Qed.

Lemma issued_cons s s' rq l :
  issued (logged s rq) s' l -> issued s s' (rq :: l).
Proof.
  intros [Hr Ho]. split.
  - rewrite Hr. cbn. rewrite <- app_assoc. reflexivity.
  - exact Ho.
Qed.

Lemma issued_one s rq : issued s (logged s rq) [rq].
Proof. split; reflexivity. Qed.

Lemma issued_inj s s' l1 l2 : issued s s' l1 -> issued s s' l2 -> l1 = l2.
Proof.
  intros [H1 _] [H2 _]. rewrite H1 in H2. now apply app_inv_head in H2.
Qed.

Lemma session_get_unfold w u params s :
  session_get w u params s =
  let rq := mkRequest u params in
  let s' := logged s rq in
  match server w (List.length (requests s)) rq with
  | Fails t description =>
      (Raise (mkExn (class_of_transport t) description), s')
  | Responds r => (Return r, s')
  end.
Proof. reflexivity. Qed.

Lemma py_len_cases v s :
  (exists n, len_of v = Some n /\ py_len v s = (Return n, s))
  \/ (len_of v = None /\ py_len v s = (Raise type_error, s)).
Proof.
  unfold py_len. destruct (len_of v) as [n|]; [left; exists n | right];
    split; reflexivity.
Qed.

Lemma json_cases r s :
  (exists v, body r = Json v /\ json r s = (Return v, s))
  \/ (exists c, body r = Undecodable c
                /\ json r s = (Raise (mkExn JSONDecodeError c), s)).
Proof.
  unfold json. destruct (body r) as [c | v];
    [right; exists c | left; exists v]; split; reflexivity.
Qed.

Lemma page_requests_length w rp page k :
  List.length (page_requests w rp page k) = k.
Proof. revert page. induction k; intros; cbn; auto. Qed.

Lemma bind_inv {A B} (m : M A) (k : A -> M B) s b s' :
  bind m k s = (Return b, s') ->
  exists a s1, m s = (Return a, s1) /\ k a s1 = (Return b, s').
Proof.
  unfold bind. destruct (m s) as [[a | e |] s1]; try discriminate.
  intros H. now exists a, s1.
Qed.

Lemma try_except_inv {A} (m : M A) catches handler s a s' :
  try_except m catches handler s = (Return a, s') ->
  m s = (Return a, s')
  \/ exists e s1, m s = (Raise e, s1) /\ catches e = true
                  /\ handler e s1 = (Return a, s').
Proof.
  unfold try_except. destruct (m s) as [[a0 | e |] s1]; try discriminate.
  - intros H. now left.
  - destruct (catches e) eqn:Hc; [| discriminate].
    intros H. right. now exists e, s1.
Qed.

Lemma ret_inv {A} (a b : A) s s' :
  ret a s = (Return b, s') -> a = b /\ s = s'.
Proof. unfold ret. now intros [= -> ->]. Qed.

(** *** Computations without loops need no fuel *)

Lemma fuel_free_ret {A} (a : A) : fuel_free (ret a).
Proof. intros s. discriminate. Qed.

Lemma fuel_free_raise {A} e : fuel_free (@raise A e).
Proof. intros s. discriminate. Qed.

Lemma fuel_free_bind {A B} (m : M A) (k : A -> M B) :
  fuel_free m -> (forall a, fuel_free (k a)) -> fuel_free (bind m k).
Proof.
  intros Hm Hk s. unfold bind. specialize (Hm s).
  destruct (m s) as [[a | e |] s1]; cbn in *;
    [apply Hk | discriminate | congruence].
Qed.

Lemma fuel_free_try {A} (m : M A) catches handler :
  fuel_free m -> (forall e, fuel_free (handler e)) ->
  fuel_free (try_except m catches handler).
Proof.
  intros Hm Hh s. unfold try_except. specialize (Hm s).
  destruct (m s) as [[a | e |] s1]; cbn in *;
    [discriminate | | congruence].
  destruct (catches e); [apply Hh | discriminate].
Qed.

Lemma fuel_free_or_raise {A} (o : option A) e : fuel_free (or_raise o e).
Proof. destruct o; intros ?; discriminate. Qed.

Lemma fuel_free_session_get w u params : fuel_free (session_get w u params).
Proof.
  intros s. unfold session_get. destruct (server w _ _); discriminate.
Qed.

Lemma fuel_free_json r : fuel_free (json r).
Proof. unfold json. destruct (body r); intros ?; discriminate. Qed.

Lemma fuel_free_raise_for_status r : fuel_free (raise_for_status r).
Proof.
  unfold raise_for_status. destruct (_ && _); intros ?; discriminate.
Qed.

Lemma fuel_free_dict_get d key default : fuel_free (dict_get d key default).
Proof. destruct d; intros ?; discriminate. Qed.

Lemma fuel_free_print line : fuel_free (print line).
Proof. intros s. discriminate. Qed.

(** Breaks a computation into its parts; [leaf] settles the calls of
    functions already dealt with. *)
Ltac fuel_free_with leaf :=
  repeat first
    [ leaf
    | apply fuel_free_ret | apply fuel_free_raise
    | apply fuel_free_or_raise | apply fuel_free_session_get
    | apply fuel_free_json | apply fuel_free_raise_for_status
    | apply fuel_free_dict_get | apply fuel_free_print
    | apply fuel_free_bind | apply fuel_free_try
    | match goal with
      | |- forall _, _ => intro
      | |- fuel_free (match ?x with _ => _ end) => destruct x
      end ].

Lemma fuel_free_last_url_of h : fuel_free (last_url_of h).
Proof. unfold last_url_of. fuel_free_with fail. Qed.

Lemma fuel_free_page_of u : fuel_free (page_of u).
Proof. unfold page_of, py_int. fuel_free_with fail. Qed.

Lemma fuel_free_per_page_of u : fuel_free (per_page_of u).
Proof. unfold per_page_of, py_int. fuel_free_with fail. Qed.

Lemma fuel_free_count_from_pagination w response base :
  fuel_free (_count_from_pagination w response base).
Proof.
  unfold _count_from_pagination, count_from_last_page, count_from_fallback,
    py_len.
  fuel_free_with
    ltac:(first [ apply fuel_free_last_url_of | apply fuel_free_page_of
                | apply fuel_free_per_page_of ]).
Qed.

Lemma fuel_free_contributors_count w rp :
  fuel_free (_get_contributors_count w rp).
Proof.
  unfold _get_contributors_count, py_len.
  fuel_free_with
    ltac:(first [ apply fuel_free_last_url_of | apply fuel_free_page_of ]).
Qed.

Lemma fuel_free_pull_requests_data w rp :
  fuel_free (_get_pull_requests_data w rp).
Proof.
  unfold _get_pull_requests_data, int_of_times_0_8.
  fuel_free_with ltac:(apply fuel_free_count_from_pagination).
Qed.

Lemma fuel_free_issues_data w rp : fuel_free (_get_issues_data w rp).
Proof.
  unfold _get_issues_data.
  fuel_free_with ltac:(apply fuel_free_count_from_pagination).
Qed.

(* ================================================================== *)
(** ** The loop of the recent-commits counter *)
(* ================================================================== *)

Section CommitsLoop.

Variable w : World.
Variable rp : string.

(** One turn of the loop, spelled out. *)
Lemma commits_loop_unfold fuel page commits total :
  commits_loop w fuel (commits_url rp) page commits total =
  (n <- py_len commits;;
   if n =? 100 then
     match fuel with
     | O => fun s => (OutOfFuel, s)
     | S fuel' =>
         response <- session_get w (commits_url rp)
                       [("since", since_date w); ("per_page", "100");
                        ("page", Py.str_of_int page)];;
         if negb (status_code response =? 200) then ret total
         else
           commits <- json response;;
           n <- py_len commits;;
           if page + 1 >? 10 then ret (total + n)
           else commits_loop w fuel' (commits_url rp) (page + 1) commits
                  (total + n)
     end
   else ret total)%py.
Proof. destruct fuel; reflexivity. Qed.

(** Every run of [commits_loop] that does not exhaust its fuel is a run
    of the relation. *)
Lemma commits_loop_run fuel :
  forall page commits total s r s',
    commits_loop w fuel (commits_url rp) page commits total s = (r, s') ->
    r <> OutOfFuel ->
    loop_run w rp page commits total s r s'.
Proof.
  induction fuel as [|fuel IH]; intros page commits total s r s';
    rewrite commits_loop_unfold; unfold bind at 1;
    destruct (py_len_cases commits s) as [[n [Hn ->]] | [Hn ->]];
    try (intros [= <- <-] _; now apply run_len_error).
  - destruct (Z.eqb_spec n 100) as [-> | Hne].
    + intros [= <- <-] Hr. now contradict Hr.
    + intros [= <- <-] _. now apply (run_short _ _ _ _ _ _ n).
  - destruct (Z.eqb_spec n 100) as [-> | Hne];
      [| intros [= <- <-] _; now apply (run_short _ _ _ _ _ _ n)].
    unfold bind at 1. rewrite session_get_unfold. cbv zeta.
    fold (commits_page_request w rp page).
    destruct (server w _ _) as [t d | resp] eqn:Hsrv.
    { intros [= <- <-] _. now apply run_transport. }
    destruct (Z.eqb_spec (status_code resp) 200) as [Hst | Hst]; cbn [negb].
    2:{ intros [= <- <-] _. now apply (run_status _ _ _ _ _ _ resp). }
    unfold bind at 1.
    destruct (json_cases resp (logged s (commits_page_request w rp page)))
      as [[v [Hb ->]] | [c [Hb ->]]].
    2:{ intros [= <- <-] _. now apply (run_undecodable _ _ _ _ _ _ resp). }
    unfold bind at 1.
    destruct (py_len_cases v (logged s (commits_page_request w rp page)))
      as [[m [Hm ->]] | [Hm ->]].
    2:{ intros [= <- <-] _. now apply (run_uncountable _ _ _ _ _ _ resp v). }
    destruct (Z.gtb_spec (page + 1) 10) as [Hgt | Hle].
    { intros [= <- <-] _. now apply (run_limit _ _ _ _ _ _ resp v m). }
    intros Hrun Hr. apply (run_next _ _ _ _ _ _ resp v m); auto.
Qed.

(** The safety limit makes the loop end on its own: from a page up to 10
    it never needs more than [11 - page] turns. *)
Lemma commits_loop_fuel fuel :
  forall page commits total s,
    page <= 10 -> 11 - page <= Z.of_nat fuel ->
    fst (commits_loop w fuel (commits_url rp) page commits total s)
    <> OutOfFuel.
Proof.
  induction fuel as [|fuel IH]; intros page commits total s Hp Hf;
    [lia |].
  rewrite commits_loop_unfold; unfold bind at 1.
  destruct (py_len_cases commits s) as [[n [Hn ->]] | [Hn ->]];
    [| discriminate].
  destruct (n =? 100); [| discriminate].
  unfold bind at 1. rewrite session_get_unfold. cbv zeta.
  destruct (server w _ _) as [t d | resp]; [discriminate |].
  destruct (negb _); [discriminate |].
  unfold bind at 1.
  destruct (json_cases resp (logged s (mkRequest (commits_url rp)
     [("since", since_date w); ("per_page", "100");
      ("page", Py.str_of_int page)])))
    as [[v [Hb ->]] | [c [Hb ->]]]; [| discriminate].
  unfold bind at 1.
  match goal with
  | |- context [py_len v ?s1] =>
      destruct (py_len_cases v s1) as [[m [Hm ->]] | [Hm ->]];
        [| discriminate]
  end.
  destruct (Z.gtb_spec (page + 1) 10) as [Hgt | Hle]; [discriminate |].
  apply IH; lia.
Qed.

(** The loop asks for consecutive pages and never beyond page 10. *)
Lemma loop_run_requests page commits total s r s' :
  loop_run w rp page commits total s r s' ->
  page <= 10 ->
  exists k, Z.of_nat k <= 11 - page
            /\ issued s s' (page_requests w rp page k).
Proof.
  induction 1 as [ | | | | | | | page commits total s resp v n r s'
                               Hc Hsrv Hst Hb Hn Hle Hrun IH ];
    intros Hp;
    try (exists 0%nat; split; [lia | apply issued_nil]);
    try (exists 1%nat; split; [lia | apply issued_one]).
  destruct (IH ltac:(lia)) as [k [Hk Hiss]].
  exists (S k). split; [lia |]. now apply issued_cons.
Qed.

(** A run that issues a request started from a full page. *)
Lemma loop_run_started page commits total s r s' l :
  loop_run w rp page commits total s r s' ->
  issued s s' l -> l <> [] -> len_of commits = Some 100.
Proof.
  intros Hrun Hiss Hl.
  destruct Hrun; auto;
    (contradict Hl; exact (issued_inj _ _ _ _ Hiss (issued_nil _))).
Qed.

(** A request that the transport fails ends the loop with the
    transport's exception. *)
Lemma loop_run_transport page commits total s r s' :
  loop_run w rp page commits total s r s' ->
  forall l i rq t d,
    issued s s' l -> nth_error l i = Some rq ->
    server w (List.length (requests s) + i) rq = Fails t d ->
    exists e, r = Raise e.
Proof.
  induction 1 as [ | | | page commits total s resp Hc Hsrv Hst
                   | page commits total s resp c Hc Hsrv Hst Hb
                   | page commits total s resp v Hc Hsrv Hst Hb Hn
                   | page commits total s resp v n Hc Hsrv Hst Hb Hn Hgt
                   | page commits total s resp v n r s'
                       Hc Hsrv Hst Hb Hn Hle Hrun IH ];
    intros l i rq t' d' Hiss Hnth Hfail;
    try (rewrite (issued_inj _ _ _ _ Hiss (issued_nil _)) in Hnth;
         destruct i; discriminate);
    try (eexists; reflexivity);
    try (rewrite (issued_inj _ _ _ _ Hiss (issued_one _ _)) in Hnth;
         destruct i as [|[|i]]; try discriminate;
         injection Hnth as <-; rewrite Nat.add_0_r in Hfail; congruence).
  destruct (loop_run_requests _ _ _ _ _ _ Hrun ltac:(lia)) as [k [_ Hk]].
  rewrite (issued_inj _ _ _ _ Hiss (issued_cons _ _ _ _ Hk)) in Hnth.
  destruct i as [|i].
  - injection Hnth as <-. rewrite Nat.add_0_r in Hfail. congruence.
  - apply (IH _ i rq t' d' Hk Hnth).
    cbn [logged requests]. rewrite length_app. cbn [List.length].
    now replace (List.length (requests s) + 1 + i)%nat
      with (List.length (requests s) + S i)%nat by lia.
Qed.

(** When the last request of a run is answered with a status other than
    200, the loop returns what it had accumulated: the total at entry
    plus 100 for every page fetched in between. *)
Lemma loop_run_status page commits total s r s' :
  loop_run w rp page commits total s r s' ->
  forall l rq resp,
    issued s s' l -> nth_error l (List.length l - 1) = Some rq ->
    server w (List.length (requests s) + (List.length l - 1)) rq
      = Responds resp ->
    status_code resp <> 200 ->
    r = Return (total + 100 * (Z.of_nat (List.length l) - 1)).
Proof.
  induction 1 as [ | | | page commits total s resp Hc Hsrv Hst
                   | page commits total s resp c Hc Hsrv Hst Hb
                   | page commits total s resp v Hc Hsrv Hst Hb Hn
                   | page commits total s resp v n Hc Hsrv Hst Hb Hn Hgt
                   | page commits total s resp v n r s'
                       Hc Hsrv Hst Hb Hn Hle Hrun IH ];
    intros l rq resp' Hiss Hnth Hans Hcode;
    try (rewrite (issued_inj _ _ _ _ Hiss (issued_nil _)) in Hnth;
         discriminate);
    try (rewrite (issued_inj _ _ _ _ Hiss (issued_one _ _)) in *;
         cbn in Hnth, Hans; injection Hnth as <-;
         rewrite Nat.add_0_r in Hans; try congruence).
  - f_equal. cbn. lia.
  - destruct (loop_run_requests _ _ _ _ _ _ Hrun ltac:(lia)) as [k [_ Hk]].
    rewrite (issued_inj _ _ _ _ Hiss (issued_cons _ _ _ _ Hk)) in *.
    set (l' := page_requests w rp (page + 1) k) in *.
    destruct l' as [|rq' l''] eqn:El.
    + cbn in Hnth, Hans. injection Hnth as <-.
      rewrite Nat.add_0_r in Hans. congruence.
    + assert (Hfull : len_of v = Some 100)
        by (apply (loop_run_started _ _ _ _ _ _ _ Hrun Hk); discriminate).
      assert (n = 100) by congruence. subst n.
      rewrite (IH (rq' :: l'') rq resp' Hk).
      * f_equal. cbn [List.length]. lia.
      * cbn [List.length] in Hnth |- *.
        now replace (S (List.length l'') - 0)%nat
          with (S (List.length l'')) in Hnth by lia;
        replace (S (List.length l'') - 1)%nat
          with (List.length l'') by lia.
      * cbn [logged requests List.length] in Hans |- *.
        rewrite length_app. cbn [List.length] in Hans |- *.
        now replace (List.length (requests s) + 1
                     + (S (List.length l'') - 1))%nat
          with (List.length (requests s)
                + (S (S (List.length l'')) - 1))%nat by lia.
      * exact Hcode.
Qed.

Lemma loop_run_full page commits total s r s' :
  loop_run w rp page commits total s r s' ->
  full_pages w -> len_of commits = Some 100 -> page <= 10 ->
  r = Return (total + 100 * (11 - page))
  /\ issued s s' (page_requests w rp page (Z.to_nat (11 - page))).
Proof.
  intros Hrun Hfull.
  induction Hrun as [ page commits total s Hc
                    | page commits total s n Hc Hne
                    | page commits total s t d Hc Hsrv
                    | page commits total s resp Hc Hsrv Hst
                    | page commits total s resp c Hc Hsrv Hst Hb
                    | page commits total s resp v Hc Hsrv Hst Hb Hn
                    | page commits total s resp v n Hc Hsrv Hst Hb Hn Hgt
                    | page commits total s resp v n r s'
                        Hc Hsrv Hst Hb Hn Hle Hrun IH ];
    intros Hlen Hp; try congruence;
    try (destruct (Hfull (List.length (requests s))
                     (commits_page_request w rp page))
           as [resp0 [v0 [Hs0 [Hst0 [Hb0 Hn0]]]]];
         rewrite Hs0 in Hsrv; try discriminate;
         injection Hsrv as <-; try congruence).
  - assert (v0 = v) by congruence. subst v0.
    assert (n = 100) by congruence. subst n.
    assert (page = 10) by lia. subst page.
    split; [reflexivity | apply issued_one].
  - assert (v0 = v) by congruence. subst v0.
    assert (n = 100) by congruence. subst n.
    destruct (IH Hn ltac:(lia)) as [-> Hiss]. split.
    + f_equal. lia.
    + replace (Z.to_nat (11 - page)) with (S (Z.to_nat (11 - (page + 1))))
        by lia.
      cbn [page_requests]. now apply issued_cons.
Qed.

(** [_get_recent_commits_count] by cases on its first request. *)
Lemma recent_commits_unfold s :
  _get_recent_commits_count w rp s =
  let s1 := logged s (first_commits_request w rp) in
  match server w (List.length (requests s)) (first_commits_request w rp) with
  | Fails _ _ => (Return 0, s1)
  | Responds resp =>
      if (400 <=? status_code resp) && (status_code resp <? 600)
      then (Return 0, s1)
      else
        match body resp with
        | Undecodable _ => (Return 0, s1)
        | Json v =>
            match len_of v with
            | None => (Return 0, s1)
            | Some n =>
                match commits_loop w loop_fuel (commits_url rp) 2 v n s1 with
                | (Raise _, s') => (Return 0, s')
                | other => other
                end
            end
        end
  end.
Proof.
  unfold _get_recent_commits_count, try_except. unfold bind at 1.
  fold (commits_url rp). rewrite session_get_unfold. cbv zeta.
  fold (first_commits_request w rp).
  destruct (server w _ _) as [t d | resp]; [reflexivity |].
  unfold bind at 1, raise_for_status.
  destruct ((400 <=? status_code resp) && (status_code resp <? 600));
    [reflexivity |].
  unfold ret at 1. unfold bind at 1, json.
  destruct (body resp) as [c | v]; [reflexivity |].
  unfold ret at 1. unfold bind at 1, py_len.
  destruct (len_of v) as [n|]; [| reflexivity].
  unfold or_raise, ret at 1.
  destruct (commits_loop w loop_fuel (commits_url rp) 2 v n _)
    as [[t | e |] s']; reflexivity.
Qed.

Lemma loop_fuel_enough : 11 - 2 <= Z.of_nat loop_fuel.
Proof. unfold loop_fuel. lia. Qed.

End CommitsLoop.

(* ================================================================== *)
(** ** The recent-commits counter *)
(* ================================================================== *)

(** A run of [_get_recent_commits_count] issues the first request and
    then consecutive pages from 2, at most up to page 10; it never runs
    out of fuel. *)
Lemma recent_commits_requests w rp s :
  exists k, (k <= 9)%nat
    /\ issued s (snd (_get_recent_commits_count w rp s))
         (first_commits_request w rp :: page_requests w rp 2 k)
    /\ fst (_get_recent_commits_count w rp s) <> OutOfFuel.
Proof.
  rewrite recent_commits_unfold. cbv zeta.
  assert (Hone : forall n : Z,
    exists k, (k <= 9)%nat
      /\ issued s (snd (Return n, logged s (first_commits_request w rp)))
           (first_commits_request w rp :: page_requests w rp 2 k)
      /\ fst (Return n, logged s (first_commits_request w rp)) <> OutOfFuel).
  { intros n. exists 0%nat. split; [lia |]. split; [| discriminate].
    apply issued_one. }
  destruct (server w _ _) as [t d | resp]; [apply Hone |].
  destruct (_ && _); [apply Hone |].
  destruct (body resp) as [c | v]; [apply Hone |].
  destruct (len_of v) as [n |]; [| apply Hone].
  pose proof (commits_loop_fuel w rp loop_fuel 2 v n
                (logged s (first_commits_request w rp)) ltac:(lia)
                (loop_fuel_enough)) as Hfuel.
  destruct (commits_loop w loop_fuel (commits_url rp) 2 v n _)
    as [r s'] eqn:Hloop.
  cbn [fst] in Hfuel.
  apply commits_loop_run in Hloop; [| exact Hfuel].
  destruct (loop_run_requests _ _ _ _ _ _ _ _ Hloop ltac:(lia))
    as [k [Hk Hiss]].
  exists k. split; [lia |].
  destruct r as [t | e |]; cbn [fst snd];
    (split; [now apply issued_cons | congruence]).
Qed.

Lemma fuel_free_recent_commits_count w rp :
  fuel_free (_get_recent_commits_count w rp).
Proof.
  intros s. destruct (recent_commits_requests w rp s) as [k [_ [_ H]]].
  exact H.
Qed.

(** C6.  Whatever the server answers, [_get_recent_commits_count] issues
    at most 10 requests; and when every page comes back with status 200
    and exactly 100 items, it issues exactly the first request and the
    pages 2 to 10, ten requests in all, and returns 1000. *)
Theorem recent_commits_bounded_scan w rp s :
  (exists l, issued s (snd (_get_recent_commits_count w rp s)) l
             /\ (List.length l <= 10)%nat)
  /\ (full_pages w ->
      exists s', _get_recent_commits_count w rp s = (Return 1000, s')
        /\ issued s s'
             (first_commits_request w rp :: page_requests w rp 2 9)
        /\ List.length (requests s') = (List.length (requests s) + 10)%nat).
Proof.
  split.
  - destruct (recent_commits_requests w rp s) as [k [Hk [Hiss _]]].
    eexists. split; [exact Hiss |].
    cbn [List.length]. rewrite page_requests_length. lia.
  - intros Hfull.
    assert (Hshape : forall s', 
              issued s s' (first_commits_request w rp
                             :: page_requests w rp 2 9) ->
              List.length (requests s')
              = (List.length (requests s) + 10)%nat).
    { intros s' [Hreq _]. rewrite Hreq, length_app.
      cbn [List.length]. rewrite page_requests_length. reflexivity. }
    rewrite recent_commits_unfold. cbv zeta.
    destruct (Hfull (List.length (requests s)) (first_commits_request w rp))
      as [resp [v [-> [Hst [-> Hv]]]]].
    rewrite Hv, Hst. cbn [Z.leb Z.ltb Z.compare Pos.compare Pos.compare_cont andb].
    pose proof (commits_loop_fuel w rp loop_fuel 2 v 100
                  (logged s (first_commits_request w rp)) ltac:(lia)
                  (loop_fuel_enough)) as Hfuel.
    destruct (commits_loop w loop_fuel (commits_url rp) 2 v 100 _)
      as [r s'] eqn:Hloop.
    cbn [fst] in Hfuel.
    apply commits_loop_run in Hloop; [| exact Hfuel].
    destruct (loop_run_full _ _ _ _ _ _ _ _ Hloop Hfull Hv ltac:(lia))
      as [-> Hiss].
    exists s'. split; [reflexivity |].
    assert (Hall : issued s s' (first_commits_request w rp
                                  :: page_requests w rp 2 9))
      by (now apply issued_cons).
    split; [exact Hall | now apply Hshape].
Qed.

(** C5 (amended).  In a run of [_get_recent_commits_count] that issued
    the requests [l]: (a) if the transport failed any of them, the
    result is 0; (b) if the first answer has an error status (400-599),
    the result is 0; (c) if the last request is a later page and its
    answer has a status other than 200, the scan stops there and the
    result is the partial sum of the pages before it, 100 for each. *)
Theorem recent_commits_failures w rp s r s' l :
  _get_recent_commits_count w rp s = (r, s') ->
  issued s s' l ->
  (forall i rq t d,
      nth_error l i = Some rq ->
      server w (List.length (requests s) + i) rq = Fails t d ->
      r = Return 0)
  /\ (forall resp,
        server w (List.length (requests s)) (first_commits_request w rp)
          = Responds resp ->
        400 <= status_code resp < 600 ->
        r = Return 0)
  /\ (forall rq resp,
        (2 <= List.length l)%nat ->
        nth_error l (List.length l - 1) = Some rq ->
        server w (List.length (requests s) + (List.length l - 1)) rq
          = Responds resp ->
        status_code resp <> 200 ->
        r = Return (100 * (Z.of_nat (List.length l) - 1))).
Proof.
  rewrite recent_commits_unfold. cbv zeta. intros Hrun Hiss.
  assert (Hone : forall r0,
    (r0, logged s (first_commits_request w rp)) = (r, s') ->
    l = [first_commits_request w rp]).
  { intros r0 [= _ <-]. exact (issued_inj _ _ _ _ Hiss (issued_one _ _)). }
  destruct (server w _ _) as [t d | resp] eqn:Hsrv.
  { pose proof (Hone _ Hrun) as ->. injection Hrun as <- <-.
    repeat split; auto; intros; cbn in *; lia. }
  destruct ((400 <=? status_code resp) && (status_code resp <? 600))
    eqn:Hst.
  { pose proof (Hone _ Hrun) as ->. injection Hrun as <- <-.
    repeat split; auto; intros; cbn in *; lia. }
  assert (Hb : forall resp', Responds resp = Responds resp' ->
                 400 <= status_code resp' < 600 -> r = Return 0).
  { intros resp' [= <-]. lia. }
  assert (H0 : forall i rq t d,
             nth_error [first_commits_request w rp] i = Some rq ->
             server w (List.length (requests s) + i) rq = Fails t d ->
             r = Return 0).
  { intros [|[|i]] rq t d; try discriminate. intros [= <-].
    rewrite Nat.add_0_r. congruence. }
  destruct (body resp) as [c | v].
  { pose proof (Hone _ Hrun) as ->.
    repeat split; auto; intros; cbn in *; lia. }
  destruct (len_of v) as [n |] eqn:Hn.
  2:{ pose proof (Hone _ Hrun) as ->.
      repeat split; auto; intros; cbn in *; lia. }
  pose proof (commits_loop_fuel w rp loop_fuel 2 v n
                (logged s (first_commits_request w rp)) ltac:(lia)
                (loop_fuel_enough)) as Hfuel.
  destruct (commits_loop w loop_fuel (commits_url rp) 2 v n _)
    as [r1 s1] eqn:Hloop.
  cbn [fst] in Hfuel.
  apply commits_loop_run in Hloop; [| exact Hfuel].
  destruct (loop_run_requests _ _ _ _ _ _ _ _ Hloop ltac:(lia))
    as [k [Hk Hiss1]].
  assert (s1 = s') by (destruct r1; congruence). subst s1.
  rewrite (issued_inj _ _ _ _ Hiss (issued_cons _ _ _ _ Hiss1)).
  split; [| split; [exact Hb |]].
  - intros [|i] rq t d Hnth Hfail.
    + apply (H0 0%nat rq t d); auto.
    + cbn [nth_error] in Hnth.
      destruct (loop_run_transport _ _ _ _ _ _ _ _ Hloop _ i rq t d
                  Hiss1 Hnth) as [e ->]; [| congruence].
      cbn [logged requests]. rewrite length_app. cbn [List.length].
      now replace (List.length (requests s) + 1 + i)%nat
        with (List.length (requests s) + S i)%nat by lia.
  - intros rq resp'. cbn [List.length].
    set (pages := page_requests w rp 2 k) in *. clearbody pages.
    intros Hlen Hnth Hans Hcode.
    assert (Hpages : pages <> []) by (destruct pages; cbn in Hlen; [lia | discriminate]).
    assert (n = 100).
    { pose proof (loop_run_started _ _ _ _ _ _ _ _ _ Hloop Hiss1 Hpages).
      congruence. }
    subst n.
    replace (S (List.length pages) - 1)%nat
      with (S (List.length pages - 1)) in Hnth, Hans by lia.
    cbn [nth_error] in Hnth.
    rewrite (loop_run_status _ _ _ _ _ _ _ _ Hloop pages rq resp'
               Hiss1 Hnth) in Hrun.
    + apply (f_equal fst) in Hrun. cbn [fst] in Hrun. rewrite <- Hrun.
      f_equal. lia.
    + cbn [logged requests]. rewrite length_app. cbn [List.length].
      now replace (List.length (requests s) + 1
                   + (List.length pages - 1))%nat
        with (List.length (requests s)
              + S (List.length pages - 1))%nat by lia.
    + exact Hcode.
Qed.

Lemma recent_commits_bounded_scan_witness :
  full_pages world_full_pages
  /\ exists s',
      _get_recent_commits_count world_full_pages "o/r" initial
      = (Return 1000, s')
      /\ issued initial s'
           (first_commits_request world_full_pages "o/r"
              :: page_requests world_full_pages "o/r" 2 9)
      /\ List.length (requests s') = 10%nat.
Proof.
  assert (H : full_pages world_full_pages).
  { intros n rq. eexists. eexists. repeat split; reflexivity. }
  split; [exact H |].
  exact (proj2 (recent_commits_bounded_scan world_full_pages "o/r" initial)
           H).
Defined.

(** C5, the claim as stated fails: page 2 is answered with status 500,
    and the function returns the 100 commits of page 1, not 0. *)
Lemma recent_commits_partial_sum_counterexample :
  server world_page2_down 1
    (commits_page_request world_page2_down "o/r" 2)
  = server_error (commits_page_request world_page2_down "o/r" 2)
  /\ _get_recent_commits_count world_page2_down "o/r" initial
     = (Return 100, mkState page2_down_log [])
  /\ Return 100 <> Return 0.
Proof. split; [reflexivity | split; [reflexivity | discriminate]]. Qed.

Lemma recent_commits_failures_witness :
  _get_recent_commits_count world_page2_down "o/r" initial
  = (Return 100, mkState page2_down_log [])
  /\ issued initial (mkState page2_down_log []) page2_down_log
  /\ forall rq resp,
       (2 <= List.length page2_down_log)%nat ->
       nth_error page2_down_log (List.length page2_down_log - 1) = Some rq ->
       server world_page2_down
         (List.length (requests initial)
          + (List.length page2_down_log - 1)) rq = Responds resp ->
       status_code resp <> 200 ->
       Return 100
       = Return (100 * (Z.of_nat (List.length page2_down_log) - 1)).
Proof.
  split; [reflexivity |]. split; [split; reflexivity |].
  exact (proj2 (proj2 (recent_commits_failures world_page2_down "o/r"
                         initial (Return 100)
                         (mkState page2_down_log []) page2_down_log
                         eq_refl (conj eq_refl eq_refl)))).
Defined.

(* ================================================================== *)
(** ** The paginated counter *)
(* ================================================================== *)

Lemma split_go_nonempty sep s skip cur : Py.split_go sep s skip cur <> [].
Proof.
  revert skip cur. induction s as [|c s IH]; intros skip cur; cbn.
  - discriminate.
  - destruct skip; [destruct (Py.startswith sep (String c s)) |];
      try discriminate; apply IH.
Qed.

Lemma index0_split sep s : exists p, Py.index0 (Py.split sep s) = Some p.
Proof.
  unfold Py.index0, Py.split.
  destruct (Py.split_go sep s 0 []) as [|p l] eqn:E.
  - now apply split_go_nonempty in E.
  - now exists p.
Qed.

Lemma index_last_split sep s :
  exists p, Py.index_last (Py.split sep s) = Some p.
Proof.
  unfold Py.index_last, Py.split.
  destruct (rev (Py.split_go sep s 0 [])) as [|p l] eqn:E.
  - apply (f_equal (@rev string)) in E. rewrite rev_involutive in E.
    now apply split_go_nonempty in E.
  - now exists p.
Qed.

(** The URL extraction cannot fail: both subscripts are in range. *)
Lemma last_url_of_total h : exists u, yields (last_url_of h) u.
Proof.
  unfold last_url_of.
  destruct (index0_split rel_last h) as [p Hp].
  destruct (index_last_split "," p) as [q Hq].
  exists (Py.strip_chars "<>" (Py.strip q)). intros s.
  unfold bind. rewrite Hp. unfold or_raise at 1, ret at 1.
  rewrite Hq. reflexivity.
Qed.

Lemma fallback_count_failed o : failed o -> fallback_count o = 0.
Proof.
  intros [t d | resp H | resp c H | resp v H1 H2]; cbn; auto.
  - destruct (Z.eqb_spec (status_code resp) 200); [contradiction | auto].
  - rewrite H. now destruct (_ =? _).
  - rewrite H1, H2. now destruct (_ =? _).
Qed.

Section Counter.

Variable w : World.

Lemma count_from_fallback_unfold base s :
  count_from_fallback w base s =
  (Return
     match server w (List.length (requests s)) (mkRequest base []) with
     | Fails _ _ => None
     | Responds resp =>
         if status_code resp =? 200 then
           match body resp with
           | Undecodable _ => None
           | Json v => len_of v
           end
         else None
     end,
   logged s (mkRequest base [])).
Proof.
  unfold count_from_fallback, try_except. unfold bind at 1.
  rewrite session_get_unfold. cbv zeta.
  destruct (server w _ _) as [t d | resp]; [reflexivity |].
  destruct (status_code resp =? 200); [| reflexivity].
  unfold bind at 1, json. destruct (body resp) as [c | v]; [reflexivity |].
  unfold ret at 1. unfold bind, py_len.
  destruct (len_of v); reflexivity.
Qed.

(** Once control reaches the fallback, the counter returns
    [fallback_count] of the answer to the base-URL request. *)
Lemma count_from_pagination_fallback response base s s1 :
  count_from_last_page w response s = (Return None, s1) ->
  _count_from_pagination w response base s =
  (Return (fallback_count
             (server w (List.length (requests s1)) (mkRequest base []))),
   logged s1 (mkRequest base [])).
Proof.
  intros H. unfold _count_from_pagination. unfold bind at 1. rewrite H.
  unfold bind at 1. rewrite count_from_fallback_unfold.
  unfold fallback_count.
  destruct (server w _ _) as [t d | resp]; [reflexivity |].
  destruct (status_code resp =? 200); [| reflexivity].
  destruct (body resp) as [c | v]; [reflexivity |].
  destruct (len_of v); reflexivity.
Qed.

(** The last-page branch, for a link from which the code reads the URL
    [u], the page [L] and the page size [P]. *)
Lemma count_from_last_page_parsed response h u L P s :
  link response = Some h -> Py.contains rel_last h = true ->
  yields (last_url_of h) u -> yields (page_of u) L ->
  yields (per_page_of u) P ->
  count_from_last_page w response s =
  match server w (List.length (requests s)) (mkRequest u []) with
  | Fails t d =>
      if is_ValueError (mkExn (class_of_transport t) d)
      then (Return None, logged s (mkRequest u []))
      else (Raise (mkExn (class_of_transport t) d),
            logged s (mkRequest u []))
  | Responds resp =>
      if status_code resp =? 200 then
        match body resp with
        | Undecodable _ => (Return None, logged s (mkRequest u []))
        | Json v =>
            match len_of v with
            | Some n => (Return (Some ((L - 1) * P + n)),
                         logged s (mkRequest u []))
            | None => (Raise type_error, logged s (mkRequest u []))
            end
        end
      else (Return None, logged s (mkRequest u []))
  end.
Proof.
  intros Hl Hc Hu HL HP. unfold count_from_last_page.
  rewrite Hl, Hc. unfold bind at 1. rewrite (Hu s).
  unfold try_except. unfold bind at 1. rewrite (HL s).
  unfold bind at 1. rewrite (HP s).
  unfold bind at 1. rewrite session_get_unfold. cbv zeta.
  destruct (server w _ _) as [t d | resp].
  { destruct t; reflexivity. }
  destruct (status_code resp =? 200); [| reflexivity].
  unfold bind at 1, json. destruct (body resp) as [c | v]; [reflexivity |].
  unfold ret at 1. unfold bind, py_len.
  destruct (len_of v); reflexivity.
Qed.

(** X8.  The counter's formula: when the code reads [u], [L] and [P]
    from the link and the request for [u] is answered with status 200
    and [n] items, the counter issues that request alone and returns
    [(L - 1) * P + n]. *)
Lemma count_from_pagination_formula response base h u L P s resp v n :
  link response = Some h -> Py.contains rel_last h = true ->
  yields (last_url_of h) u -> yields (page_of u) L ->
  yields (per_page_of u) P ->
  server w (List.length (requests s)) (mkRequest u []) = Responds resp ->
  status_code resp = 200 -> body resp = Json v -> len_of v = Some n ->
  _count_from_pagination w response base s
  = (Return ((L - 1) * P + n), logged s (mkRequest u [])).
Proof.
  intros Hl Hc Hu HL HP Hsrv Hst Hb Hn. unfold _count_from_pagination.
  unfold bind at 1.
  rewrite (count_from_last_page_parsed response h u L P s Hl Hc Hu HL HP).
  rewrite Hsrv, Hst, Hb, Hn. reflexivity.
Qed.

End Counter.

(** C2 (the code at the failing input).  For a link in the wire format
    whose URL ends in [page=5&per_page=30], the URL the code extracts
    keeps the closing [>;], [int("30>;")] raises [ValueError], and the
    counter answers from the base URL: it returns 30, not 127, and never
    asks for the last page. *)
Theorem count_from_pagination_wire_format :
  yields (last_url_of link_page5)
    "https://api.github.com/repos/o/r/pulls?state=open&page=5&per_page=30>;"
  /\ per_page_of
       "https://api.github.com/repos/o/r/pulls?state=open&page=5&per_page=30>;"
       initial
     = (Raise value_error, initial)
  /\ _count_from_pagination world_127 (first_page link_page5) pulls_base
       initial
     = (Return 30, mkState [mkRequest pulls_base []] []).
Proof. split; [intros s; reflexivity | split; reflexivity]. Qed.

(** With a parameter behind [per_page] the formula applies: 4*30+7. *)
Example count_from_pagination_127 :
  _count_from_pagination world_127 (first_page link_page5_inner) pulls_base
    initial
  = (Return 127, mkState [mkRequest url_page5_inner []] []).
Proof. reflexivity. Qed.

(** C3, the claim as stated fails: the request for the last page is
    answered 503, and the counter returns the 3 items of the base URL,
    not 0. *)
Lemma count_from_pagination_fallback_counterexample :
  server world_last_page_down 0 (mkRequest url_github [])
  = unavailable (mkRequest url_github [])
  /\ _count_from_pagination world_last_page_down (first_page link_github)
       issues_base initial
     = (Return 3,
        mkState [mkRequest url_github []; mkRequest issues_base []] [])
  /\ Return 3 <> Return 0.
Proof. split; [reflexivity | split; [reflexivity | discriminate]]. Qed.

(** A connection error on the request for the last page is not a
    [ValueError] or [IndexError]: it leaves the counter as an
    exception. *)
Example count_from_pagination_raises :
  _count_from_pagination world_offline (first_page link_github)
    issues_base initial
  = (Raise (mkExn ConnectionError "Connection aborted."),
     mkState [mkRequest url_github []] []).
Proof. reflexivity. Qed.

(** C3 (amended).  (a) Whenever control reaches the fallback, the
    counter returns without raising, and returns 0 if the base-URL
    request fails in any way (transport error, status other than 200,
    body that cannot be decoded or counted).  (b) A status other than
    200 on the request for the last page sends control to the fallback;
    so does a response without a [Link] header. *)
Theorem count_from_pagination_failures w response base s :
  (forall s1,
      count_from_last_page w response s = (Return None, s1) ->
      exists n,
        _count_from_pagination w response base s
        = (Return n, logged s1 (mkRequest base []))
        /\ n = fallback_count
                 (server w (List.length (requests s1)) (mkRequest base []))
        /\ (failed (server w (List.length (requests s1))
                      (mkRequest base [])) -> n = 0))
  /\ (forall h u L P resp,
        link response = Some h -> Py.contains rel_last h = true ->
        yields (last_url_of h) u -> yields (page_of u) L ->
        yields (per_page_of u) P ->
        server w (List.length (requests s)) (mkRequest u [])
          = Responds resp ->
        status_code resp <> 200 ->
        count_from_last_page w response s
        = (Return None, logged s (mkRequest u [])))
  /\ (link response = None ->
      count_from_last_page w response s = (Return None, s)).
Proof.
  split; [| split].
  - intros s1 H. eexists. split; [| split].
    + now apply count_from_pagination_fallback.
    + reflexivity.
    + apply fallback_count_failed.
  - intros h u L P resp Hl Hc Hu HL HP Hsrv Hst.
    rewrite (count_from_last_page_parsed w response h u L P s Hl Hc Hu HL HP).
    rewrite Hsrv. destruct (Z.eqb_spec (status_code resp) 200);
      [contradiction | reflexivity].
  - intros Hl. unfold count_from_last_page. rewrite Hl. reflexivity.
Qed.

Lemma count_from_pagination_failures_witness :
  count_from_last_page world_last_page_down (first_page link_github) initial
  = (Return None, logged initial (mkRequest url_github []))
  /\ exists n,
      _count_from_pagination world_last_page_down (first_page link_github)
        issues_base initial
      = (Return n,
         logged (logged initial (mkRequest url_github []))
           (mkRequest issues_base []))
      /\ n = fallback_count
               (server world_last_page_down 1 (mkRequest issues_base []))
      /\ (failed (server world_last_page_down 1 (mkRequest issues_base []))
          -> n = 0).
Proof.
  pose proof (count_from_pagination_failures world_last_page_down
                (first_page link_github) issues_base initial)
    as [Hfallback [Hstatus _]].
  assert (Hlast :
    count_from_last_page world_last_page_down (first_page link_github)
      initial
    = (Return None, logged initial (mkRequest url_github []))).
  { apply (Hstatus link_github url_github 1 1
             (mkResponse 503 "Service Unavailable" url_github None
                (Undecodable "Expecting value")));
      try reflexivity; try (intros s; reflexivity).
    cbn. discriminate. }
  split; [exact Hlast |].
  exact (Hfallback _ Hlast).
Defined.

(* ================================================================== *)
(** ** Reading the page and the page size from the URL *)
(* ================================================================== *)

(** C4 (the code at the failing input).  For the URL ending in
    [?per_page=1&page=57] the first occurrence of [page=] is the one
    inside [per_page=], so the code reads 1 as the page, where the page
    parameter is 57. *)
Theorem page_of_per_page_first :
  yields (page_of url_per_page_first) 1
  /\ yields (per_page_of url_per_page_first) 1
  /\ Py.split "page=" url_per_page_first
     = ["https://api.github.com/repos/o/r/contributors?per_"; "1&"; "57"].
Proof. repeat split. Qed.

(** With [page] in front the two values are read as written. *)
Example page_of_page_first :
  yields (page_of url_page_first) 57
  /\ yields (per_page_of url_page_first) 1.
Proof. repeat split. Qed.

(** The URL the code extracts from a link in the wire format keeps the
    closing [>;], which spoils the last parameter: here [page]. *)
Example page_of_wire_format :
  yields (last_url_of ("<" ++ url_page_first ++ ">; " ++ rel_last))
    (url_page_first ++ ">;")
  /\ per_page_of (url_page_first ++ ">;") initial
     = (Raise value_error, initial)
  /\ yields (last_url_of ("<" ++ url_per_page_first ++ ">; " ++ rel_last))
       (url_per_page_first ++ ">;")
  /\ yields (page_of (url_per_page_first ++ ">;")) 1.
Proof. repeat split. Qed.

(* ================================================================== *)
(** ** The contributors count *)
(* ================================================================== *)



(* ================================================================== *)
(** ** The assembled record *)
(* ================================================================== *)

(** [get_repo_data] always comes to an end: it returns a record or
    raises, whatever the server does. *)
Lemma get_repo_data_total w rp : fuel_free (get_repo_data w rp).
Proof.
  unfold get_repo_data.
  fuel_free_with
    ltac:(first [ apply fuel_free_contributors_count
                | apply fuel_free_pull_requests_data
                | apply fuel_free_issues_data
                | apply fuel_free_recent_commits_count ]).
Qed.

(** Whatever happens, the pull-request figures are consistent: the total
    is the sum of the two counts and the merged figure is
    [int(closed * 0.8)]. *)
Lemma pull_requests_data_spec w rp s d s' :
  _get_pull_requests_data w rp s = (Return d, s') ->
  pr_total d = pr_open d + pr_closed d
  /\ Float.int_times_0_8 (pr_closed d) = Some (pr_merged d).
Proof.
  unfold _get_pull_requests_data. intros H.
  apply try_except_inv in H as [H | (e & s1 & _ & _ & H)].
  - apply bind_inv in H as (r1 & s1 & _ & H).
    apply bind_inv in H as (u1 & s2 & _ & H).
    apply bind_inv in H as (open_count & s3 & _ & H).
    apply bind_inv in H as (r2 & s4 & _ & H).
    apply bind_inv in H as (u2 & s5 & _ & H).
    apply bind_inv in H as (closed_count & s6 & _ & H).
    apply bind_inv in H as (merged_count & s7 & Hm & H).
    apply ret_inv in H as [<- _]. cbn. split; [reflexivity |].
    unfold int_of_times_0_8, or_raise in Hm.
    destruct (Float.int_times_0_8 closed_count) as [m |];
      [| discriminate].
    apply ret_inv in Hm as [-> _]. reflexivity.
  - apply ret_inv in H as [<- _]. split; reflexivity.
Qed.

Lemma issues_data_spec w rp s i s' :
  _get_issues_data w rp s = (Return i, s') ->
  is_total i = is_open i + is_closed i.
Proof.
  unfold _get_issues_data. intros H.
  apply try_except_inv in H as [H | (e & s1 & _ & _ & H)].
  - apply bind_inv in H as (r1 & s1 & _ & H).
    apply bind_inv in H as (u1 & s2 & _ & H).
    apply bind_inv in H as (open_count & s3 & _ & H).
    apply bind_inv in H as (r2 & s4 & _ & H).
    apply bind_inv in H as (u2 & s5 & _ & H).
    apply bind_inv in H as (closed_count & s6 & _ & H).
    apply ret_inv in H as [<- _]. reflexivity.
  - apply ret_inv in H as [<- _]. reflexivity.
Qed.

(** Every record that [get_repo_data] returns is the error record or is
    assembled from a core document that is a dict and from what the
    sub-fetches returned. *)
Lemma get_repo_data_record w rp s r s' :
  get_repo_data w rp s = (Return r, s') ->
  (exists msg, r = _get_error_data w rp msg)
  \/ (exists resp core c rc d i s1 s2 s3 s4,
        server w (List.length (requests s)) (mkRequest (base_url ++ "/repos/" ++ rp) [])
          = Responds resp
        /\ body resp = Json (PDict core)
        /\ _get_contributors_count w rp s1 = (Return c, s2)
        /\ _get_recent_commits_count w rp s2 = (Return rc, s3)
        /\ _get_pull_requests_data w rp s3 = (Return d, s4)
        /\ _get_issues_data w rp s4 = (Return i, s')
        /\ r = assembled w rp core c rc d i).
Proof.
  unfold get_repo_data. intros H.
  apply try_except_inv in H as [H | (e & s1 & _ & _ & H)].
  - right.
    apply bind_inv in H as (resp & s1 & Hget & H).
    apply bind_inv in H as (u1 & s1' & Hst & H).
    apply bind_inv in H as (repo_data & s1'' & Hjson & H).
    apply bind_inv in H as (c & s2 & Hc & H).
    apply bind_inv in H as (rc & s3 & Hrc & H).
    apply bind_inv in H as (d & s4 & Hd & H).
    apply bind_inv in H as (i & s5 & Hi & H).
    destruct repo_data as [| | | | | | core];
      try (apply bind_inv in H as (? & ? & Hbad & _); discriminate).
    repeat (apply bind_inv in H as (? & ? & Hf & H);
            apply ret_inv in Hf as [<- <-]).
    apply ret_inv in H as [<- <-].
    rewrite session_get_unfold in Hget. cbv zeta in Hget.
    destruct (server w _ _) as [t dd | resp0] eqn:Hsrv; [discriminate |].
    injection Hget as -> <-.
    unfold json in Hjson. destruct (body resp) as [cc | v] eqn:Hb;
      [discriminate |].
    apply ret_inv in Hjson as [-> <-].
    unfold raise_for_status in Hst.
    destruct (_ && _); [discriminate |]. apply ret_inv in Hst as [_ <-].
    exists resp, core, c, rc, d, i, (logged s (mkRequest (base_url ++ "/repos/" ++ rp) [])), s2, s3, s4.
    repeat split; auto.
  - left. apply bind_inv in H as (u & s2 & _ & H).
    apply ret_inv in H as [<- _]. now exists (exn_str e).
Qed.

(** The pull-request half of the invariant holds on every record. *)
Lemma pull_request_totals w rp s r s' :
  get_repo_data w rp s = (Return r, s') ->
  total_prs r = open_prs r + closed_prs r.
Proof.
  intros H.
  apply get_repo_data_record in H
    as [[msg ->] | (resp & core & c & rc & d & i & s1 & s2 & s3 & s4
                    & _ & _ & _ & _ & Hd & _ & ->)].
  - reflexivity.
  - cbn. now apply pull_requests_data_spec in Hd.
Qed.

(** The issue total of a record is the sum of the two counts of
    [_get_issues_data]; the record's [open_issues] is not one of them:
    it is the core document's [open_issues_count]. *)
Lemma issue_totals w rp s r s' :
  get_repo_data w rp s = (Return r, s') ->
  (exists msg, r = _get_error_data w rp msg)
  \/ exists core open_count,
       total_issues r = open_count + closed_issues r
       /\ open_issues r = field core "open_issues_count" (PInt 0).
Proof.
  intros H.
  apply get_repo_data_record in H
    as [[msg ->] | (resp & core & c & rc & d & i & s1 & s2 & s3 & s4
                    & _ & _ & _ & _ & _ & Hi & ->)].
  - left. now exists msg.
  - right. exists core, (is_open i). cbn.
    split; [now apply issues_data_spec in Hi | reflexivity].
Qed.

(** C1 (the code at the failing input).  For [octo/demo] with the core
    document [{stargazers_count: 42, forks_count: 3}], one open issue and
    no closed one, the record has [total_issues = 1] and
    [closed_issues = 0] but [open_issues = 0], the default for the
    missing [open_issues_count]: the total is not the sum of the other
    two fields.  The pull-request fields do add up. *)
Theorem get_repo_data_issue_totals :
  exists r s',
    get_repo_data (world_octo_demo core_octo) "octo/demo" initial
    = (Return r, s')
    /\ stars r = PInt 42 /\ forks r = PInt 3 /\ contributors r = 2
    /\ open_issues r = PInt 0 /\ closed_issues r = 0 /\ total_issues r = 1
    /\ total_prs r = open_prs r + closed_prs r
    /\ error r = None.
Proof.
  eexists. eexists. split; [reflexivity |]. repeat split.
Qed.

(** C10 (the code at the failing input).  For a core document whose
    [language] entry is null, the record's [language] is [None], not
    ["Unknown"]. *)
Theorem get_repo_data_null_language :
  exists r s',
    get_repo_data (world_octo_demo core_octo_null_language) "octo/demo"
      initial
    = (Return r, s')
    /\ language r = PNone /\ language r <> PStr "Unknown"
    /\ error r = None.
Proof.
  eexists. eexists. split; [reflexivity |].
  split; [reflexivity | split; [discriminate | reflexivity]].
Qed.

(** The default is used when the key is missing, and a language that is
    there is passed on. *)
Example get_repo_data_language_examples :
  (exists r s',
      get_repo_data (world_octo_demo core_octo) "octo/demo" initial
      = (Return r, s') /\ language r = PStr "Unknown")
  /\ (exists r s',
        get_repo_data (world_octo_demo core_octo_python) "octo/demo" initial
        = (Return r, s') /\ language r = PStr "Python").
Proof.
  split; eexists; eexists; (split; [reflexivity | reflexivity]).
Qed.

(** On a successful fetch the [language] field is the value under the
    [language] key of the core document, and ["Unknown"] when the
    document has no such key. *)
Lemma language_of_record w rp s r s' :
  get_repo_data w rp s = (Return r, s') -> error r = None ->
  exists core, language r = field core "language" (PStr "Unknown").
Proof.
  intros H He.
  apply get_repo_data_record in H
    as [[msg ->] | (resp & core & c & rc & d & i & s1 & s2 & s3 & s4
                    & _ & _ & _ & _ & _ & _ & ->)].
  - discriminate.
  - now exists core.
Qed.

(* ================================================================== *)
(** ** Failure of the core query *)
(* ================================================================== *)

Lemma app_nonempty_r (a b : string) : b <> EmptyString -> a ++ b <> EmptyString.
Proof.
  intros Hb H. destruct a; cbn in H; [contradiction | discriminate].
Qed.

Lemma http_error_msg_nonempty resp : http_error_msg resp <> EmptyString.
Proof.
  unfold http_error_msg. apply app_nonempty_r.
  destruct (status_code resp <? 500); discriminate.
Qed.

(** C7 (amended).  If the core query fails, by a network error (with a
    non-empty description) or by a status from 400 to 599,
    [get_repo_data] issues no request after the core one and returns,
    without raising, a record whose numeric fields are all 0, whose
    language is ["Unknown"] and whose error is a non-empty string. *)
Theorem get_repo_data_core_failure w rp s :
  core_failure (server w (List.length (requests s)) (core_request rp)) ->
  exists r s' msg,
    get_repo_data w rp s = (Return r, s')
    /\ requests s' = (requests s ++ [core_request rp])%list
    /\ numeric_fields_zero r
    /\ language r = PStr "Unknown"
    /\ error r = Some msg /\ msg <> EmptyString.
Proof.
  intros Hfail.
  assert (Hrec : forall msg, numeric_fields_zero (_get_error_data w rp msg))
    by (intros msg; repeat split).
  unfold get_repo_data, try_except. unfold bind at 1.
  rewrite session_get_unfold. cbv zeta. fold (core_request rp).
  inversion Hfail as [t d Hd Ho | resp Hst Ho].
  - eexists. eexists. exists d.
    split; [destruct t; reflexivity |]. repeat split; auto; apply Hrec.
  - unfold bind at 1, raise_for_status.
    replace ((400 <=? status_code resp) && (status_code resp <? 600))
      with true by (symmetry; apply andb_true_intro; split;
                    [apply Z.leb_le | apply Z.ltb_lt]; lia).
    eexists. eexists. exists (http_error_msg resp).
    split; [reflexivity |].
    repeat split; auto using http_error_msg_nonempty; apply Hrec.
Qed.

(** In [octo/missing] every request is answered 404. *)
Lemma get_repo_data_core_failure_witness :
  exists r s' msg,
    get_repo_data (world_octo_demo core_octo) "octo/missing" initial
    = (Return r, s')
    /\ requests s' = (requests initial ++ [core_request "octo/missing"])%list
    /\ numeric_fields_zero r
    /\ language r = PStr "Unknown"
    /\ error r = Some msg /\ msg <> EmptyString.
Proof.
  apply (get_repo_data_core_failure (world_octo_demo core_octo)
           "octo/missing" initial).
  apply (core_error_status
           (mkResponse 404 "Not Found"
              "https://api.github.com/repos/octo/missing" None
              (Json (PDict [("message", PStr "Not Found")])))).
  cbn. lia.
Defined.

Example get_repo_data_404 :
  get_repo_data (world_octo_demo core_octo) "octo/missing" initial
  = (Return (_get_error_data (world_octo_demo core_octo) "octo/missing"
       "404 Client Error: Not Found for url: https://api.github.com/repos/octo/missing"),
     mkState [core_request "octo/missing"]
       ["Error fetching data for octo/missing: 404 Client Error: Not Found for url: https://api.github.com/repos/octo/missing"]).
Proof. reflexivity. Qed.

(** C7, the claim as stated fails: 300 is not a 2xx status, yet the
    sub-fetches run and the record carries their results and no
    error. *)
Lemma get_repo_data_status_300_counterexample :
  exists resp r s',
    server world_octo_300 0 (core_request "octo/demo") = Responds resp
    /\ status_code resp = 300
    /\ get_repo_data world_octo_300 "octo/demo" initial = (Return r, s')
    /\ List.length (requests s') = 12%nat
    /\ contributors r = 2 /\ total_issues r = 1
    /\ error r = None.
Proof.
  eexists. eexists. eexists. split; [reflexivity |].
  split; [reflexivity |]. split; [reflexivity |]. repeat split.
Qed.

(* ================================================================== *)
(** ** The merged estimate *)
(* ================================================================== *)

Lemma to_int_floor_nonneg x : nonneg x -> Float.to_int x = Float.floor x.
Proof.
  destruct x as [s | s | | [|] m e]; cbn; try reflexivity; [contradiction |].
  intros _. destruct (0 <=? e) eqn:He; [reflexivity |].
  f_equal. apply Z.quot_div_nonneg; [easy |].
  apply Z.pow_pos_nonneg; [lia |]. apply Z.leb_gt in He. lia.
Qed.

Lemma binary_round_aux_nonneg mx ex lx :
  nonneg (binary_round_aux Float.prec Float.emax false mx ex lx).
Proof.
  unfold binary_round_aux.
  destruct (shr_fexp _ _ mx ex lx) as [mrs' e'].
  destruct (shr_fexp _ _ _ e' loc_Exact) as [mrs'' e''].
  destruct (shr_m mrs''); cbn; auto.
  destruct (e'' <=? _); exact I.
Qed.

(** On a count that is not negative, truncation and floor agree. *)
Lemma int_times_0_8_floor n :
  0 <= n -> Float.int_times_0_8 n = Float.floor_times_0_8 n.
Proof.
  intros Hn. unfold Float.int_times_0_8, Float.floor_times_0_8, Float.of_int.
  destruct n as [| p | p]; [reflexivity | | lia].
  unfold binary_normalize, binary_round.
  destruct (shl_align _ _ _) as [mz ez].
  pose proof (binary_round_aux_nonneg (Zpos mz) ez loc_Exact) as Hx.
  destruct (binary_round_aux _ _ false (Zpos mz) ez loc_Exact)
    as [sx | sx | | sx m e]; try reflexivity.
  apply to_int_floor_nonneg.
  destruct sx; [contradiction |].
  unfold Float.mul, Float.lit_0_8, SFmul. cbn [xorb].
  apply binary_round_aux_nonneg.
Qed.

(** One step of the right shift halves the mantissa. *)
Lemma shr_1_m mrs : 0 <= shr_m mrs -> shr_m (shr_1 mrs) = shr_m mrs / 2.
Proof.
  destruct mrs as [m r s]. cbn [shr_m]. intros Hm.
  destruct m as [|[p|p|]|p]; cbn [shr_1 shr_m]; try lia; try reflexivity.
  - rewrite (Pos2Z.inj_xI p). apply Z.div_unique with 1; lia.
  - rewrite (Pos2Z.inj_xO p). apply Z.div_unique with 0; lia.
Qed.

Lemma pow2_double k : 2 ^ (2 * Zpos k) = 2 ^ Zpos k * 2 ^ Zpos k.
Proof. rewrite <- Z.pow_add_r by lia. f_equal. lia. Qed.

(** [k] steps divide it by [2 ^ k]. *)
Lemma iter_pos_shr_m k :
  forall mrs, 0 <= shr_m mrs ->
    shr_m (iter_pos shr_1 k mrs) = shr_m mrs / 2 ^ Zpos k.
Proof.
  induction k as [k IH | k IH |]; intros mrs Hm; cbn [iter_pos].
  - assert (H1 : 0 <= shr_m (shr_1 mrs))
      by (rewrite shr_1_m by easy; apply Z.div_pos; lia).
    assert (H2 : 0 <= shr_m (iter_pos shr_1 k (shr_1 mrs)))
      by (rewrite IH by easy; apply Z.div_pos; [easy | lia]).
    rewrite IH, IH, shr_1_m by easy.
    rewrite !Z.div_div by lia. f_equal.
    rewrite (Pos2Z.inj_xI k), Z.pow_add_r, pow2_double by lia. lia.
  - assert (H2 : 0 <= shr_m (iter_pos shr_1 k mrs))
      by (rewrite IH by easy; apply Z.div_pos; [easy | lia]).
    rewrite IH, IH by easy.
    rewrite !Z.div_div by lia. f_equal.
    rewrite (Pos2Z.inj_xO k), pow2_double. reflexivity.
  - rewrite shr_1_m by easy. reflexivity.
Qed.

(** A positive number of [d] binary digits lies in [[2^(d-1), 2^d)]. *)
Lemma digits2_bounds p :
  2 ^ (Zpos (digits2_pos p) - 1) <= Zpos p < 2 ^ Zpos (digits2_pos p).
Proof.
  induction p as [p IH | p IH |]; cbn [digits2_pos].
  - rewrite Pos2Z.inj_succ, (Pos2Z.inj_xI p).
    replace (Z.succ (Zpos (digits2_pos p)) - 1)
      with (Z.succ (Zpos (digits2_pos p) - 1)) by lia.
    rewrite !Z.pow_succ_r by lia. lia.
  - rewrite Pos2Z.inj_succ, (Pos2Z.inj_xO p).
    replace (Z.succ (Zpos (digits2_pos p)) - 1)
      with (Z.succ (Zpos (digits2_pos p) - 1)) by lia.
    rewrite !Z.pow_succ_r by lia. lia.
  - cbn. lia.
Qed.

Lemma iter_xO p d : Zpos (Pos.iter xO p d) = Zpos p * 2 ^ Zpos d.
Proof.
  induction d as [|d IH] using Pos.peano_ind.
  - cbn. lia.
  - rewrite Pos.iter_succ, (Pos2Z.inj_xO (Pos.iter xO p d)), IH,
      Pos2Z.inj_succ, Z.pow_succ_r by lia.
    lia.
Qed.

Lemma round_nearest_even_bounds m l :
  m <= round_nearest_even m l <= m + 1.
Proof.
  destruct l as [|[| |]]; cbn; try lia. destruct (Z.even m); lia.
Qed.

(** ... and the digit count is determined by such bounds. *)
Lemma digits2_unique p d :
  2 ^ (d - 1) <= Zpos p < 2 ^ d -> 0 < d -> Zpos (digits2_pos p) = d.
Proof.
  intros [Hlo Hhi] Hd. pose proof (digits2_bounds p) as [Blo Bhi].
  set (D := Zpos (digits2_pos p)) in *.
  assert (HD : 0 < D) by (unfold D; lia).
  destruct (Z.lt_trichotomy D d) as [Hlt | [Heq | Hgt]]; [| exact Heq |].
  - assert (2 ^ D <= 2 ^ (d - 1)) by (apply Z.pow_le_mono_r; lia). lia.
  - assert (2 ^ d <= 2 ^ (D - 1)) by (apply Z.pow_le_mono_r; lia). lia.
Qed.

(** A mantissa of 53 digits with an exponent in range is kept as it
    is. *)
Lemma round_aux_exact (m : positive) e :
  Zpos (digits2_pos m) = 53 -> -1074 <= e <= 971 ->
  binary_round_aux 53 1024 false (Zpos m) e loc_Exact = S754_finite false m e.
Proof.
  intros Hd He. unfold binary_round_aux, shr_fexp, fexp, emin.
  cbn [Zdigits2 shr_record_of_loc]. rewrite Hd.
  replace (Z.max (53 + e - 53) (3 - 1024 - 53) - e) with 0 by lia.
  cbn [shr shr_m loc_of_shr_record round_nearest_even shr_record_of_loc Zdigits2].
  rewrite Hd.
  replace (Z.max (53 + e - 53) (3 - 1024 - 53) - e) with 0 by lia.
  cbn [shr shr_m].
  replace (e <=? 1024 - 53) with true by (symmetry; apply Z.leb_le; lia).
  reflexivity.
Qed.

(** The double of a positive integer of fewer than 53 digits: the
    integer itself with its mantissa shifted up to 53 digits. *)
Lemma of_int_pos p :
  Zpos (digits2_pos p) < 53 ->
  Float.of_int (Zpos p)
  = Some (S754_finite false
            (Pos.iter xO p (Z.to_pos (53 - Zpos (digits2_pos p))))
            (Zpos (digits2_pos p) - 53)).
Proof.
  intros Hd. unfold Float.of_int, binary_normalize, binary_round, shl_align,
    fexp, emin, Float.prec, Float.emax.
  set (d := Zpos (digits2_pos p)) in *.
  assert (Hd0 : 0 < d) by (unfold d; lia).
  replace (Z.max (d + 0 - 53) (3 - 1024 - 53)) with (d - 53) by lia.
  replace (d - 53 - 0) with (d - 53) by lia.
  destruct (d - 53) as [|q|q] eqn:Hq; try lia.
  replace (Z.to_pos (53 - d)) with q by lia.
  rewrite round_aux_exact; [reflexivity | | lia].
  apply digits2_unique; [| lia].
  rewrite iter_xO. pose proof (digits2_bounds p) as [Blo Bhi]. fold d in Blo, Bhi.
  assert (E1 : 2 ^ (53 - 1) = 2 ^ (d - 1) * 2 ^ Zpos q)
    by (rewrite <- Z.pow_add_r by lia; f_equal; lia).
  assert (E2 : 2 ^ 53 = 2 ^ d * 2 ^ Zpos q)
    by (rewrite <- Z.pow_add_r by lia; f_equal; lia).
  assert (0 < 2 ^ Zpos q) by (apply Z.pow_pos_nonneg; lia).
  rewrite E1, E2. split.
  - apply Z.mul_le_mono_nonneg_r; lia.
  - apply Z.mul_lt_mono_pos_r; lia.
Qed.

(** Rounding a mantissa [M] of more than 53 digits: [int] of the result
    is the integer part of [m1 * 2^e1], where [e1] is the exponent after
    the shift down to 53 digits and [m1] is the shifted mantissa or that
    plus one. *)
Lemma round_aux_trunc (M : positive) e :
  53 < Zpos (digits2_pos M) ->
  -1074 <= e + (Zpos (digits2_pos M) - 53) <= -2 ->
  exists m1,
    Zpos M / 2 ^ (Zpos (digits2_pos M) - 53) <= m1
      <= Zpos M / 2 ^ (Zpos (digits2_pos M) - 53) + 1
    /\ Float.to_int (binary_round_aux 53 1024 false (Zpos M) e loc_Exact)
       = Some (m1 / 2 ^ (- (e + (Zpos (digits2_pos M) - 53)))).
Proof.
  intros HD He.
  pose proof (digits2_bounds M) as [Blo Bhi].
  set (D := Zpos (digits2_pos M)) in *.
  unfold binary_round_aux, shr_fexp, fexp, emin.
  cbn [Zdigits2 shr_record_of_loc]. fold D.
  replace (Z.max (D + e - 53) (3 - 1024 - 53) - e) with (D - 53) by lia.
  destruct (D - 53) as [|kp|kp] eqn:Hk; try lia. cbn [shr].
  set (mrs' := iter_pos shr_1 kp _).
  assert (Hm' : shr_m mrs' = Zpos M / 2 ^ Zpos kp)
    by (unfold mrs'; rewrite iter_pos_shr_m; cbn [shr_m]; [reflexivity | lia]).
  pose proof (round_nearest_even_bounds (shr_m mrs') (loc_of_shr_record mrs'))
    as Hrne.
  set (m1 := round_nearest_even (shr_m mrs') (loc_of_shr_record mrs')) in *.
  rewrite Hm' in Hrne.
  assert (Hpk : 0 < 2 ^ Zpos kp) by (apply Z.pow_pos_nonneg; lia).
  assert (HM : 2 ^ 52 <= Zpos M / 2 ^ Zpos kp < 2 ^ 53).
  { split.
    - apply Z.div_le_lower_bound; [lia |].
      rewrite <- Z.pow_add_r by lia.
      now replace (Zpos kp + 52) with (D - 1) by lia.
    - apply Z.div_lt_upper_bound; [lia |].
      rewrite <- Z.pow_add_r by lia.
      now replace (Zpos kp + 53) with D by lia. }
  exists m1. split; [exact Hrne |].
  set (e1 := e + Zpos kp) in *.
  assert (Hm1 : 2 ^ 52 <= m1 <= 2 ^ 53) by lia.
  destruct m1 as [|p1|p1] eqn:Em1; try lia.
  cbn [Zdigits2 shr_record_of_loc].
  destruct (Z.eq_dec (Zpos p1) (2 ^ 53)) as [Hcarry | Hnc].
  - assert (Hd1 : Zpos (digits2_pos p1) = 54)
      by (apply digits2_unique; [rewrite Hcarry; lia | lia]).
    rewrite Hd1.
    replace (Z.max (54 + e1 - 53) (3 - 1024 - 53) - e1) with 1 by lia.
    cbn [shr iter_pos shr_1].
    destruct p1 as [p' | p' |]; try (rewrite ?(Pos2Z.inj_xI p') in Hcarry; lia).
    cbn [shr_m].
    replace (e1 + 1 <=? 1024 - 53) with true by (symmetry; apply Z.leb_le; lia).
    cbn [Float.to_int Float.signed].
    replace (0 <=? e1 + 1) with false by (symmetry; apply Z.leb_gt; lia).
    f_equal. rewrite Z.quot_div_nonneg by (try apply Z.pow_pos_nonneg; lia).
    rewrite (Pos2Z.inj_xO p').
    replace (- e1) with (1 + - (e1 + 1)) by lia.
    rewrite Z.pow_add_r by lia. rewrite Z.pow_1_r.
    rewrite Z.div_mul_cancel_l; [reflexivity | | lia].
    apply Z.pow_nonzero; lia.
  - assert (Hd1 : Zpos (digits2_pos p1) = 53)
      by (apply digits2_unique; lia).
    rewrite Hd1.
    replace (Z.max (53 + e1 - 53) (3 - 1024 - 53) - e1) with 0 by lia.
    cbn [shr shr_m].
    replace (e1 <=? 1024 - 53) with true by (symmetry; apply Z.leb_le; lia).
    cbn [Float.to_int Float.signed].
    replace (0 <=? e1) with false by (symmetry; apply Z.leb_gt; lia).
    f_equal. apply Z.quot_div_nonneg; [lia |].
    apply Z.pow_pos_nonneg; lia.
Qed.

Lemma pow2_pos x : 0 <= x -> 0 < 2 ^ x.
Proof. intros. apply Z.pow_pos_nonneg; lia. Qed.

(** For a count below [2^50] the truncated double product is exactly
    the integer part of four fifths of the count: the error of the
    literal [0.8] and of the rounding never reaches the next integer. *)
Lemma int_times_0_8_exact n :
  0 <= n < 2 ^ 50 -> Float.int_times_0_8 n = Some (4 * n / 5).
Proof.
  intros [Hn0 Hn]. destruct n as [|p|p]; [reflexivity | | lia].
  pose proof (digits2_bounds p) as [Blo Bhi].
  set (d := Zpos (digits2_pos p)) in *.
  assert (Hd0 : 0 < d) by (unfold d; lia).
  assert (Hd : d <= 50).
  { destruct (Z.le_gt_cases d 50) as [H | H]; [exact H |].
    assert (2 ^ 50 <= 2 ^ (d - 1)) by (apply Z.pow_le_mono_r; lia). lia. }
  unfold Float.int_times_0_8. rewrite of_int_pos by (fold d; lia). fold d.
  unfold Float.mul, Float.lit_0_8, SFmul, Float.prec, Float.emax.
  cbn [xorb].
  set (mz := Pos.iter xO p (Z.to_pos (53 - d))).
  set (A := 2 ^ (53 - d)).
  assert (HA : 0 < A) by (apply pow2_pos; lia).
  assert (Hmz : Zpos mz = Zpos p * A).
  { unfold mz, A. rewrite iter_xO. do 2 f_equal. lia. }
  assert (Hmzb : 2 ^ 52 <= Zpos mz < 2 ^ 53).
  { assert (E1 : 2 ^ 52 = 2 ^ (d - 1) * A)
      by (unfold A; rewrite <- Z.pow_add_r by lia; f_equal; lia).
    assert (E2 : 2 ^ 53 = 2 ^ d * A)
      by (unfold A; rewrite <- Z.pow_add_r by lia; f_equal; lia).
    rewrite Hmz, E1, E2. split.
    - apply Z.mul_le_mono_nonneg_r; lia.
    - apply Z.mul_lt_mono_pos_r; lia. }
  set (M := (mz * 7205759403792794)%positive).
  assert (HM : Zpos M = Zpos p * A * 7205759403792794)
    by (unfold M; rewrite Pos2Z.inj_mul, Hmz; reflexivity).
  pose proof (digits2_bounds M) as [Mlo Mhi].
  set (D := Zpos (digits2_pos M)) in *.
  assert (HMb : 2 ^ 104 <= Zpos M < 2 ^ 106).
  { unfold M. rewrite Pos2Z.inj_mul.
    change (2 ^ 52) with 4503599627370496 in Hmzb.
    change (2 ^ 53) with 9007199254740992 in Hmzb.
    change (2 ^ 104) with (4503599627370496 * 4503599627370496).
    change (2 ^ 106) with (9007199254740992 * 9007199254740992).
    nia. }
  assert (HD : 105 <= D <= 106).
  { assert (HD0 : 0 < D) by (unfold D; lia). split.
    - destruct (Z.le_gt_cases 105 D) as [H | H]; [exact H |].
      assert (2 ^ D <= 2 ^ 104) by (apply Z.pow_le_mono_r; lia). lia.
    - destruct (Z.le_gt_cases D 106) as [H | H]; [exact H |].
      assert (2 ^ 106 <= 2 ^ (D - 1)) by (apply Z.pow_le_mono_r; lia). lia. }
  destruct (round_aux_trunc M (d - 53 + -53)) as [m1 [Hm1 ->]];
    fold D; [lia | lia |].
  f_equal.
  set (K := 2 ^ (D - 53)) in *.
  set (t := - (d - 53 + -53 + (D - 53))).
  set (T := 2 ^ t).
  assert (Ht : 3 <= t) by (unfold t; lia).
  assert (HK : 0 < K) by (apply pow2_pos; lia).
  assert (HT : 8 <= T).
  { change 8 with (2 ^ 3). apply Z.pow_le_mono_r; lia. }
  assert (HKT : K * T = 9007199254740992 * A).
  { unfold K, T, A. change 9007199254740992 with (2 ^ 53).
    rewrite <- !Z.pow_add_r by lia. f_equal. unfold t. lia. }
  set (n := Zpos p) in *.
  pose proof (Z.div_mod (4 * n) 5 ltac:(lia)) as Hqr.
  pose proof (Z.mod_pos_bound (4 * n) 5 ltac:(lia)) as Hr.
  set (q := 4 * n / 5) in *. set (r := (4 * n) mod 5) in *.
  change (2 ^ 50) with 1125899906842624 in Hn.
  assert (F1 : 9007199254740992 * q <= n * 7205759403792794) by lia.
  assert (F2 : n * 7205759403792794 + 1125899906842624
               < (q + 1) * 9007199254740992) by lia.
  assert (Hlo : q * T <= Zpos M / K).
  { apply Z.div_le_lower_bound; [lia |]. rewrite HM.
    replace (K * (q * T)) with (K * T * q) by lia. rewrite HKT. nia. }
  assert (Hhi : Zpos M / K < (q + 1) * T - 1).
  { apply Z.div_lt_upper_bound; [lia |]. rewrite HM.
    replace (K * ((q + 1) * T - 1)) with (K * T * (q + 1) - K) by lia.
    rewrite HKT.
    assert (K * 8 <= K * T) by (apply Z.mul_le_mono_nonneg_l; lia).
    nia. }
  change (Zpos M / K <= m1 <= Zpos M / K + 1) in Hm1.
  symmetry. apply Z.div_unique with (m1 - q * T); lia.
Qed.

(** C8 (amended).  On every record that [get_repo_data] returns,
    [merged_prs] is [int(closed_prs * 0.8)], the double-precision
    product truncated toward zero.  When [closed_prs] is not negative
    this is [floor(closed_prs * 0.8)], the floor of that product; and
    when moreover [closed_prs < 2^50] it is exactly the integer part of
    80% of [closed_prs]. *)
Theorem merged_prs_is_truncated_product w rp s r s' :
  get_repo_data w rp s = (Return r, s') ->
  Float.int_times_0_8 (closed_prs r) = Some (merged_prs r)
  /\ (0 <= closed_prs r ->
      Float.floor_times_0_8 (closed_prs r) = Some (merged_prs r))
  /\ (0 <= closed_prs r < 2 ^ 50 ->
      merged_prs r = 4 * closed_prs r / 5).
Proof.
  intros H.
  assert (Hint : Float.int_times_0_8 (closed_prs r) = Some (merged_prs r)).
  { apply get_repo_data_record in H
      as [[msg ->] | (resp & core & c & rc & d & i & s1 & s2 & s3 & s4
                      & _ & _ & _ & _ & Hd & _ & ->)].
    - reflexivity.
    - cbn. now apply pull_requests_data_spec in Hd. }
  split; [exact Hint | split].
  - intros Hpos. now rewrite <- int_times_0_8_floor.
  - intros Hrange. apply int_times_0_8_exact in Hrange. congruence.
Qed.

Lemma merged_prs_is_truncated_product_witness :
  exists r s',
    get_repo_data (world_octo_pulls link_pulls_page5 url_pulls_page5)
      "octo/demo" initial = (Return r, s')
    /\ closed_prs r = 127 /\ merged_prs r = 101
    /\ Float.int_times_0_8 (closed_prs r) = Some (merged_prs r)
    /\ (0 <= closed_prs r ->
        Float.floor_times_0_8 (closed_prs r) = Some (merged_prs r))
    /\ (0 <= closed_prs r < 2 ^ 50 ->
        merged_prs r = 4 * closed_prs r / 5).
Proof.
  eexists. eexists. split; [reflexivity |].
  split; [reflexivity |]. split; [reflexivity |].
  exact (merged_prs_is_truncated_product
           (world_octo_pulls link_pulls_page5 url_pulls_page5)
           "octo/demo" initial _ _ eq_refl).
Defined.

(** C8, the claim as stated fails: with page 0 named as the last page
    the closed count is (0 - 1) * 30 + 7 = -23, and the record carries
    [int(-18.4) = -18] as [merged_prs], where the floor is -19. *)
Lemma merged_prs_negative_counterexample :
  exists r s',
    get_repo_data (world_octo_pulls link_pulls_page0 url_pulls_page0)
      "octo/demo" initial = (Return r, s')
    /\ error r = None
    /\ closed_prs r = -23 /\ merged_prs r = -18
    /\ Float.floor_times_0_8 (closed_prs r) = Some (-19).
Proof.
  eexists. eexists. split; [reflexivity |]. repeat split.
Qed.

(* ================================================================== *)
(** ** What the sub-fetches and the fetcher can return *)
(* ================================================================== *)

(** A computation wrapped in [try: ... except Exception: return d]
    returns a value as soon as it needs no fuel. *)
Lemma returns_caught {A} (m : M A) (d : A) :
  fuel_free (try_except m is_Exception (fun _ => ret d)) ->
  returns (try_except m is_Exception (fun _ => ret d)).
Proof.
  intros H s. specialize (H s). unfold try_except in *.
  destruct (m s) as [[a | e |] s1]; cbn in *.
  - now exists a, s1.
  - now exists d, s1.
  - congruence.
Qed.

Lemma contributors_count_returns w rp : returns (_get_contributors_count w rp).
Proof. apply returns_caught. exact (fuel_free_contributors_count w rp). Qed.

Lemma recent_commits_count_returns w rp :
  returns (_get_recent_commits_count w rp).
Proof. apply returns_caught. exact (fuel_free_recent_commits_count w rp). Qed.

Lemma pull_requests_data_returns w rp : returns (_get_pull_requests_data w rp).
Proof. apply returns_caught. exact (fuel_free_pull_requests_data w rp). Qed.

Lemma issues_data_returns w rp : returns (_get_issues_data w rp).
Proof. apply returns_caught. exact (fuel_free_issues_data w rp). Qed.

(** X1.  Each of the four sub-fetches returns a value whatever the server
    does and whatever the state of the session: no exception leaves
    them, not even one that escapes [_count_from_pagination], and the
    loop of the commit count always ends. *)
Theorem sub_fetches_always_return w rp :
  returns (_get_contributors_count w rp)
  /\ returns (_get_recent_commits_count w rp)
  /\ returns (_get_pull_requests_data w rp)
  /\ returns (_get_issues_data w rp).
Proof.
  split; [apply contributors_count_returns |].
  split; [apply recent_commits_count_returns |].
  split; [apply pull_requests_data_returns | apply issues_data_returns].
Qed.

(** [get_repo_data] by cases on the answer to the core query. *)
Lemma get_repo_data_unfold w rp s :
  let s1 := logged s (core_request rp) in
  let failing msg :=
    (Return (_get_error_data w rp msg),
     mkState (requests s1)
       (stdout s1 ++ [failure_notice rp msg])%list) in
  match server w (List.length (requests s)) (core_request rp) with
  | Fails t d => get_repo_data w rp s = failing d
  | Responds resp =>
      if error_status resp
      then get_repo_data w rp s = failing (http_error_msg resp)
      else
        match body resp with
        | Undecodable c => get_repo_data w rp s = failing c
        | Json v =>
            exists c rc d i s2 s3 s4 s5,
              _get_contributors_count w rp s1 = (Return c, s2)
              /\ _get_recent_commits_count w rp s2 = (Return rc, s3)
              /\ _get_pull_requests_data w rp s3 = (Return d, s4)
              /\ _get_issues_data w rp s4 = (Return i, s5)
              /\ get_repo_data w rp s =
                 match v with
                 | PDict core => (Return (assembled w rp core c rc d i), s5)
                 | _ => (Raise attribute_error, s5)
                 end
        end
  end.
Proof.
  cbv zeta.
  assert (Hget : session_get w (base_url ++ "/repos/" ++ rp) [] s =
                 match server w (List.length (requests s)) (core_request rp)
                 with
                 | Fails t d => (Raise (mkExn (class_of_transport t) d),
                                 logged s (core_request rp))
                 | Responds r => (Return r, logged s (core_request rp))
                 end) by reflexivity.
  destruct (server w _ _) as [t d | resp].
  { unfold get_repo_data, try_except. unfold bind at 1. rewrite Hget.
    destruct t; reflexivity. }
  destruct (error_status resp) eqn:Hst.
  { unfold get_repo_data, try_except. unfold bind at 1. rewrite Hget.
    unfold bind at 1, raise_for_status. fold (error_status resp).
    rewrite Hst. reflexivity. }
  destruct (body resp) as [c | v] eqn:Hb.
  { unfold get_repo_data, try_except. unfold bind at 1. rewrite Hget.
    unfold bind at 1, raise_for_status. fold (error_status resp).
    rewrite Hst. unfold ret at 1. unfold bind at 1, json. rewrite Hb.
    reflexivity. }
  destruct (contributors_count_returns w rp (logged s (core_request rp)))
    as (c & s2 & Hc).
  destruct (recent_commits_count_returns w rp s2) as (rc & s3 & Hrc).
  destruct (pull_requests_data_returns w rp s3) as (d & s4 & Hd).
  destruct (issues_data_returns w rp s4) as (i & s5 & Hi).
  exists c, rc, d, i, s2, s3, s4, s5.
  split; [exact Hc |]. split; [exact Hrc |]. split; [exact Hd |].
  split; [exact Hi |].
  unfold get_repo_data, try_except. unfold bind at 1. rewrite Hget.
  unfold bind at 1, raise_for_status. fold (error_status resp).
  rewrite Hst. unfold ret at 1. unfold bind at 1, json. rewrite Hb.
  unfold ret at 1.
  unfold bind at 1. rewrite Hc. unfold bind at 1. rewrite Hrc.
  unfold bind at 1. rewrite Hd. unfold bind at 1. rewrite Hi.
  destruct v; reflexivity.
Qed.

(** X2.  The one exception that can leave [get_repo_data]: the call
    returns a record, or it raises an [AttributeError], and it raises
    only when the core query was answered, with a status that
    [raise_for_status] lets pass, by a JSON document that is not an
    object (a list, a string, a number, [null]). *)
Theorem get_repo_data_returns_or_attribute_error w rp s :
  (exists r s', get_repo_data w rp s = (Return r, s'))
  \/ (exists e s' resp v,
        get_repo_data w rp s = (Raise e, s')
        /\ exn_cls e = AttributeError
        /\ server w (List.length (requests s)) (core_request rp)
           = Responds resp
        /\ error_status resp = false
        /\ body resp = Json v
        /\ forall core, v <> PDict core).
Proof.
  pose proof (get_repo_data_unfold w rp s) as H. cbv zeta in H.
  destruct (server w _ _) as [t d | resp] eqn:Hsrv.
  { left. eauto. }
  destruct (error_status resp) eqn:Hst; [left; eauto |].
  destruct (body resp) as [c | v] eqn:Hb; [left; eauto |].
  destruct H as (c & rc & d & i & s2 & s3 & s4 & s5 & _ & _ & _ & _ & H).
  destruct v as [| b | n | f | str | l | core];
    try (right; exists attribute_error, s5, resp; eexists;
         split; [exact H |]; split; [reflexivity |];
         split; [reflexivity |]; split; [exact Hst |];
         split; [exact Hb |]; intros core; discriminate).
  left. eauto.
Qed.

(** X3.  A returned record that carries an error text is the all-zero
    record of [_get_error_data] for that text; the call has issued the
    core query and nothing else, and has printed one line, the notice
    with the same text. *)
Theorem get_repo_data_error_record w rp s r s' msg :
  get_repo_data w rp s = (Return r, s') ->
  error r = Some msg ->
  r = _get_error_data w rp msg
  /\ requests s' = (requests s ++ [core_request rp])%list
  /\ stdout s' =
     (stdout s ++ [failure_notice rp msg])%list.
Proof.
  intros Hrun Herr.
  pose proof (get_repo_data_unfold w rp s) as H. cbv zeta in H.
  assert (Hfail : forall m,
    get_repo_data w rp s =
      (Return (_get_error_data w rp m),
       mkState (requests (logged s (core_request rp)))
         (stdout (logged s (core_request rp))
          ++ [failure_notice rp m])%list) ->
    r = _get_error_data w rp msg
    /\ requests s' = (requests s ++ [core_request rp])%list
    /\ stdout s' =
       (stdout s ++ [failure_notice rp msg])%list).
  { intros m Hm. rewrite Hm in Hrun. injection Hrun as <- <-.
    injection Herr as ->. repeat split. }
  destruct (server w _ _) as [t d | resp]; [now apply (Hfail d) |].
  destruct (error_status resp); [now apply (Hfail (http_error_msg resp)) |].
  destruct (body resp) as [c | v]; [now apply (Hfail c) |].
  destruct H as (c & rc & d & i & s2 & s3 & s4 & s5 & _ & _ & _ & _ & H).
  rewrite H in Hrun.
  destruct v; try discriminate.
  injection Hrun as <- <-. discriminate.
Qed.

(** X4.  A returned record without an error text was assembled from a
    core document that is a JSON object: [repo] is the argument,
    [last_fetched] the clock, and [stars], [forks], [watchers],
    [open_issues], [size_kb], [created_at] and [updated_at] are the
    values under the document's keys, whatever they are, with 0 (the
    empty string for the two dates) for a key that is missing. *)
Theorem get_repo_data_core_fields w rp s r s' :
  get_repo_data w rp s = (Return r, s') ->
  error r = None ->
  exists resp core,
    server w (List.length (requests s)) (core_request rp) = Responds resp
    /\ error_status resp = false
    /\ body resp = Json (PDict core)
    /\ repo r = rp /\ last_fetched r = now_iso w
    /\ stars r = field core "stargazers_count" (PInt 0)
    /\ forks r = field core "forks_count" (PInt 0)
    /\ watchers r = field core "watchers_count" (PInt 0)
    /\ open_issues r = field core "open_issues_count" (PInt 0)
    /\ size_kb r = field core "size" (PInt 0)
    /\ created_at r = field core "created_at" (PStr EmptyString)
    /\ updated_at r = field core "updated_at" (PStr EmptyString).
Proof.
  intros Hrun Herr.
  pose proof (get_repo_data_unfold w rp s) as H. cbv zeta in H.
  destruct (server w _ _) as [t d | resp].
  { rewrite H in Hrun. injection Hrun as <- _. discriminate. }
  destruct (error_status resp) eqn:Hst.
  { rewrite H in Hrun. injection Hrun as <- _. discriminate. }
  destruct (body resp) as [c | v] eqn:Hb.
  { rewrite H in Hrun. injection Hrun as <- _. discriminate. }
  destruct H as (c & rc & d & i & s2 & s3 & s4 & s5 & _ & _ & _ & _ & H).
  rewrite H in Hrun. destruct v as [| | | | | | core]; try discriminate.
  injection Hrun as <- _. exists resp, core.
  split; [reflexivity |]. split; [exact Hst |]. split; [exact Hb |].
  repeat split.
Qed.

(** Every request of [octo/missing] is answered 404. *)
Lemma get_repo_data_error_record_witness :
  exists r s' msg,
    get_repo_data (world_octo_demo core_octo) "octo/missing" initial
    = (Return r, s')
    /\ error r = Some msg
    /\ r = _get_error_data (world_octo_demo core_octo) "octo/missing" msg
    /\ requests s' = (requests initial ++ [core_request "octo/missing"])%list
    /\ stdout s' = (stdout initial ++ [failure_notice "octo/missing" msg])%list.
Proof.
  eexists. eexists. eexists. split; [reflexivity |].
  split; [reflexivity |].
  exact (get_repo_data_error_record (world_octo_demo core_octo)
           "octo/missing" initial _ _ _ eq_refl eq_refl).
Defined.

Lemma get_repo_data_core_fields_witness :
  exists r s' resp core,
    get_repo_data (world_octo_demo core_octo) "octo/demo" initial
    = (Return r, s')
    /\ error r = None
    /\ server (world_octo_demo core_octo) (List.length (requests initial))
         (core_request "octo/demo") = Responds resp
    /\ error_status resp = false
    /\ body resp = Json (PDict core)
    /\ repo r = "octo/demo" /\ last_fetched r = now_example
    /\ stars r = field core "stargazers_count" (PInt 0)
    /\ forks r = field core "forks_count" (PInt 0)
    /\ watchers r = field core "watchers_count" (PInt 0)
    /\ open_issues r = field core "open_issues_count" (PInt 0)
    /\ size_kb r = field core "size" (PInt 0)
    /\ created_at r = field core "created_at" (PStr EmptyString)
    /\ updated_at r = field core "updated_at" (PStr EmptyString).
Proof.
  eexists. eexists.
  destruct (get_repo_data_core_fields (world_octo_demo core_octo)
              "octo/demo" initial _ _ eq_refl eq_refl)
    as (resp & core & H).
  exists resp, core. split; [reflexivity |]. split; [reflexivity |]. exact H.
Defined.

(* ================================================================== *)
(** ** Failures of the sub-fetches stay local *)
(* ================================================================== *)

Lemma length_logged s rq :
  List.length (requests (logged s rq)) = S (List.length (requests s)).
Proof. cbn. rewrite length_app. cbn. lia. Qed.

(** A refused contributors query gives 0 after that one request. *)
Lemma contributors_count_refused w rp s :
  refused (server w (List.length (requests s)) (contributors_request rp)) ->
  _get_contributors_count w rp s
  = (Return 0, logged s (contributors_request rp)).
Proof.
  intros H. unfold _get_contributors_count, try_except. unfold bind at 1.
  rewrite session_get_unfold. cbv zeta. fold (contributors_request rp).
  inversion H as [t d Ho | resp Hst Ho].
  - reflexivity.
  - unfold bind at 1, raise_for_status. fold (error_status resp).
    rewrite Hst. reflexivity.
Qed.

(** X5.  Partial degradation: when the core query succeeds with a JSON
    object and the contributors query that follows is refused (transport
    error or status 400 to 599), [get_repo_data] still returns a record
    without error; its [contributors] is 0 and every other field is what
    the core document and the three remaining sub-fetches, run after
    that one request, give. *)
Theorem get_repo_data_contributors_refused w rp s resp core :
  server w (List.length (requests s)) (core_request rp) = Responds resp ->
  error_status resp = false ->
  body resp = Json (PDict core) ->
  refused (server w (S (List.length (requests s))) (contributors_request rp)) ->
  exists rc d i s3 s4 s5,
    _get_recent_commits_count w rp
      (logged (logged s (core_request rp)) (contributors_request rp))
    = (Return rc, s3)
    /\ _get_pull_requests_data w rp s3 = (Return d, s4)
    /\ _get_issues_data w rp s4 = (Return i, s5)
    /\ get_repo_data w rp s = (Return (assembled w rp core 0 rc d i), s5).
Proof.
  intros Hsrv Hst Hb Href.
  pose proof (get_repo_data_unfold w rp s) as H. cbv zeta in H.
  rewrite Hsrv, Hst, Hb in H.
  destruct H as (c & rc & d & i & s2 & s3 & s4 & s5
                 & Hc & Hrc & Hd & Hi & H).
  rewrite contributors_count_refused in Hc
    by (rewrite length_logged; exact Href).
  injection Hc as <- <-.
  exists rc, d, i, s3, s4, s5. auto.
Qed.

Lemma get_repo_data_contributors_refused_witness :
  exists rc d i s3 s4 s5,
    _get_recent_commits_count world_octo_no_contributors "octo/demo"
      (logged (logged initial (core_request "octo/demo"))
         (contributors_request "octo/demo"))
    = (Return rc, s3)
    /\ _get_pull_requests_data world_octo_no_contributors "octo/demo" s3
       = (Return d, s4)
    /\ _get_issues_data world_octo_no_contributors "octo/demo" s4
       = (Return i, s5)
    /\ get_repo_data world_octo_no_contributors "octo/demo" initial
       = (Return (assembled world_octo_no_contributors "octo/demo"
                    core_octo 0 rc d i), s5).
Proof.
  exact (get_repo_data_contributors_refused world_octo_no_contributors
           "octo/demo" initial
           (mkResponse 200 "OK" "https://api.github.com/repos/octo/demo"
              None (Json (PDict core_octo)))
           core_octo eq_refl eq_refl eq_refl
           (refused_status
              (mkResponse 500 "Internal Server Error"
                 "https://api.github.com/repos/octo/demo/contributors" None
                 (Json (PDict [("message", PStr "Server Error")])))
              eq_refl)).
Defined.

(* ================================================================== *)
(** ** The number of requests *)
(* ================================================================== *)

Lemma rw_weaken {A} (m : M A) k k' :
  requests_within m k -> (k <= k')%nat -> requests_within m k'.
Proof.
  intros H Hk s. destruct (H s) as (l & E & L). exists l. split; [exact E | lia].
Qed.

Lemma rw_quiet {A} (m : M A) k :
  (forall s, requests (snd (m s)) = requests s) -> requests_within m k.
Proof.
  intros H s. exists []. rewrite H, app_nil_r. split; [reflexivity | cbn; lia].
Qed.

Lemma rw_ret {A} (a : A) k : requests_within (ret a) k.
Proof. now apply rw_quiet. Qed.

Lemma rw_raise {A} e k : requests_within (@raise A e) k.
Proof. now apply rw_quiet. Qed.

Lemma rw_or_raise {A} (o : option A) e k : requests_within (or_raise o e) k.
Proof. apply rw_quiet. now destruct o. Qed.

Lemma rw_json r k : requests_within (json r) k.
Proof. apply rw_quiet. unfold json. now destruct (body r). Qed.

Lemma rw_raise_for_status r k : requests_within (raise_for_status r) k.
Proof. apply rw_quiet. unfold raise_for_status. now destruct (_ && _). Qed.

Lemma rw_dict_get d key default k : requests_within (dict_get d key default) k.
Proof. apply rw_quiet. now destruct d. Qed.

Lemma rw_print line k : requests_within (print line) k.
Proof. now apply rw_quiet. Qed.

Lemma rw_session_get w u params k :
  requests_within (session_get w u params) (S k).
Proof.
  intros s. exists [mkRequest u params]. rewrite session_get_unfold.
  cbv zeta. split; [| cbn; lia].
  now destruct (server w _ _).
Qed.

Lemma rw_bind {A B} (m : M A) (f : A -> M B) k1 k2 :
  requests_within m k1 -> (forall a, requests_within (f a) k2) ->
  requests_within (bind m f) (k1 + k2).
Proof.
  intros Hm Hf s. destruct (Hm s) as (l1 & E1 & L1). unfold bind.
  destruct (m s) as [[a | e |] s1]; cbn [snd] in *.
  - destruct (Hf a s1) as (l2 & E2 & L2). exists (l1 ++ l2)%list.
    rewrite E2, E1, app_assoc, length_app. split; [reflexivity | lia].
  - exists l1. split; [exact E1 | lia].
  - exists l1. split; [exact E1 | lia].
Qed.

Lemma rw_try {A} (m : M A) catches handler k :
  requests_within m k -> (forall e, requests_within (handler e) 0) ->
  requests_within (try_except m catches handler) k.
Proof.
  intros Hm Hh s. destruct (Hm s) as (l1 & E1 & L1). unfold try_except.
  destruct (m s) as [[a | e |] s1]; cbn [snd] in *;
    [now exists l1 | | now exists l1].
  destruct (catches e); [| now exists l1].
  destruct (Hh e s1) as (l2 & E2 & L2). exists l1.
  destruct l2; [| cbn in L2; lia].
  rewrite app_nil_r in E2. rewrite E2. auto.
Qed.

(** Bounds a computation part by part: a bind whose first part issues no
    request, a bind on [session.get], a [try], a branch; [known] settles
    the calls of functions already bounded. *)
Ltac rw_leaf :=
  first [ apply rw_ret | apply rw_raise | apply rw_or_raise | apply rw_json
        | apply rw_raise_for_status | apply rw_dict_get | apply rw_print
        | apply rw_session_get ].

Ltac rw_with known :=
  repeat first
    [ known
    | rw_leaf
    | apply (rw_bind _ _ 0); [solve [rw_with known] | intro]
    | apply (rw_bind _ _ 1); [apply rw_session_get | intro]
    | apply rw_try; [| intro]
    | match goal with
      | |- requests_within (match ?x with _ => _ end) _ => destruct x
      end ].

Lemma rw_last_url_of h k : requests_within (last_url_of h) k.
Proof. unfold last_url_of. rw_with fail. Qed.

Lemma rw_page_of u k : requests_within (page_of u) k.
Proof. unfold page_of, py_int. rw_with fail. Qed.

Lemma rw_per_page_of u k : requests_within (per_page_of u) k.
Proof. unfold per_page_of, py_int. rw_with fail. Qed.

Ltac rw_parse :=
  first [ apply rw_last_url_of | apply rw_page_of | apply rw_per_page_of ].

Lemma rw_count_from_last_page w response :
  requests_within (count_from_last_page w response) 1.
Proof. unfold count_from_last_page, py_len. rw_with rw_parse. Qed.

Lemma rw_count_from_fallback w base :
  requests_within (count_from_fallback w base) 1.
Proof. unfold count_from_fallback, py_len. rw_with fail. Qed.

Lemma rw_count_from_pagination w response base :
  requests_within (_count_from_pagination w response base) 2.
Proof.
  unfold _count_from_pagination.
  apply (rw_bind _ _ 1 1); [apply rw_count_from_last_page |].
  intros [n |]; [apply rw_ret |].
  apply (rw_bind _ _ 1 0); [apply rw_count_from_fallback |].
  intros [n |]; apply rw_ret.
Qed.

Lemma rw_contributors_count w rp :
  requests_within (_get_contributors_count w rp) 2.
Proof. unfold _get_contributors_count, py_len. cbv zeta. rw_with rw_parse. Qed.

Lemma rw_recent_commits_count w rp :
  requests_within (_get_recent_commits_count w rp) 10.
Proof.
  intros s. destruct (recent_commits_requests w rp s) as (k & Hk & [E _] & _).
  exists (first_commits_request w rp :: page_requests w rp 2 k).
  split; [exact E |]. cbn. rewrite page_requests_length. lia.
Qed.

Lemma rw_pull_requests_data w rp :
  requests_within (_get_pull_requests_data w rp) 6.
Proof.
  unfold _get_pull_requests_data, int_of_times_0_8. cbv zeta.
  apply rw_try; [| intro; apply rw_ret].
  apply (rw_bind _ _ 1 5); [apply rw_session_get | intro].
  apply (rw_bind _ _ 0 5); [apply rw_raise_for_status | intro].
  apply (rw_bind _ _ 2 3); [apply rw_count_from_pagination | intro].
  apply (rw_bind _ _ 1 2); [apply rw_session_get | intro].
  apply (rw_bind _ _ 0 2); [apply rw_raise_for_status | intro].
  apply (rw_bind _ _ 2 0); [apply rw_count_from_pagination | intro].
  rw_with fail.
Qed.

Lemma rw_issues_data w rp : requests_within (_get_issues_data w rp) 6.
Proof.
  unfold _get_issues_data. cbv zeta.
  apply rw_try; [| intro; apply rw_ret].
  apply (rw_bind _ _ 1 5); [apply rw_session_get | intro].
  apply (rw_bind _ _ 0 5); [apply rw_raise_for_status | intro].
  apply (rw_bind _ _ 2 3); [apply rw_count_from_pagination | intro].
  apply (rw_bind _ _ 1 2); [apply rw_session_get | intro].
  apply (rw_bind _ _ 0 2); [apply rw_raise_for_status | intro].
  apply (rw_bind _ _ 2 0); [apply rw_count_from_pagination | intro].
  apply rw_ret.
Qed.

(** X6.  [_count_from_pagination] issues at most two requests of its own
    (the last page and, when that gives no count, the base URL) whatever
    the response and the server; with the query that precedes each call,
    a category costs at most six requests. *)
Theorem count_from_pagination_request_bound w response base rp :
  requests_within (_count_from_pagination w response base) 2
  /\ requests_within (_get_pull_requests_data w rp) 6
  /\ requests_within (_get_issues_data w rp) 6.
Proof.
  split; [apply rw_count_from_pagination |].
  split; [apply rw_pull_requests_data | apply rw_issues_data].
Qed.

(** X7.  One call of [get_repo_data] issues at most 25 requests, whatever
    the server answers: the core query, at most 2 for the contributors,
    10 for the commits and 6 for each of the two categories. *)
Theorem get_repo_data_request_bound w rp :
  requests_within (get_repo_data w rp) 25.
Proof.
  unfold get_repo_data.
  apply rw_try; [| intro; rw_with fail].
  apply (rw_bind _ _ 1 24); [apply rw_session_get | intro].
  apply (rw_bind _ _ 0 24); [apply rw_raise_for_status | intro].
  apply (rw_bind _ _ 0 24); [apply rw_json | intro].
  apply (rw_bind _ _ 2 22); [apply rw_contributors_count | intro].
  apply (rw_bind _ _ 10 12); [apply rw_recent_commits_count | intro].
  apply (rw_bind _ _ 6 6); [apply rw_pull_requests_data | intro].
  apply (rw_bind _ _ 6 0); [apply rw_issues_data | intro].
  rw_with fail.
Qed.

(* ================================================================== *)
(** ** More on the paginated counter *)
(* ================================================================== *)

(** Reading the page number either succeeds or raises one of the two
    exceptions that the counter catches, whatever the state. *)
Lemma page_of_cases u :
  (exists L, yields (page_of u) L)
  \/ (exists e, is_ValueError e || is_IndexError e = true
                /\ forall s, page_of u s = (Raise e, s)).
Proof.
  unfold yields, page_of, py_int.
  destruct (Py.index1 (Py.split "page=" u)) as [tail |];
    [| right; exists index_error; split; [reflexivity | intros s; reflexivity]].
  destruct (Py.index0 (Py.split "&" tail)) as [value |] eqn:E0.
  2:{ right. exists index_error. split; [reflexivity |]. intros s.
      unfold bind at 1. unfold or_raise at 1, ret at 1. unfold bind at 1.
      rewrite E0. reflexivity. }
  destruct (Py.int_of_str value) as [L |] eqn:Ei.
  - left. exists L. intros s.
    unfold bind at 1. unfold or_raise at 1, ret at 1. unfold bind at 1.
    rewrite E0. unfold or_raise at 1, ret at 1. rewrite Ei. reflexivity.
  - right. exists value_error. split; [reflexivity |]. intros s.
    unfold bind at 1. unfold or_raise at 1, ret at 1. unfold bind at 1.
    rewrite E0. unfold or_raise at 1, ret at 1. rewrite Ei. reflexivity.
Qed.

Lemma per_page_of_cases u :
  (exists P, yields (per_page_of u) P)
  \/ (exists e, is_ValueError e || is_IndexError e = true
                /\ forall s, per_page_of u s = (Raise e, s)).
Proof.
  unfold yields, per_page_of, py_int.
  destruct (Py.contains "per_page=" u);
    [| left; exists 30; intros s; reflexivity].
  destruct (Py.index1 (Py.split "per_page=" u)) as [tail |];
    [| right; exists index_error; split; [reflexivity | intros s; reflexivity]].
  destruct (Py.index0 (Py.split "&" tail)) as [value |] eqn:E0.
  2:{ right. exists index_error. split; [reflexivity |]. intros s.
      unfold bind at 1. unfold or_raise at 1, ret at 1. unfold bind at 1.
      rewrite E0. reflexivity. }
  destruct (Py.int_of_str value) as [L |] eqn:Ei.
  - left. exists L. intros s.
    unfold bind at 1. unfold or_raise at 1, ret at 1. unfold bind at 1.
    rewrite E0. unfold or_raise at 1, ret at 1. rewrite Ei. reflexivity.
  - right. exists value_error. split; [reflexivity |]. intros s.
    unfold bind at 1. unfold or_raise at 1, ret at 1. unfold bind at 1.
    rewrite E0. unfold or_raise at 1, ret at 1. rewrite Ei. reflexivity.
Qed.

Lemma count_from_pagination_formula_witness :
  _count_from_pagination world_127 (first_page link_page5_inner) pulls_base
    initial
  = (Return ((5 - 1) * 30 + 7), logged initial (mkRequest url_page5_inner [])).
Proof.
  exact (count_from_pagination_formula world_127
           (first_page link_page5_inner) pulls_base link_page5_inner
           url_page5_inner 5 30 initial
           (mkResponse 200 "OK" url_page5_inner None (Json (items 7)))
           (items 7) 7
           eq_refl eq_refl (fun s => eq_refl) (fun s => eq_refl)
           (fun s => eq_refl) eq_refl eq_refl eq_refl eq_refl).
Defined.

(** X9.  Without a usable hint the count is the single page: when the
    response has no [Link] header, or one without a [rel="last"]
    relation, and the base URL is answered with status 200 and [K]
    items, the counter returns [K], and the request for the base URL is
    the only trace it leaves in the session. *)
Theorem count_from_pagination_single_page w response base s resp v K :
  (link response = None
   \/ exists h, link response = Some h /\ Py.contains rel_last h = false) ->
  server w (List.length (requests s)) (mkRequest base []) = Responds resp ->
  status_code resp = 200 -> body resp = Json v -> len_of v = Some K ->
  _count_from_pagination w response base s
  = (Return K, logged s (mkRequest base [])).
Proof.
  intros Hlink Hsrv Hst Hb HK.
  rewrite (count_from_pagination_fallback w response base s s).
  - unfold fallback_count. rewrite Hsrv, Hst, Hb, HK. reflexivity.
  - unfold count_from_last_page.
    destruct Hlink as [-> | (h & -> & ->)]; reflexivity.
Qed.

Lemma count_from_pagination_single_page_witness :
  _count_from_pagination world_127
    (mkResponse 200 "OK" "https://api.github.com/repos/o/r/pulls" None
       (Json (items 1)))
    pulls_base initial
  = (Return 30, logged initial (mkRequest pulls_base [])).
Proof.
  exact (count_from_pagination_single_page world_127
           (mkResponse 200 "OK" "https://api.github.com/repos/o/r/pulls"
              None (Json (items 1)))
           pulls_base initial
           (mkResponse 200 "OK" pulls_base None (Json (items 30)))
           (items 30) 30
           (or_introl eq_refl) eq_refl eq_refl eq_refl eq_refl).
Defined.

(** X10.  A parse failure is absorbed: when the link has a [rel="last"]
    relation but the code cannot read a page number, or cannot read a
    page size, from the URL it extracts, the counter does not ask for
    that URL; it asks for the base URL and returns what that request
    contributes. *)
Theorem count_from_pagination_unreadable_link w response base h u s :
  link response = Some h -> Py.contains rel_last h = true ->
  yields (last_url_of h) u ->
  (forall L, ~ yields (page_of u) L) \/ (forall P, ~ yields (per_page_of u) P) ->
  _count_from_pagination w response base s
  = (Return (fallback_count
               (server w (List.length (requests s)) (mkRequest base []))),
     logged s (mkRequest base [])).
Proof.
  intros Hl Hc Hu Hbad.
  apply count_from_pagination_fallback.
  unfold count_from_last_page. rewrite Hl, Hc. unfold bind at 1.
  rewrite (Hu s). unfold try_except. unfold bind at 1.
  destruct (page_of_cases u) as [[L HL] | (e & He & HR)].
  - rewrite (HL s). unfold bind at 1.
    destruct (per_page_of_cases u) as [[P HP] | (e & He & HR)].
    + destruct Hbad as [H | H]; [destruct (H L HL) | destruct (H P HP)].
    + rewrite (HR s), He. reflexivity.
  - rewrite (HR s), He. reflexivity.
Qed.

Lemma count_from_pagination_unreadable_link_witness :
  _count_from_pagination world_127 (first_page link_page5) pulls_base initial
  = (Return (fallback_count (server world_127 0 (mkRequest pulls_base []))),
     logged initial (mkRequest pulls_base [])).
Proof.
  apply (count_from_pagination_unreadable_link world_127
           (first_page link_page5) pulls_base link_page5
           "https://api.github.com/repos/o/r/pulls?state=open&page=5&per_page=30>;"
           initial eq_refl eq_refl (fun s => eq_refl)).
  right. intros P H. specialize (H initial). discriminate H.
Defined.

(** X11.  An exception that the counter does not absorb: when the link
    is read in full and the transport fails the request for the last
    page with anything but [InvalidURL], that exception leaves
    [_count_from_pagination], and the base URL is not asked. *)
Theorem count_from_pagination_transport_error_escapes w response base h u
  L P s t d :
  link response = Some h -> Py.contains rel_last h = true ->
  yields (last_url_of h) u -> yields (page_of u) L ->
  yields (per_page_of u) P ->
  server w (List.length (requests s)) (mkRequest u []) = Fails t d ->
  t <> TInvalidURL ->
  _count_from_pagination w response base s
  = (Raise (mkExn (class_of_transport t) d), logged s (mkRequest u [])).
Proof.
  intros Hl Hc Hu HL HP Hsrv Ht. unfold _count_from_pagination.
  unfold bind at 1.
  rewrite (count_from_last_page_parsed w response h u L P s Hl Hc Hu HL HP).
  rewrite Hsrv. destruct t; try reflexivity. contradiction.
Qed.

Lemma count_from_pagination_transport_error_escapes_witness :
  _count_from_pagination world_offline (first_page link_page5_inner)
    pulls_base initial
  = (Raise (mkExn (class_of_transport TConnectionError) "Connection aborted."),
     logged initial (mkRequest url_page5_inner [])).
Proof.
  apply (count_from_pagination_transport_error_escapes world_offline
           (first_page link_page5_inner) pulls_base link_page5_inner
           url_page5_inner 5 30 initial TConnectionError
           "Connection aborted."
           eq_refl eq_refl (fun s => eq_refl) (fun s => eq_refl)
           (fun s => eq_refl) eq_refl).
  discriminate.
Defined.

(* ================================================================== *)
(** ** The two categories: all or nothing *)
(* ================================================================== *)

(** X12.  All or nothing in a category: when either of the two
    one-item-per-page queries of [_get_issues_data] is refused (transport
    error or status 400 to 599), every figure of the category is 0, also
    the open count that was already obtained when it is the second query
    that is refused; the refused query is the last request issued. *)
Theorem issues_data_query_refused w rp s :
  (refused (server w (List.length (requests s)) (issues_request rp "open"))
   -> _get_issues_data w rp s
      = (Return (mkIssues 0 0 0), logged s (issues_request rp "open")))
  /\ (forall resp n s2,
        server w (List.length (requests s)) (issues_request rp "open")
          = Responds resp ->
        error_status resp = false ->
        _count_from_pagination w resp
          (base_url ++ "/repos/" ++ rp ++ "/issues?state=open")
          (logged s (issues_request rp "open"))
        = (Return n, s2) ->
        refused (server w (List.length (requests s2))
                   (issues_request rp "closed")) ->
        _get_issues_data w rp s
        = (Return (mkIssues 0 0 0), logged s2 (issues_request rp "closed"))).
Proof.
  split.
  - intros H. unfold _get_issues_data, try_except. unfold bind at 1.
    rewrite session_get_unfold. cbv zeta. fold (issues_request rp "open").
    inversion H as [t d Ho | resp Hst Ho]; [reflexivity |].
    unfold bind at 1, raise_for_status. fold (error_status resp).
    rewrite Hst. reflexivity.
  - intros resp n s2 Hsrv Hst Hcount H.
    unfold _get_issues_data, try_except. unfold bind at 1.
    rewrite session_get_unfold. cbv zeta. fold (issues_request rp "open").
    rewrite Hsrv.
    unfold bind at 1, raise_for_status. fold (error_status resp).
    rewrite Hst. unfold ret at 1. unfold bind at 1. rewrite Hcount.
    unfold bind at 1. rewrite session_get_unfold. cbv zeta.
    fold (issues_request rp "closed").
    inversion H as [t d Ho | resp2 Hst2 Ho]; [reflexivity |].
    unfold bind at 1, raise_for_status. fold (error_status resp2).
    rewrite Hst2. reflexivity.
Qed.

Lemma issues_data_query_refused_witness :
  _get_issues_data world_octo_closed_issues_down "octo/demo" initial
  = (Return (mkIssues 0 0 0),
     logged (logged (logged initial (issues_request "octo/demo" "open"))
               (mkRequest
                  "https://api.github.com/repos/octo/demo/issues?state=open"
                  []))
       (issues_request "octo/demo" "closed")).
Proof.
  destruct (issues_data_query_refused world_octo_closed_issues_down
              "octo/demo" initial) as [_ H].
  apply (H (mkResponse 200 "OK"
              "https://api.github.com/repos/octo/demo/issues" None
              (Json (items 1))) 1); try reflexivity.
  exact (refused_status
           (mkResponse 500 "Internal Server Error"
              "https://api.github.com/repos/octo/demo/issues" None
              (Json (PDict [("message", PStr "Server Error")])))
           eq_refl).
Defined.

(** X13.  An exception that escapes the counter wipes the category:
    when the open query of [_get_pull_requests_data] passes and
    [_count_from_pagination] raises on its answer, the function returns
    the all-zero figures and issues no further request. *)
Theorem pull_requests_data_counter_raises w rp s resp e s2 :
  server w (List.length (requests s)) (pulls_request rp "open")
    = Responds resp ->
  error_status resp = false ->
  _count_from_pagination w resp
    (base_url ++ "/repos/" ++ rp ++ "/pulls?state=open")
    (logged s (pulls_request rp "open"))
  = (Raise e, s2) ->
  _get_pull_requests_data w rp s = (Return (mkPR 0 0 0 0), s2).
Proof.
  intros Hsrv Hst Hcount.
  unfold _get_pull_requests_data, try_except. unfold bind at 1.
  rewrite session_get_unfold. cbv zeta. fold (pulls_request rp "open").
  rewrite Hsrv.
  unfold bind at 1, raise_for_status. fold (error_status resp).
  rewrite Hst. unfold ret at 1. unfold bind at 1. rewrite Hcount.
  reflexivity.
Qed.

Lemma pull_requests_data_counter_raises_witness :
  _get_pull_requests_data world_then_offline "octo/demo" initial
  = (Return (mkPR 0 0 0 0),
     logged (logged initial (pulls_request "octo/demo" "open"))
       (mkRequest url_pulls_page5 [])).
Proof.
  exact (pull_requests_data_counter_raises world_then_offline "octo/demo"
           initial
           (mkResponse 200 "OK" "https://api.github.com/repos/octo/demo/pulls"
              (Some link_pulls_page5) (Json (items 1)))
           (mkExn ConnectionError "Connection aborted.")
           (logged (logged initial (pulls_request "octo/demo" "open"))
              (mkRequest url_pulls_page5 []))
           eq_refl eq_refl eq_refl).
Defined.

(* ================================================================== *)
(** ** More on the contributors count *)
(* ================================================================== *)

(** X14.  Without a [rel="last"] relation the contributors are counted
    directly: when the one-item query passes and its answer has no [Link]
    header, or one without [rel="last"], the function asks for the same
    URL without parameters and, if that answer passes too, returns the
    number of items of its body; these two requests are all it
    issues. *)
Theorem contributors_count_unpaginated w rp s resp resp2 v n :
  server w (List.length (requests s)) (contributors_request rp)
    = Responds resp ->
  error_status resp = false ->
  (link resp = None
   \/ exists h, link resp = Some h /\ Py.contains rel_last h = false) ->
  server w (S (List.length (requests s))) (all_contributors_request rp)
    = Responds resp2 ->
  error_status resp2 = false ->
  body resp2 = Json v -> len_of v = Some n ->
  _get_contributors_count w rp s
  = (Return n,
     logged (logged s (contributors_request rp))
       (all_contributors_request rp)).
Proof.
  intros Hsrv Hst Hlink Hsrv2 Hst2 Hb Hn.
  unfold _get_contributors_count, try_except. cbv zeta. unfold bind at 1.
  rewrite session_get_unfold. cbv zeta. fold (contributors_request rp).
  rewrite Hsrv.
  unfold bind at 1, raise_for_status. fold (error_status resp).
  rewrite Hst. unfold ret at 1. unfold bind at 1.
  assert (Hnone :
    match link resp with
    | Some link_header =>
        if Py.contains rel_last link_header
        then last_page_url <- last_url_of link_header;;
             last_page <- page_of last_page_url;;
             ret (Some last_page)
        else ret None
    | None => ret None
    end = ret None)
    by (destruct Hlink as [-> | (h & -> & ->)]; reflexivity).
  rewrite Hnone. unfold ret at 1.
  unfold bind at 1. rewrite session_get_unfold. cbv zeta.
  fold (all_contributors_request rp). rewrite length_logged, Hsrv2.
  unfold bind at 1, raise_for_status. fold (error_status resp2).
  rewrite Hst2. unfold ret at 1. unfold bind at 1, json. rewrite Hb.
  unfold ret at 1, py_len. rewrite Hn. reflexivity.
Qed.

Lemma contributors_count_unpaginated_witness :
  _get_contributors_count (world_octo_demo core_octo) "octo/demo" initial
  = (Return 2,
     logged (logged initial (contributors_request "octo/demo"))
       (all_contributors_request "octo/demo")).
Proof.
  exact (contributors_count_unpaginated (world_octo_demo core_octo)
           "octo/demo" initial
           (mkResponse 200 "OK"
              "https://api.github.com/repos/octo/demo/contributors" None
              (Json (items 2)))
           (mkResponse 200 "OK"
              "https://api.github.com/repos/octo/demo/contributors" None
              (Json (items 2)))
           (items 2) 2
           eq_refl eq_refl (or_introl eq_refl) eq_refl eq_refl eq_refl
           eq_refl).
Defined.

(** X15.  A [rel="last"] link that cannot be read gives 0, not a direct
    count: when the one-item query passes and its answer has a
    [rel="last"] relation from whose URL the code cannot read a page
    number, [_get_contributors_count] returns 0 and issues no second
    request. *)
Theorem contributors_count_unreadable_link w rp s resp h u :
  server w (List.length (requests s)) (contributors_request rp)
    = Responds resp ->
  error_status resp = false ->
  link resp = Some h -> Py.contains rel_last h = true ->
  yields (last_url_of h) u ->
  (forall L, ~ yields (page_of u) L) ->
  _get_contributors_count w rp s
  = (Return 0, logged s (contributors_request rp)).
Proof.
  intros Hsrv Hst Hl Hc Hu Hbad.
  unfold _get_contributors_count, try_except. cbv zeta. unfold bind at 1.
  rewrite session_get_unfold. cbv zeta. fold (contributors_request rp).
  rewrite Hsrv.
  unfold bind at 1, raise_for_status. fold (error_status resp).
  rewrite Hst. unfold ret at 1. unfold bind at 1. rewrite Hl, Hc.
  unfold bind at 1. rewrite (Hu _). unfold bind at 1.
  destruct (page_of_cases u) as [[L HL] | (e & He & HR)];
    [destruct (Hbad L HL) |].
  rewrite (HR _). reflexivity.
Qed.

Lemma contributors_count_unreadable_link_witness :
  _get_contributors_count (world_linked link_no_page) "o/r" initial
  = (Return 0, logged initial (contributors_request "o/r")).
Proof.
  apply (contributors_count_unreadable_link (world_linked link_no_page)
           "o/r" initial
           (mkResponse 200 "OK"
              "https://api.github.com/repos/o/r/contributors"
              (Some link_no_page) (Json (items 1)))
           link_no_page url_no_page
           eq_refl eq_refl eq_refl eq_refl (fun s => eq_refl)).
  intros L H. specialize (H initial). vm_compute in H. discriminate H.
Defined.

(* ================================================================== *)
(** ** What the commit count adds up *)
(* ================================================================== *)

Lemma loop_run_sum w rp page commits total s r s' :
  loop_run w rp page commits total s r s' ->
  (exists n0, len_of commits = Some n0) ->
  exists l, issued s s' l
    /\ (all_countable w (List.length (requests s)) l ->
        r = Return (total + sizes w (List.length (requests s)) l)).
Proof.
  induction 1 as [ page commits total s Hc
                 | page commits total s n Hc Hne
                 | page commits total s t d Hc Hsrv
                 | page commits total s resp Hc Hsrv Hst
                 | page commits total s resp c Hc Hsrv Hst Hb
                 | page commits total s resp v Hc Hsrv Hst Hb Hn
                 | page commits total s resp v n Hc Hsrv Hst Hb Hn Hlim
                 | page commits total s resp v n r s'
                     Hc Hsrv Hst Hb Hn Hle Hrun IH ];
    intros [n0 Hn0].
  - congruence.
  - exists []. split; [apply issued_nil |]. intros _. cbn.
    now rewrite Z.add_0_r.
  - exists [commits_page_request w rp page]. split; [apply issued_one |].
    intros [(resp & v & n & E & _) _]. congruence.
  - exists [commits_page_request w rp page]. split; [apply issued_one |].
    intros [(resp' & v & n & E & H200 & _) _]. congruence.
  - exists [commits_page_request w rp page]. split; [apply issued_one |].
    intros [(resp' & v & n & E & _ & Hb' & _) _].
    rewrite Hsrv in E. injection E as <-. congruence.
  - exists [commits_page_request w rp page]. split; [apply issued_one |].
    intros [(resp' & v' & n & E & _ & Hb' & Hn') _].
    rewrite Hsrv in E. injection E as <-. congruence.
  - exists [commits_page_request w rp page]. split; [apply issued_one |].
    intros _. cbn [sizes]. unfold answer_size. rewrite Hsrv, Hb, Hn.
    f_equal. lia.
  - destruct (IH (ex_intro _ n Hn)) as (l' & Hiss & Hsum).
    exists (commits_page_request w rp page :: l').
    split; [now apply issued_cons |].
    intros [_ Hall]. rewrite length_logged in Hsum.
    rewrite (Hsum Hall). cbn [sizes]. unfold answer_size.
    rewrite Hsrv, Hb, Hn. f_equal. lia.
Qed.

Lemma recent_commits_sum w rp s :
  exists l, issued s (snd (_get_recent_commits_count w rp s)) l
    /\ (all_countable w (List.length (requests s)) l ->
        fst (_get_recent_commits_count w rp s)
        = Return (sizes w (List.length (requests s)) l)).
Proof.
  rewrite recent_commits_unfold. cbv zeta.
  assert (Hone : forall n : Z,
    (countable_page (server w (List.length (requests s))
                       (first_commits_request w rp)) -> False) ->
    exists l, issued s (snd (Return n, logged s (first_commits_request w rp))) l
      /\ (all_countable w (List.length (requests s)) l ->
          fst (Return n, logged s (first_commits_request w rp))
          = Return (sizes w (List.length (requests s)) l))).
  { intros n Hbad. exists [first_commits_request w rp].
    split; [apply issued_one |]. intros [Hc _]. destruct (Hbad Hc). }
  destruct (server w _ _) as [t d | resp] eqn:Hsrv.
  { apply Hone. intros (resp & v & n & E & _). discriminate. }
  destruct (_ && _) eqn:Hst.
  { apply Hone. intros (resp' & v & n & E & H200 & _).
    injection E as <-. rewrite H200 in Hst. discriminate. }
  destruct (body resp) as [c | v] eqn:Hb.
  { apply Hone. intros (resp' & v & n & E & _ & Hb' & _).
    injection E as <-. congruence. }
  destruct (len_of v) as [n |] eqn:Hn.
  2:{ apply Hone. intros (resp' & v' & n & E & _ & Hb' & Hn').
      injection E as <-. congruence. }
  pose proof (commits_loop_fuel w rp loop_fuel 2 v n
                (logged s (first_commits_request w rp)) ltac:(lia)
                (loop_fuel_enough)) as Hfuel.
  destruct (commits_loop w loop_fuel (commits_url rp) 2 v n _)
    as [r s'] eqn:Hloop.
  cbn [fst] in Hfuel.
  apply commits_loop_run in Hloop; [| exact Hfuel].
  destruct (loop_run_sum _ _ _ _ _ _ _ _ Hloop (ex_intro _ n Hn))
    as (l' & Hiss & Hsum).
  rewrite length_logged in Hsum.
  exists (first_commits_request w rp :: l').
  assert (Hissued : issued s s' (first_commits_request w rp :: l'))
    by now apply issued_cons.
  assert (Hval : all_countable w (List.length (requests s))
                   (first_commits_request w rp :: l') ->
                 r = Return (sizes w (List.length (requests s))
                               (first_commits_request w rp :: l'))).
  { intros [_ Hall]. rewrite (Hsum Hall). cbn [sizes]. unfold answer_size.
    rewrite Hsrv, Hb, Hn. reflexivity. }
  destruct r as [t | e |]; cbn [fst snd]; split; auto.
  intros Hall. specialize (Hval Hall). discriminate.
Qed.

(** X16.  No page is counted twice and none is skipped: when every
    request of a run of [_get_recent_commits_count] is answered with
    status 200 and a body that can be counted, the function returns the
    sum of the numbers of items of exactly the answers it fetched. *)
Theorem recent_commits_counts_what_it_fetched w rp s r s' l :
  _get_recent_commits_count w rp s = (r, s') ->
  issued s s' l ->
  all_countable w (List.length (requests s)) l ->
  r = Return (sizes w (List.length (requests s)) l).
Proof.
  intros Hrun Hiss Hall.
  destruct (recent_commits_sum w rp s) as (l0 & Hiss0 & Hsum).
  rewrite Hrun in Hiss0, Hsum. cbn [fst snd] in *.
  rewrite (issued_inj _ _ _ _ Hiss Hiss0). apply Hsum.
  now rewrite <- (issued_inj _ _ _ _ Hiss Hiss0).
Qed.

Lemma recent_commits_counts_what_it_fetched_witness :
  _get_recent_commits_count world_two_pages "o/r" initial
  = (Return 137,
     mkState [first_commits_request world_two_pages "o/r";
              commits_page_request world_two_pages "o/r" 2] [])
  /\ Return 137
     = Return (sizes world_two_pages 0
                 [first_commits_request world_two_pages "o/r";
                  commits_page_request world_two_pages "o/r" 2]).
Proof.
  split; [reflexivity |].
  apply (recent_commits_counts_what_it_fetched world_two_pages "o/r" initial
           (Return 137)
           (mkState [first_commits_request world_two_pages "o/r";
                     commits_page_request world_two_pages "o/r" 2] [])).
  - reflexivity.
  - split; reflexivity.
  - split; [| split; [| exact I]].
    + exists (mkResponse 200 "OK" (commits_url "o/r") None (Json (items 100))),
        (items 100), 100. repeat split.
    + exists (mkResponse 200 "OK" (commits_url "o/r") None (Json (items 37))),
        (items 37), 37. repeat split.
Defined.

(* ================================================================== *)
(** ** The list of repositories *)
(* ================================================================== *)

Lemma lstrip_by_head p s :
  match Py.lstrip_by p s with
  | EmptyString => True
  | String c _ => p c = false
  end.
Proof.
  induction s as [| c s IH]; cbn; [exact I |].
  destruct (p c) eqn:E; [exact IH | exact E].
Qed.

Lemma lstrip_by_fixed p s :
  match s with EmptyString => True | String c _ => p c = false end ->
  Py.lstrip_by p s = s.
Proof. destruct s as [| c s]; cbn; [reflexivity |]. now intros ->. Qed.

Lemma rev_string_involutive s : Py.rev_string (Py.rev_string s) = s.
Proof.
  unfold Py.rev_string. rewrite list_ascii_of_string_of_list_ascii.
  rewrite rev_involutive. apply string_of_list_ascii_of_string.
Qed.

(** Stripping the reverse of a string that ends in a character outside
    [p] leaves that character in place. *)
Lemma lstrip_by_keeps_last p l c :
  p c = false ->
  exists l', Py.lstrip_by p (string_of_list_ascii (l ++ [c]))
             = string_of_list_ascii (l' ++ [c]).
Proof.
  intros Hc. induction l as [| a l IH]; cbn.
  - rewrite Hc. now exists [].
  - destruct (p a); [exact IH | now exists (a :: l)].
Qed.

Lemma strip_by_head p s :
  match Py.strip_by p s with
  | EmptyString => True
  | String c _ => p c = false
  end.
Proof.
  unfold Py.strip_by.
  pose proof (lstrip_by_head p s) as Hhead.
  destruct (Py.lstrip_by p s) as [| c t]; [exact I |].
  unfold Py.rev_string at 2. cbn [list_ascii_of_string rev].
  destruct (lstrip_by_keeps_last p (rev (list_ascii_of_string t)) c Hhead)
    as [l' ->].
  unfold Py.rev_string. rewrite list_ascii_of_string_of_list_ascii.
  rewrite rev_app_distr. cbn. exact Hhead.
Qed.

(** [strip] is idempotent: what it returns has nothing left to strip. *)
Lemma strip_by_idempotent p s :
  Py.strip_by p (Py.strip_by p s) = Py.strip_by p s.
Proof.
  unfold Py.strip_by at 1.
  rewrite (lstrip_by_fixed p (Py.strip_by p s)) by apply strip_by_head.
  unfold Py.strip_by. rewrite rev_string_involutive.
  rewrite (lstrip_by_fixed p (Py.lstrip_by p _)) by apply lstrip_by_head.
  reflexivity.
Qed.

Lemma fold_keep_line lines repos :
  fold_left keep_line lines repos
  = (repos ++ filter wanted (map Py.strip lines))%list.
Proof.
  revert repos. induction lines as [| line lines IH]; intros repos; cbn.
  - now rewrite app_nil_r.
  - rewrite IH. unfold keep_line, wanted.
    destruct (negb (is_empty (Py.strip line))
              && negb (Py.startswith "#" (Py.strip line)));
      [now rewrite <- app_assoc | reflexivity].
Qed.

(** X17.  [load_repositories] never raises and issues no request.  It
    returns the empty list when the file is missing; otherwise it returns
    the lines read, stripped, less the empty ones and those that start
    with [#], in the order of the file and with repetitions kept, also
    when the reading was cut short by an error. *)
Theorem load_repositories_result disk repos_file s :
  exists s',
    load_repositories disk repos_file s
    = (Return match disk repos_file with
              | NoFile => []
              | Lines lines _ => filter wanted (map Py.strip lines)
              end, s')
    /\ requests s' = requests s.
Proof.
  unfold load_repositories.
  destruct (disk repos_file) as [| lines [e |]].
  - eexists. split; reflexivity.
  - rewrite fold_keep_line. eexists. split; reflexivity.
  - rewrite fold_keep_line. eexists. split; reflexivity.
Qed.

(** X18.  Every name that [load_repositories] returns is usable as it
    stands: it is not empty, it does not start with [#], and it has no
    white space left at either end (stripping it again changes
    nothing). *)
Theorem load_repositories_names disk repos_file s repos s' name :
  load_repositories disk repos_file s = (Return repos, s') ->
  In name repos ->
  name <> EmptyString
  /\ Py.startswith "#" name = false
  /\ Py.strip name = name.
Proof.
  intros Hrun Hin.
  assert (Hrepos : exists lines, repos = filter wanted (map Py.strip lines)).
  { unfold load_repositories in Hrun.
    destruct (disk repos_file) as [| lines [e |]];
      [exists [] | exists lines | exists lines];
      try rewrite fold_keep_line in Hrun;
      injection Hrun as <- _; reflexivity. }
  destruct Hrepos as [lines ->].
  apply filter_In in Hin as [Hin Hw].
  apply in_map_iff in Hin as (line & <- & _).
  unfold wanted in Hw. apply andb_true_iff in Hw as [H1 H2].
  apply negb_true_iff in H1, H2.
  split; [| split].
  - intros E. rewrite E in H1. discriminate.
  - exact H2.
  - apply strip_by_idempotent.
Qed.

Lemma load_repositories_names_witness :
  load_repositories disk_example "env/repos.txt" initial
  = (Return ["octo/demo"; "rust-lang/rust"; "octo/demo"], initial)
  /\ "octo/demo" <> EmptyString
  /\ Py.startswith "#" "octo/demo" = false
  /\ Py.strip "octo/demo" = "octo/demo".
Proof.
  split; [reflexivity |].
  apply (load_repositories_names disk_example "env/repos.txt" initial
           ["octo/demo"; "rust-lang/rust"; "octo/demo"] initial "octo/demo");
    [reflexivity | left; reflexivity].
Defined.

(* ================================================================== *)
(** ** Further properties of the fetcher and of its sub-fetches *)
(* ================================================================== *)

(** X19.  A core answer that is not JSON counts as a failed query: when
    the status passes [raise_for_status] and the body cannot be decoded,
    [get_repo_data] returns the error record with the decoder's
    complaint, prints the notice, and attempts no sub-fetch.  (The
    decoding error of [requests] is a [RequestException].) *)
Theorem get_repo_data_undecodable_core w rp s resp c :
  server w (List.length (requests s)) (core_request rp) = Responds resp ->
  error_status resp = false ->
  body resp = Undecodable c ->
  get_repo_data w rp s
  = (Return (_get_error_data w rp c),
     mkState (requests s ++ [core_request rp])
       (stdout s ++ [failure_notice rp c])).
Proof.
  intros Hsrv Hst Hb.
  pose proof (get_repo_data_unfold w rp s) as H. cbv zeta in H.
  rewrite Hsrv, Hst, Hb in H. exact H.
Qed.

Lemma get_repo_data_undecodable_core_witness :
  get_repo_data world_html "octo/demo" initial
  = (Return (_get_error_data world_html "octo/demo"
               "Expecting value: line 1 column 1 (char 0)"),
     mkState (requests initial ++ [core_request "octo/demo"])
       (stdout initial
        ++ [failure_notice "octo/demo"
              "Expecting value: line 1 column 1 (char 0)"])).
Proof.
  exact (get_repo_data_undecodable_core world_html "octo/demo" initial
           (mkResponse 200 "OK" "https://api.github.com/repos/octo/demo" None
              (Undecodable "Expecting value: line 1 column 1 (char 0)"))
           "Expecting value: line 1 column 1 (char 0)"
           eq_refl eq_refl eq_refl).
Defined.

Lemma len_of_nonneg v n : len_of v = Some n -> 0 <= n.
Proof.
  destruct v; cbn; try discriminate; intros [= <-];
    unfold dict_len, Py.str_len; lia.
Qed.

Lemma loop_run_nonneg w rp page commits total s r s' :
  loop_run w rp page commits total s r s' ->
  0 <= total -> forall n, r = Return n -> 0 <= n.
Proof.
  induction 1 as [ page commits total s Hc
                 | page commits total s n Hc Hne
                 | page commits total s t d Hc Hsrv
                 | page commits total s resp Hc Hsrv Hst
                 | page commits total s resp c Hc Hsrv Hst Hb
                 | page commits total s resp v Hc Hsrv Hst Hb Hn
                 | page commits total s resp v n Hc Hsrv Hst Hb Hn Hlim
                 | page commits total s resp v n r s'
                     Hc Hsrv Hst Hb Hn Hle Hrun IH ];
    intros Ht m Hm; try discriminate;
    try (injection Hm as <-; try apply len_of_nonneg in Hn; lia).
  apply len_of_nonneg in Hn. apply IH; [lia | exact Hm].
Qed.

(** X20.  The commit count is never negative: whatever the server
    answers, [_get_recent_commits_count] returns an integer that is 0 or
    more. *)
Theorem recent_commits_count_nonneg w rp s :
  exists n s', _get_recent_commits_count w rp s = (Return n, s') /\ 0 <= n.
Proof.
  destruct (recent_commits_count_returns w rp s) as (n & s' & Hrun).
  exists n, s'. split; [exact Hrun |].
  rewrite recent_commits_unfold in Hrun. cbv zeta in Hrun.
  destruct (server w _ _) as [t d | resp];
    [injection Hrun as <- _; lia |].
  destruct (_ && _); [injection Hrun as <- _; lia |].
  destruct (body resp) as [c | v]; [injection Hrun as <- _; lia |].
  destruct (len_of v) as [n0 |] eqn:Hn0; [| injection Hrun as <- _; lia].
  pose proof (commits_loop_fuel w rp loop_fuel 2 v n0
                (logged s (first_commits_request w rp)) ltac:(lia)
                (loop_fuel_enough)) as Hfuel.
  destruct (commits_loop w loop_fuel (commits_url rp) 2 v n0 _)
    as [r s1] eqn:Hloop.
  cbn [fst] in Hfuel.
  apply commits_loop_run in Hloop; [| exact Hfuel].
  apply len_of_nonneg in Hn0.
  destruct r as [m | e |].
  - injection Hrun as <- _.
    exact (loop_run_nonneg _ _ _ _ _ _ _ _ Hloop Hn0 m eq_refl).
  - injection Hrun as <- _. lia.
  - discriminate.
Qed.

Lemma split_go_absent sep s cur :
  Py.contains sep s = false ->
  Py.split_go sep s 0 cur
  = [string_of_list_ascii (rev cur ++ list_ascii_of_string s)].
Proof.
  revert cur. induction s as [| c s IH]; intros cur H.
  - cbn. now rewrite app_nil_r.
  - cbn [Py.contains] in H. apply orb_false_elim in H as [H1 H2].
    cbn [Py.split_go]. rewrite H1, (IH (c :: cur) H2). cbn.
    now rewrite <- app_assoc.
Qed.

Lemma split_absent_one sep s :
  Py.contains sep s = false -> Py.split sep s = [s].
Proof.
  intros H. unfold Py.split. rewrite (split_go_absent sep s [] H). cbn.
  now rewrite string_of_list_ascii_of_string.
Qed.

(** X21.  A URL in which the text [page=] does not occur has no page
    number for the code: [page_of] raises [IndexError] (the subscript
    [1] of a one-piece split), whatever the state. *)
Theorem page_of_without_page_parameter u s :
  Py.contains "page=" u = false ->
  page_of u s = (Raise index_error, s).
Proof.
  intros H. unfold page_of. rewrite (split_absent_one _ _ H). reflexivity.
Qed.

Lemma page_of_without_page_parameter_witness :
  page_of url_no_page initial = (Raise index_error, initial).
Proof.
  exact (page_of_without_page_parameter url_no_page initial eq_refl).
Defined.

(* ================================================================== *)
(** ** The batch *)
(* ================================================================== *)

Lemma get_repo_data_repo w rp s r s' :
  get_repo_data w rp s = (Return r, s') -> repo r = rp.
Proof.
  intros H.
  apply get_repo_data_record in H
    as [[msg ->] | (resp & core & c & rc & d & i & s1 & s2 & s3 & s4
                    & _ & _ & _ & _ & _ & _ & ->)]; reflexivity.
Qed.

Lemma get_repo_data_raises w rp s e s' :
  get_repo_data w rp s = (Raise e, s') -> e = attribute_error.
Proof.
  intros Hrun.
  pose proof (get_repo_data_unfold w rp s) as H. cbv zeta in H.
  destruct (server w _ _) as [t d | resp]; [congruence |].
  destruct (error_status resp); [congruence |].
  destruct (body resp) as [c | v]; [congruence |].
  destruct H as (c & rc & d & i & s2 & s3 & s4 & s5 & _ & _ & _ & _ & H).
  rewrite H in Hrun. destruct v; congruence.
Qed.

Lemma collect_loop_outcome w n repos :
  forall i all_data s,
    (exists data s',
        collect_loop w n i repos all_data s
        = (Return (all_data ++ data)%list, s')
        /\ map repo data = repos)
    \/ (exists s',
          collect_loop w n i repos all_data s = (Raise attribute_error, s')).
Proof.
  induction repos as [| rp rest IH]; intros i all_data s.
  - left. exists [], s. cbn. now rewrite app_nil_r.
  - set (s0 := mkState (requests s)
                 (stdout s ++ ["Fetching data for " ++ rp ++ " ("
                    ++ Py.str_of_int i ++ "/" ++ Py.str_of_int n
                    ++ ")..."]%string)%list).
    assert (Hstep :
      collect_loop w n i (rp :: rest) all_data s
      = match get_repo_data w rp s0 with
        | (Return r, s1) =>
            collect_loop w n (i + 1) rest (all_data ++ [r])%list s1
        | (Raise e, s1) => (Raise e, s1)
        | (OutOfFuel, s1) => (OutOfFuel, s1)
        end) by reflexivity.
    rewrite Hstep. clear Hstep.
    pose proof (get_repo_data_total w rp s0) as Hfuel.
    destruct (get_repo_data w rp s0) as [[r | e |] s1] eqn:Hrun;
      cbn [fst] in Hfuel.
    + destruct (IH (i + 1) (all_data ++ [r])%list s1)
        as [(data & s' & Hloop & Hmap) | (s' & Hloop)].
      * left. exists (r :: data), s'. rewrite Hloop.
        rewrite <- app_assoc. cbn. split; [reflexivity |].
        rewrite (get_repo_data_repo _ _ _ _ _ Hrun), Hmap. reflexivity.
      * right. exists s'. exact Hloop.
    + right. exists s1. now rewrite (get_repo_data_raises _ _ _ _ _ Hrun).
    + congruence.
Qed.

(** X22.  The batch keeps one record per repository, in order: started
    as [collect_and_save_data] starts it, the loop either returns one
    record for each repository, the [repo] field of the i-th being the
    i-th name, or it is left by the [AttributeError] of a
    [get_repo_data] call, which nothing catches, and the records
    collected so far are lost. *)
Theorem collect_loop_one_record_each w repos s :
  (exists data s',
      collect_loop w (Z.of_nat (List.length repos)) 1 repos [] s
      = (Return data, s')
      /\ map repo data = repos)
  \/ (exists e s',
        collect_loop w (Z.of_nat (List.length repos)) 1 repos [] s
        = (Raise e, s')
        /\ exn_cls e = AttributeError).
Proof.
  destruct (collect_loop_outcome w (Z.of_nat (List.length repos)) repos 1 [] s)
    as [(data & s' & H & Hmap) | (s' & H)].
  - left. now exists data, s'.
  - right. now exists attribute_error, s'.
Qed.

(* ================================================================== *)
(** ** The URL cut out of a header in the wire format *)
(* ================================================================== *)

Lemma list_ascii_of_string_app a b :
  list_ascii_of_string (a ++ b)
  = (list_ascii_of_string a ++ list_ascii_of_string b)%list.
Proof. induction a as [| c a IH]; cbn; [reflexivity | now rewrite IH]. Qed.

Lemma string_of_list_ascii_app l1 l2 :
  string_of_list_ascii (l1 ++ l2)
  = string_of_list_ascii l1 ++ string_of_list_ascii l2.
Proof. induction l1 as [| c l IH]; cbn; [reflexivity | now rewrite IH]. Qed.

Lemma append_assoc (a b c : string) : (a ++ b) ++ c = a ++ (b ++ c).
Proof. induction a as [| x a IH]; cbn; [reflexivity | now rewrite IH]. Qed.

Lemma rev_string_app a b :
  Py.rev_string (a ++ b) = Py.rev_string b ++ Py.rev_string a.
Proof.
  unfold Py.rev_string.
  now rewrite list_ascii_of_string_app, rev_app_distr, string_of_list_ascii_app.
Qed.

(** A prefix test sees only as many characters as the prefix has. *)
Lemma startswith_app p x y :
  (String.length p <= String.length x)%nat ->
  Py.startswith p (x ++ y) = Py.startswith p x.
Proof.
  revert x. induction p as [| a p IH]; intros x H; [reflexivity |].
  destruct x as [| b x]; cbn in H; [lia |].
  cbn. rewrite IH by lia. reflexivity.
Qed.

Lemma startswith_refl p : Py.startswith p p = true.
Proof.
  induction p as [| a p IH]; cbn; [reflexivity |].
  now rewrite Ascii.eqb_refl, IH.
Qed.

Lemma split_go_skip sep s cur :
  Py.split_go sep s (String.length s) cur = [string_of_list_ascii (rev cur)].
Proof. induction s as [| c s IH]; cbn; [reflexivity | exact IH]. Qed.

Lemma length_append a b :
  String.length (a ++ b) = (String.length a + String.length b)%nat.
Proof. induction a as [| c a IH]; cbn; [reflexivity | now rewrite IH]. Qed.

(** Splitting at a separator that occurs at the very end and nowhere
    before: the text in front of it, and an empty piece. *)
Lemma split_go_at_end sep0 c a cur :
  Py.contains (sep0 ++ String c EmptyString) (a ++ sep0) = false ->
  Py.split_go (sep0 ++ String c EmptyString)
    (a ++ sep0 ++ String c EmptyString) 0 cur
  = [string_of_list_ascii (rev cur ++ list_ascii_of_string a); EmptyString].
Proof.
  set (sep := sep0 ++ String c EmptyString).
  revert cur. induction a as [| x a IH]; intros cur H.
  - cbn [String.append list_ascii_of_string]. rewrite app_nil_r.
    fold sep. clear H.
    assert (Hs : exists y t, sep = String y t
                             /\ (String.length sep - 1)%nat = String.length t).
    { unfold sep. destruct sep0 as [| y t]; cbn; eexists; eexists;
        (split; [reflexivity | cbn; lia]). }
    destruct Hs as (y & t & Hs & Hlen).
    rewrite Hs at 2. cbn [Py.split_go]. rewrite <- Hs, startswith_refl.
    rewrite Hlen, split_go_skip. reflexivity.
  - cbn [String.append] in H. cbn [Py.contains] in H.
    apply orb_false_elim in H as [H1 H2].
    cbn [String.append Py.split_go].
    assert (Hstart : Py.startswith sep (String x (a ++ sep0 ++ String c EmptyString))
                     = false).
    { rewrite <- H1.
      change (String x (a ++ sep0 ++ String c EmptyString))
        with (String x a ++ (sep0 ++ String c EmptyString)).
      rewrite <- append_assoc.
      apply startswith_app.
      unfold sep. cbn [String.length]. rewrite !length_append.
      cbn [String.length]. lia. }
    fold sep in Hstart.
    rewrite Hstart, (IH (x :: cur) H2). cbn [rev list_ascii_of_string].
    now rewrite <- app_assoc.
Qed.

Lemma split_at_end sep0 c a :
  Py.contains (sep0 ++ String c EmptyString) (a ++ sep0) = false ->
  Py.split (sep0 ++ String c EmptyString) (a ++ sep0 ++ String c EmptyString)
  = [a; EmptyString].
Proof.
  intros H. unfold Py.split. rewrite (split_go_at_end sep0 c a [] H). cbn.
  now rewrite string_of_list_ascii_of_string.
Qed.

Lemma contains_char_app c x y :
  Py.contains (String c EmptyString) (x ++ y)
  = Py.contains (String c EmptyString) x
    || Py.contains (String c EmptyString) y.
Proof.
  induction x as [| b x IH].
  - cbn [String.append]. destruct y; reflexivity.
  - cbn [String.append Py.contains Py.startswith]. rewrite IH.
    now rewrite orb_assoc.
Qed.

Lemma rev_string_last s d :
  Py.rev_string (s ++ String d EmptyString) = String d (Py.rev_string s).
Proof. now rewrite rev_string_app. Qed.

(** A string whose first and last characters are outside [p] is left
    alone by [strip]; one trailing character inside [p] is removed, and
    so is one leading character. *)
Lemma strip_by_fixed p c m d :
  p c = false -> p d = false ->
  Py.strip_by p (String c (m ++ String d EmptyString))
  = String c (m ++ String d EmptyString).
Proof.
  intros Hc Hd. unfold Py.strip_by.
  rewrite (lstrip_by_fixed p (String c _)) by exact Hc.
  change (String c (m ++ String d EmptyString))
    with (String c m ++ String d EmptyString) at 1.
  rewrite rev_string_last.
  rewrite (lstrip_by_fixed p (String d _)) by exact Hd.
  rewrite <- rev_string_last. apply rev_string_involutive.
Qed.

Lemma strip_by_drop_last p c m d x :
  p c = false -> p d = false -> p x = true ->
  Py.strip_by p (String c (m ++ String d (String x EmptyString)))
  = String c (m ++ String d EmptyString).
Proof.
  intros Hc Hd Hx. unfold Py.strip_by.
  rewrite (lstrip_by_fixed p (String c _)) by exact Hc.
  replace (String c (m ++ String d (String x EmptyString)))
    with ((String c m ++ String d EmptyString) ++ String x EmptyString)
    by (cbn; now rewrite append_assoc).
  rewrite rev_string_last. cbn [Py.lstrip_by]. rewrite Hx.
  rewrite rev_string_last.
  rewrite (lstrip_by_fixed p (String d _)) by exact Hd.
  rewrite <- rev_string_last. apply rev_string_involutive.
Qed.

Lemma strip_by_drop_first p l c m d :
  p l = true -> p c = false -> p d = false ->
  Py.strip_by p (String l (String c (m ++ String d EmptyString)))
  = String c (m ++ String d EmptyString).
Proof.
  intros Hl Hc Hd.
  pose proof (strip_by_fixed p c m d Hc Hd) as H.
  unfold Py.strip_by in *. cbn [Py.lstrip_by]. rewrite Hl.
  cbn [Py.lstrip_by] in H. rewrite Hc in *. exact H.
Qed.

(** X23.  The closing bracket stays: for a header of one segment in the
    wire format, [<U>; rel="last"], where the URL [U] has no comma and
    does not begin with an angle bracket, and the text [rel="last"]
    occurs nowhere before the end, the text that the code takes for the
    URL of the last page is [U] followed by [>;]. *)
Theorem last_url_of_wire_format U :
  plain_start U = true ->
  Py.contains "," U = false ->
  Py.contains rel_last ("<" ++ U ++ ">; " ++ rel_last_open) = false ->
  yields (last_url_of (wire_link U)) (U ++ ">;").
Proof.
  intros Hstart Hcomma Hlast s. unfold last_url_of, wire_link.
  destruct U as [| c U]; [discriminate |].
  cbn [plain_start] in Hstart. apply negb_true_iff in Hstart.
  rename Hstart into Hang.
  assert (Hsplit :
    Py.split rel_last ("<" ++ String c U ++ ">; " ++ rel_last)
    = ["<" ++ String c U ++ ">; "; EmptyString]).
  { replace ("<" ++ String c U ++ ">; " ++ rel_last)
      with (("<" ++ String c U ++ ">; ") ++ rel_last_open
            ++ String (ascii_of_nat 34) EmptyString)
      by (cbn; now rewrite append_assoc).
    apply (split_at_end rel_last_open (ascii_of_nat 34)).
    replace (("<" ++ String c U ++ ">; ") ++ rel_last_open)
      with ("<" ++ String c U ++ ">; " ++ rel_last_open)
      by (cbn; now rewrite append_assoc).
    exact Hlast. }
  unfold bind at 1. rewrite Hsplit. cbn [Py.index0 nth_error or_raise].
  unfold ret at 1. unfold bind at 1.
  rewrite split_absent_one.
  2:{ change ("<" ++ String c U ++ ">; ")
        with (String "<" (String c U ++ ">; ")).
      cbn [Py.contains]. rewrite (contains_char_app "," (String c U) ">; ").
      rewrite Hcomma. reflexivity. }
  cbn [Py.index_last rev app nth_error or_raise]. unfold ret.
  f_equal. f_equal.
  unfold Py.strip, Py.strip_chars.
  replace ("<" ++ String c U ++ ">; ")
    with (String "<" ((String c U ++ ">") ++ String ";" (String " " EmptyString)))
    by (cbn; now rewrite append_assoc).
  rewrite strip_by_drop_last by reflexivity.
  cbn [String.append].
  replace (U ++ ">;") with ((U ++ ">") ++ String ";" EmptyString)
    by now rewrite append_assoc.
  apply strip_by_drop_first; [reflexivity | exact Hang | reflexivity].
Qed.

Lemma last_url_of_wire_format_witness :
  yields
    (last_url_of
       (wire_link
          "https://api.github.com/repos/o/r/pulls?state=open&page=5&per_page=30"))
    ("https://api.github.com/repos/o/r/pulls?state=open&page=5&per_page=30"
     ++ ">;").
Proof.
  exact (last_url_of_wire_format
           "https://api.github.com/repos/o/r/pulls?state=open&page=5&per_page=30"
           eq_refl eq_refl eq_refl).
Defined.
